(** * Reconnecting WebSocket component: a shallow embedding

    The repository ships three revisions of one React component that keeps a
    WebSocket alive:

    - [Legacy]: [src/ts/components/ReconnectWebSocket.tsx];
    - [Rev1]  : the first document of [src/ts/components/ReconnectingWebSocket.tsx]
                (lines 1-441);
    - [Rev2]  : the second document of the same file (lines 441-925), which adds
                [everConnectedRef] and [shouldAttemptReconnection].

    React refs become the fields of one record [World]; the browser's timers and
    sockets are an explicit run-time state next to them; every callback of the
    component is a function on [World].  What the component makes visible to
    the outside (calls of [setProps], of the [WebSocket] API and of [console])
    is appended to [trace].

    The callbacks of a revision take the props as one argument [p]: a [step]
    or a [run] is that of a component rendered with the same props all along.
    A callback left over from a render with other props is not modelled. *)

From Stdlib Require Import QArith Qminmax Qpower Ascii.
From stdpp Require Import gmap strings list.

Local Open Scope string_scope.
Local Open Scope nat_scope.
Local Open Scope list_scope.

(** ** JavaScript values *)

(** The values that travel through props and events.  Numbers that occur in
    events are integers (time stamps, close codes, ready states); [JNaN] is
    the number NaN, the one value that is not [===] to itself; [JRef] is an
    object known only by its identity. *)
Inductive JsVal : Type :=
| JUndefined
| JNull
| JBool (b : bool)
| JNum (n : Z)
| JNaN
| JStr (s : string)
| JRef (l : nat).

#[global] Instance JsVal_eq_dec : EqDecision JsVal.
Proof. solve_decision. Defined.

(** [a === b] on the values above: the same value, except that NaN is
    equal to nothing, itself included. *)
Definition strict_eq (a b : JsVal) : bool :=
  match a with
  | JNaN => false
  | _ => bool_decide (a = b)
  end.

(** JavaScript truthiness, as used by [||], [&&] and [if]. *)
Definition truthy (v : JsVal) : bool :=
  match v with
  | JUndefined | JNull => false
  | JBool b => b
  | JNum n => negb (n =? 0)%Z
  | JNaN => false
  | JStr s => negb (String.eqb s "")
  | JRef _ => true
  end.

(** [v !== null && v !== undefined] *)
Definition not_nullish (v : JsVal) : bool :=
  negb (strict_eq v JNull) && negb (strict_eq v JUndefined).

(** A flat JavaScript object: property name to value. *)
Abbreviation JsObj := (gmap string JsVal).

(** [WebSocket.CONNECTING], [OPEN], [CLOSING], [CLOSED]. *)
Inductive ReadyState : Type := CONNECTING | OPEN | CLOSING | CLOSED.

#[global] Instance ReadyState_eq_dec : EqDecision ReadyState.
Proof. solve_decision. Defined.

Definition readyState_code (s : ReadyState) : Z :=
  match s with CONNECTING => 0 | OPEN => 1 | CLOSING => 2 | CLOSED => 3 end.

(** ** Numbers in arithmetic *)

(** What an arithmetic operation on JavaScript numbers yields: a finite
    value, an infinity, or NaN.  Finite values are exact rationals: the
    rounding of a result that stays within the range of a double is not
    modelled, nor is the sign of zero; the overflow to an infinity is. *)
Inductive Double : Type :=
| Finite (q : Q)
| Infinity
| NegInfinity
| NaN.

(** The least magnitude that rounds to an infinity: half a unit in the last
    place above [Number.MAX_VALUE]. *)
Definition overflow_threshold : Q :=
  Eval vm_compute in inject_Z (2 ^ 1024 - 2 ^ 970).

Definition round (q : Q) : Double :=
  if Qle_bool overflow_threshold q then Infinity
  else if Qle_bool q (- overflow_threshold) then NegInfinity
  else Finite q.

Definition negate (a : Double) : Double :=
  match a with
  | Finite q => Finite (- q)
  | Infinity => NegInfinity
  | NegInfinity => Infinity
  | NaN => NaN
  end.

(** [q * Infinity] *)
Definition times_Infinity (q : Q) : Double :=
  match (q ?= 0)%Q with
  | Eq => NaN
  | Gt => Infinity
  | Lt => NegInfinity
  end.

(** [a * b] *)
Definition times (a b : Double) : Double :=
  match a, b with
  | NaN, _ | _, NaN => NaN
  | Finite x, Finite y => round (x * y)
  | Finite x, Infinity | Infinity, Finite x => times_Infinity x
  | Finite x, NegInfinity | NegInfinity, Finite x => negate (times_Infinity x)
  | Infinity, Infinity | NegInfinity, NegInfinity => Infinity
  | Infinity, NegInfinity | NegInfinity, Infinity => NegInfinity
  end.

(** [Math.pow(base, n)] for a finite base and a count [n]. *)
Definition Math_pow (base : Q) (n : nat) : Double := round (base ^ Z.of_nat n).

(** [Math.min(a, b)] *)
Definition Math_min (a b : Double) : Double :=
  match a, b with
  | NaN, _ | _, NaN => NaN
  | NegInfinity, _ | _, NegInfinity => NegInfinity
  | Infinity, c | c, Infinity => c
  | Finite x, Finite y => Finite (Qmin x y)
  end.


(** ** Urls *)

(** Whether the text after the scheme has a path: a [/] before any [?]. *)
Fixpoint has_path (s : string) : bool :=
  match s with
  | EmptyString => false
  | String c rest =>
      if Ascii.eqb c "/"%char then true
      else if Ascii.eqb c "?"%char then false
      else has_path rest
  end.

(** Puts a [/] in front of the query, or at the end when there is none. *)
Fixpoint add_root_path (s : string) : string :=
  match s with
  | EmptyString => "/"
  | String c rest =>
      if Ascii.eqb c "?"%char then String "/"%char s else String c (add_root_path rest)
  end.

(** [ws.url]: the url the constructor was given, as the browser serialises
    it.  Of the normalisations of the URL standard the one that urls written
    like [wss://echo.websocket.org] meet is modelled: an empty path becomes
    [/].  The url is taken to be in lower case, without default port, dot
    segments, fragment or characters to escape, for which the serialisation
    changes nothing else. *)
Definition serialise_url (u : string) : string :=
  match String.index 0 "://" u with
  | Some i =>
      let authority_on := String.substring (i + 3) (String.length u - (i + 3)) u in
      if has_path authority_on then u
      else String.substring 0 (i + 3) u +:+ add_root_path authority_on
  | None => u
  end.

(** ** Options and props *)

Inductive BinaryType : Type := blob | arraybuffer.

(** [Required<ReconnectingWebSocketOptions>]: the options after the defaults
    have been merged in.  [maxReconnectAttempts = None] is [null].  Durations
    and the decay are finite numbers, kept as rationals. *)
Record ReconnectingWebSocketOptions : Type := {
  debug : bool;
  automaticOpen : bool;
  reconnectInterval : Q;
  maxReconnectInterval : Q;
  reconnectDecay : Q;
  timeoutInterval : Q;
  maxReconnectAttempts : option nat;
  binaryType : BinaryType
}.

Definition default_settings : ReconnectingWebSocketOptions :=
  {| debug := false;
     automaticOpen := true;
     reconnectInterval := 1000;
     maxReconnectInterval := 30000;
     reconnectDecay := 3 # 2;
     timeoutInterval := 2000;
     maxReconnectAttempts := None;
     binaryType := blob |}.

(** The props a render closes over.  [setProps] is the Observer; only its
    presence matters here, its calls are recorded in the trace.
    [state_readyState] is [state.readyState] of the [state] prop, which only
    [Legacy] reads; [timeout] likewise. *)
Record Props : Type := {
  url : option string;
  protocols : list string;
  timeout : Q;
  hasSetProps : bool;
  settings : ReconnectingWebSocketOptions;
  state_readyState : ReadyState
}.

(** [!url] is false exactly for a non-empty string. *)
Definition url_present (p : Props) : option string :=
  match url p with
  | Some u => if String.eqb u "" then None else Some u
  | None => None
  end.

(** [settings.maxReconnectAttempts && n >= settings.maxReconnectAttempts]:
    [null] and [0] are both falsy. *)
Definition max_attempts_reached (p : Props) (n : nat) : bool :=
  match maxReconnectAttempts (settings p) with
  | Some (S m) => (S m <=? n)%nat
  | _ => false
  end.

(** [settings.maxReconnectAttempts && n > settings.maxReconnectAttempts] *)
Definition max_attempts_exceeded (p : Props) (n : nat) : bool :=
  match maxReconnectAttempts (settings p) with
  | Some (S m) => (S m <? n)%nat
  | _ => false
  end.

(** ** Event data *)

(** ['k' in originalEvent] then [baseData.k = originalEvent.k]. *)
Definition copy_field (k : string) (originalEvent baseData : JsObj) : JsObj :=
  match originalEvent !! k with
  | Some v => <[k := v]> baseData
  | None => baseData
  end.

(** [createEventData(type, originalEvent?, additionalData?)]; [now] is the
    value of [Date.now()].  An absent [additionalData] is the empty object. *)
Definition createEventData (now : Z) (type : string)
    (originalEvent : option JsObj) (additionalData : JsObj) : JsObj :=
  let isTrusted :=
    match originalEvent ≫= (λ e : JsObj, e !! "isTrusted") with
    | Some v => if truthy v then v else JBool false
    | None => JBool false
    end in
  let baseData : JsObj :=
    additionalData ∪
    <["type" := JStr type]> (<["timeStamp" := JNum now]> {["isTrusted" := isTrusted]}) in
  match originalEvent with
  | Some e =>
      copy_field "wasClean" e
        (copy_field "reason" e
          (copy_field "code" e
            (copy_field "data" e
              (copy_field "origin" e baseData))))
  | None => baseData
  end.

(** [{ readyState: s, ...eventData }] *)
Definition with_readyState (s : ReadyState) (eventData : JsObj) : JsObj :=
  eventData ∪ {["readyState" := JNum (readyState_code s)]}.

(** ** Run-time state *)

(** What a pending timer will run: the closures handed to [setTimeout], each
    with the variables it closes over.  [ConnectionTimeout ws] is the
    handshake timer of the attempt that created socket [ws], [Reconnect] the
    retry armed in [ws.onclose], [InitialOpen] the 50 ms start of the connect
    effect.  The last two exist in [Legacy] only: they resume its
    [sendMessage] after each of its two [await]s. *)
Inductive TimerCallback : Type :=
| ConnectionTimeout (ws : nat)
| Reconnect
| InitialOpen
| ResumeAfterReconnect (message : JsVal)
| ResumeAfterWaiting (message : JsVal).

(** A socket as the browser sees it: its own [readyState], the url its
    constructor was given ([ws.url] is [serialise_url] of it), and the
    [reconnectAttempt] argument the handlers attached to it closed over. *)
Record Socket : Type := {
  readyState : ReadyState;
  sock_url : string;
  sock_reconnectAttempt : bool
}.

Definition set_readyState (s : ReadyState) (k : Socket) : Socket :=
  {| readyState := s; sock_url := sock_url k;
     sock_reconnectAttempt := sock_reconnectAttempt k |}.

(** Calls that leave the component. *)
Inductive Effect : Type :=
| SetProps (update : gmap string JsObj)
| Console (message : string)
| NewWebSocket (ws : nat) (u : string) (protos : list string) (bt : BinaryType)
| WsSend (ws : nat) (message : JsVal)
| WsClose (ws : nat).

(** The refs of the component (first ten fields) and the browser state it
    runs against: the clock, the pending timers with their delay, the
    sockets created so far, the next fresh
    handle, and the trace of effects, oldest first.  [Rev1] has no
    [everConnectedRef]; [Legacy] has neither that nor [timedOutRef],
    [isReconnectAttemptRef], [currentReadyStateRef], and calls
    [connectionTimeoutRef] [timeoutIdRef]. *)
Record World : Type := {
  wsRef : option nat;
  prevSendRef : JsVal;
  reconnectAttemptsRef : nat;
  forcedCloseRef : bool;
  timedOutRef : bool;
  isReconnectAttemptRef : bool;
  everConnectedRef : bool;
  connectionTimeoutRef : option nat;
  reconnectTimeoutRef : option nat;
  currentReadyStateRef : ReadyState;
  clock : Z;
  timers : gmap nat (TimerCallback * Double);
  sockets : gmap nat Socket;
  nextId : nat;
  trace : list Effect
}.

Definition set_wsRef (v : option nat) (w : World) : World :=
  {| wsRef := v; prevSendRef := prevSendRef w;
     reconnectAttemptsRef := reconnectAttemptsRef w; forcedCloseRef := forcedCloseRef w;
     timedOutRef := timedOutRef w; isReconnectAttemptRef := isReconnectAttemptRef w;
     everConnectedRef := everConnectedRef w;
     connectionTimeoutRef := connectionTimeoutRef w;
     reconnectTimeoutRef := reconnectTimeoutRef w;
     currentReadyStateRef := currentReadyStateRef w; clock := clock w; timers := timers w;
     sockets := sockets w; nextId := nextId w; trace := trace w |}.
Definition set_prevSendRef (v : JsVal) (w : World) : World :=
  {| wsRef := wsRef w; prevSendRef := v; reconnectAttemptsRef := reconnectAttemptsRef w;
     forcedCloseRef := forcedCloseRef w; timedOutRef := timedOutRef w;
     isReconnectAttemptRef := isReconnectAttemptRef w;
     everConnectedRef := everConnectedRef w;
     connectionTimeoutRef := connectionTimeoutRef w;
     reconnectTimeoutRef := reconnectTimeoutRef w;
     currentReadyStateRef := currentReadyStateRef w; clock := clock w; timers := timers w;
     sockets := sockets w; nextId := nextId w; trace := trace w |}.
Definition set_reconnectAttemptsRef (v : nat) (w : World) : World :=
  {| wsRef := wsRef w; prevSendRef := prevSendRef w; reconnectAttemptsRef := v;
     forcedCloseRef := forcedCloseRef w; timedOutRef := timedOutRef w;
     isReconnectAttemptRef := isReconnectAttemptRef w;
     everConnectedRef := everConnectedRef w;
     connectionTimeoutRef := connectionTimeoutRef w;
     reconnectTimeoutRef := reconnectTimeoutRef w;
     currentReadyStateRef := currentReadyStateRef w; clock := clock w; timers := timers w;
     sockets := sockets w; nextId := nextId w; trace := trace w |}.
Definition set_forcedCloseRef (v : bool) (w : World) : World :=
  {| wsRef := wsRef w; prevSendRef := prevSendRef w;
     reconnectAttemptsRef := reconnectAttemptsRef w; forcedCloseRef := v;
     timedOutRef := timedOutRef w; isReconnectAttemptRef := isReconnectAttemptRef w;
     everConnectedRef := everConnectedRef w;
     connectionTimeoutRef := connectionTimeoutRef w;
     reconnectTimeoutRef := reconnectTimeoutRef w;
     currentReadyStateRef := currentReadyStateRef w; clock := clock w; timers := timers w;
     sockets := sockets w; nextId := nextId w; trace := trace w |}.
Definition set_timedOutRef (v : bool) (w : World) : World :=
  {| wsRef := wsRef w; prevSendRef := prevSendRef w;
     reconnectAttemptsRef := reconnectAttemptsRef w; forcedCloseRef := forcedCloseRef w;
     timedOutRef := v; isReconnectAttemptRef := isReconnectAttemptRef w;
     everConnectedRef := everConnectedRef w;
     connectionTimeoutRef := connectionTimeoutRef w;
     reconnectTimeoutRef := reconnectTimeoutRef w;
     currentReadyStateRef := currentReadyStateRef w; clock := clock w; timers := timers w;
     sockets := sockets w; nextId := nextId w; trace := trace w |}.
Definition set_isReconnectAttemptRef (v : bool) (w : World) : World :=
  {| wsRef := wsRef w; prevSendRef := prevSendRef w;
     reconnectAttemptsRef := reconnectAttemptsRef w; forcedCloseRef := forcedCloseRef w;
     timedOutRef := timedOutRef w; isReconnectAttemptRef := v;
     everConnectedRef := everConnectedRef w;
     connectionTimeoutRef := connectionTimeoutRef w;
     reconnectTimeoutRef := reconnectTimeoutRef w;
     currentReadyStateRef := currentReadyStateRef w; clock := clock w; timers := timers w;
     sockets := sockets w; nextId := nextId w; trace := trace w |}.
Definition set_everConnectedRef (v : bool) (w : World) : World :=
  {| wsRef := wsRef w; prevSendRef := prevSendRef w;
     reconnectAttemptsRef := reconnectAttemptsRef w; forcedCloseRef := forcedCloseRef w;
     timedOutRef := timedOutRef w; isReconnectAttemptRef := isReconnectAttemptRef w;
     everConnectedRef := v; connectionTimeoutRef := connectionTimeoutRef w;
     reconnectTimeoutRef := reconnectTimeoutRef w;
     currentReadyStateRef := currentReadyStateRef w; clock := clock w; timers := timers w;
     sockets := sockets w; nextId := nextId w; trace := trace w |}.
Definition set_connectionTimeoutRef (v : option nat) (w : World) : World :=
  {| wsRef := wsRef w; prevSendRef := prevSendRef w;
     reconnectAttemptsRef := reconnectAttemptsRef w; forcedCloseRef := forcedCloseRef w;
     timedOutRef := timedOutRef w; isReconnectAttemptRef := isReconnectAttemptRef w;
     everConnectedRef := everConnectedRef w; connectionTimeoutRef := v;
     reconnectTimeoutRef := reconnectTimeoutRef w;
     currentReadyStateRef := currentReadyStateRef w; clock := clock w; timers := timers w;
     sockets := sockets w; nextId := nextId w; trace := trace w |}.
Definition set_reconnectTimeoutRef (v : option nat) (w : World) : World :=
  {| wsRef := wsRef w; prevSendRef := prevSendRef w;
     reconnectAttemptsRef := reconnectAttemptsRef w; forcedCloseRef := forcedCloseRef w;
     timedOutRef := timedOutRef w; isReconnectAttemptRef := isReconnectAttemptRef w;
     everConnectedRef := everConnectedRef w;
     connectionTimeoutRef := connectionTimeoutRef w; reconnectTimeoutRef := v;
     currentReadyStateRef := currentReadyStateRef w; clock := clock w; timers := timers w;
     sockets := sockets w; nextId := nextId w; trace := trace w |}.
Definition set_currentReadyStateRef (v : ReadyState) (w : World) : World :=
  {| wsRef := wsRef w; prevSendRef := prevSendRef w;
     reconnectAttemptsRef := reconnectAttemptsRef w; forcedCloseRef := forcedCloseRef w;
     timedOutRef := timedOutRef w; isReconnectAttemptRef := isReconnectAttemptRef w;
     everConnectedRef := everConnectedRef w;
     connectionTimeoutRef := connectionTimeoutRef w;
     reconnectTimeoutRef := reconnectTimeoutRef w; currentReadyStateRef := v;
     clock := clock w; timers := timers w; sockets := sockets w; nextId := nextId w;
     trace := trace w |}.
Definition set_clock (v : Z) (w : World) : World :=
  {| wsRef := wsRef w; prevSendRef := prevSendRef w;
     reconnectAttemptsRef := reconnectAttemptsRef w; forcedCloseRef := forcedCloseRef w;
     timedOutRef := timedOutRef w; isReconnectAttemptRef := isReconnectAttemptRef w;
     everConnectedRef := everConnectedRef w;
     connectionTimeoutRef := connectionTimeoutRef w;
     reconnectTimeoutRef := reconnectTimeoutRef w;
     currentReadyStateRef := currentReadyStateRef w; clock := v; timers := timers w;
     sockets := sockets w; nextId := nextId w; trace := trace w |}.
Definition set_timers (v : gmap nat (TimerCallback * Double)) (w : World) : World :=
  {| wsRef := wsRef w; prevSendRef := prevSendRef w;
     reconnectAttemptsRef := reconnectAttemptsRef w; forcedCloseRef := forcedCloseRef w;
     timedOutRef := timedOutRef w; isReconnectAttemptRef := isReconnectAttemptRef w;
     everConnectedRef := everConnectedRef w;
     connectionTimeoutRef := connectionTimeoutRef w;
     reconnectTimeoutRef := reconnectTimeoutRef w;
     currentReadyStateRef := currentReadyStateRef w; clock := clock w; timers := v;
     sockets := sockets w; nextId := nextId w; trace := trace w |}.
Definition set_sockets (v : gmap nat Socket) (w : World) : World :=
  {| wsRef := wsRef w; prevSendRef := prevSendRef w;
     reconnectAttemptsRef := reconnectAttemptsRef w; forcedCloseRef := forcedCloseRef w;
     timedOutRef := timedOutRef w; isReconnectAttemptRef := isReconnectAttemptRef w;
     everConnectedRef := everConnectedRef w;
     connectionTimeoutRef := connectionTimeoutRef w;
     reconnectTimeoutRef := reconnectTimeoutRef w;
     currentReadyStateRef := currentReadyStateRef w; clock := clock w; timers := timers w;
     sockets := v; nextId := nextId w; trace := trace w |}.
Definition set_nextId (v : nat) (w : World) : World :=
  {| wsRef := wsRef w; prevSendRef := prevSendRef w;
     reconnectAttemptsRef := reconnectAttemptsRef w; forcedCloseRef := forcedCloseRef w;
     timedOutRef := timedOutRef w; isReconnectAttemptRef := isReconnectAttemptRef w;
     everConnectedRef := everConnectedRef w;
     connectionTimeoutRef := connectionTimeoutRef w;
     reconnectTimeoutRef := reconnectTimeoutRef w;
     currentReadyStateRef := currentReadyStateRef w; clock := clock w; timers := timers w;
     sockets := sockets w; nextId := v; trace := trace w |}.
Definition set_trace (v : list Effect) (w : World) : World :=
  {| wsRef := wsRef w; prevSendRef := prevSendRef w;
     reconnectAttemptsRef := reconnectAttemptsRef w; forcedCloseRef := forcedCloseRef w;
     timedOutRef := timedOutRef w; isReconnectAttemptRef := isReconnectAttemptRef w;
     everConnectedRef := everConnectedRef w;
     connectionTimeoutRef := connectionTimeoutRef w;
     reconnectTimeoutRef := reconnectTimeoutRef w;
     currentReadyStateRef := currentReadyStateRef w; clock := clock w; timers := timers w;
     sockets := sockets w; nextId := nextId w; trace := v |}.

#[global] Instance Q_eq_dec : EqDecision Q.
Proof. solve_decision. Defined.

#[global] Instance Double_eq_dec : EqDecision Double.
Proof. solve_decision. Defined.

#[global] Instance BinaryType_eq_dec : EqDecision BinaryType.
Proof. solve_decision. Defined.

#[global] Instance TimerCallback_eq_dec : EqDecision TimerCallback.
Proof. solve_decision. Defined.

#[global] Instance Socket_eq_dec : EqDecision Socket.
Proof. solve_decision. Defined.

#[global] Instance Effect_eq_dec : EqDecision Effect.
Proof. solve_decision. Defined.

#[global] Instance World_eq_dec : EqDecision World.
Proof. solve_decision. Defined.

(** The state of a freshly mounted component: every [useRef] at its initial
    value, no timer, no socket, nothing emitted. *)
Definition initial_world (now : Z) : World :=
  {| wsRef := None; prevSendRef := JUndefined; reconnectAttemptsRef := 0;
     forcedCloseRef := false; timedOutRef := false; isReconnectAttemptRef := false;
     everConnectedRef := false; connectionTimeoutRef := None;
     reconnectTimeoutRef := None; currentReadyStateRef := CLOSED;
     clock := now; timers := ∅; sockets := ∅; nextId := 1; trace := [] |}.

(** ** Callbacks as state transformers *)

(** A callback of the component is an [Action]; one that hands back a value
    (a timer handle, a socket, a decision) is a [Step].  [a >>> b] runs [a]
    and then [b]; [do x <- m; k] runs [m] and passes its value to [k]. *)
Definition Action : Type := World → World.
Definition Step (A : Type) : Type := World → A * World.

Definition seq (a b : Action) : Action := λ w, b (a w).
Infix ">>>" := seq (at level 61, left associativity).

Definition bind {A : Type} (m : Step A) (k : A → Action) : Action :=
  λ w, k (m w).1 (m w).2.
Notation "'do' x <- m ; k" := (bind m (λ x, k))
  (at level 10, x name, m at level 100, k at level 200).

Definition skip : Action := λ w, w.

(** Reading a ref or the clock. *)
Definition read {A : Type} (f : World → A) : Step A := λ w, (f w, w).

(** [if (c) { a } else { b }] and [if (c) { a }] on a condition over refs. *)
Definition ifte (c : World → bool) (a b : Action) : Action :=
  λ w, if c w then a w else b w.

Definition when_ (c : World → bool) (a : Action) : Action := ifte c a skip.

Definition emit (e : Effect) : Action := λ w, set_trace (trace w ++ [e]) w.

(** [if (settings.debug) console.debug(...)]; the interpolated arguments of
    the message are left out. *)
Definition debug_log (p : Props) (message : string) : Action :=
  if debug (settings p) then emit (Console message) else skip.

(** [safeSetProps]: forwards to [setProps] when there is one. *)
Definition safeSetProps (p : Props) (update : gmap string JsObj) : Action :=
  if hasSetProps p then emit (SetProps update) else skip.

(** [Date.now()] *)
Definition date_now : Step Z := read clock.

(** [setTimeout(cb, ms)] returns a fresh handle; handles are truthy.  The
    timer is recorded with the delay it was given. *)
Definition setTimeout (cb : TimerCallback) (ms : Double) : Step nat :=
  λ w, (nextId w, set_nextId (S (nextId w)) (set_timers (<[nextId w := (cb, ms)]> (timers w)) w)).

(** [clearTimeout(t)] *)
Definition clearTimeout (t : nat) : Action :=
  λ w, set_timers (delete t (timers w)) w.

(** [new WebSocket(url, protocols || [])] followed by [ws.binaryType = ...];
    the socket starts in [CONNECTING].  The url is taken to be one the
    constructor accepts: that it throws on others is not modelled. *)
Definition newWebSocket (p : Props) (u : string) (reconnectAttempt : bool) : Step nat :=
  λ w,
    (nextId w,
     emit (NewWebSocket (nextId w) u (protocols p) (binaryType (settings p)))
       (set_nextId (S (nextId w))
          (set_sockets
             (<[nextId w := {| readyState := CONNECTING; sock_url := u;
                               sock_reconnectAttempt := reconnectAttempt |}]> (sockets w))
             w))).

(** [ws.close()]: starts the closing handshake unless the socket is already
    closing or closed.  The [close] event is delivered later, as a task of
    its own ([deliver_close] below), never inside the call. *)
Definition ws_close (ws : nat) : Action :=
  emit (WsClose ws) >>>
  (λ w,
     match sockets w !! ws with
     | Some k =>
         match readyState k with
         | CONNECTING | OPEN =>
             set_sockets (<[ws := set_readyState CLOSING k]> (sockets w)) w
         | CLOSING | CLOSED => w
         end
     | None => w
     end).

(** [ws.send(message)]: throws ([None]) while the socket is connecting,
    transmits when it is open, and drops the data otherwise. *)
Definition ws_send (ws : nat) (message : JsVal) (w : World) : option World :=
  match readyState <$> sockets w !! ws with
  | Some CONNECTING => None
  | Some OPEN => Some (emit (WsSend ws message) w)
  | _ => Some w
  end.

(** [if (ref.current) { clearTimeout(ref.current); ref.current = null; }] for
    the two timer refs. *)
Definition clear_connectionTimeout : Action :=
  λ w,
    match connectionTimeoutRef w with
    | Some t => set_connectionTimeoutRef None (clearTimeout t w)
    | None => w
    end.

Definition clear_reconnectTimeout : Action :=
  λ w,
    match reconnectTimeoutRef w with
    | Some t => set_reconnectTimeoutRef None (clearTimeout t w)
    | None => w
    end.

(** [if (wsRef.current) { wsRef.current.close(); }] *)
Definition close_current : Action :=
  λ w, match wsRef w with Some ws => ws_close ws w | None => w end.

(** The object [{ readyState: WebSocket.CONNECTING }] and the update every
    fresh connection attempt starts with. *)
Definition connecting_state : JsObj := {["readyState" := JNum (readyState_code CONNECTING)]}.

Definition connecting_update (now : Z) : gmap string JsObj :=
  {["connecting" := createEventData now "connecting" None ∅;
    "state" := connecting_state]}.

(** [{ state: { readyState: s, ...createEventData(type, event, additionalData) } }] *)
Definition state_update (s : ReadyState) (type : string) (event : JsObj)
    (additionalData : JsObj) (now : Z) : gmap string JsObj :=
  {["state" := with_readyState s (createEventData now type (Some event) additionalData)]}.

(** [{ connecting: createEventData('connecting', event),
       state: { readyState: WebSocket.CONNECTING } }] *)
Definition reconnecting_update (event : JsObj) (now : Z) : gmap string JsObj :=
  {["connecting" := createEventData now "connecting" (Some event) ∅;
    "state" := connecting_state]}.

(** [{ message: createEventData('message', event) }] and the same for
    [error]. *)
Definition event_update (type : string) (event : JsObj) (now : Z) : gmap string JsObj :=
  {[type := createEventData now type (Some event) ∅]}.

(** What the connect effect hands back to React as its cleanup. *)
Inductive Cleanup : Type :=
| NoCleanup
| Disconnect
| ClearAndDisconnect (initTimeout : nat).

(** What the host and the browser can do to a mounted component. *)
Inductive Input : Type :=
| TimerFires (t : nat)
| TransportOpen (ws : nat) (event : JsObj)
| TransportMessage (ws : nat) (event : JsObj)
| TransportError (ws : nat) (event : JsObj)
| TransportClose (ws : nat) (event : JsObj)
| SendProp (send : JsVal)
| ConnectEffect
| ConnectCleanup (c : Cleanup)
| Unmount
| Tick (ms : Z).

(** The browser side of a transport event: the socket changes its own
    ready state, then the handler attached to it runs.  An event for a socket
    that cannot raise it is not delivered. *)
Definition deliver_open (ws : nat) (handler : bool → Action) : Action :=
  λ w,
    match sockets w !! ws with
    | Some k =>
        match readyState k with
        | CONNECTING =>
            handler (sock_reconnectAttempt k)
              (set_sockets (<[ws := set_readyState OPEN k]> (sockets w)) w)
        | _ => w
        end
    | None => w
    end.

Definition deliver_close (ws : nat) (handler : Action) : Action :=
  λ w,
    match sockets w !! ws with
    | Some k =>
        match readyState k with
        | CLOSED => w
        | _ => handler (set_sockets (<[ws := set_readyState CLOSED k]> (sockets w)) w)
        end
    | None => w
    end.

Definition deliver_while_alive (ws : nat) (handler : Action) : Action :=
  λ w,
    match readyState <$> sockets w !! ws with
    | Some CLOSED | None => w
    | Some _ => handler w
    end.

Definition deliver_message (ws : nat) (handler : Action) : Action :=
  λ w,
    match readyState <$> sockets w !! ws with
    | Some OPEN | Some CLOSING => handler w
    | _ => w
    end.

(** A timer that is still pending fires once; a cleared one never does. *)
Definition fire_timer (t : nat) (run : TimerCallback → Action) : Action :=
  λ w,
    match timers w !! t with
    | Some (cb, _) => run cb (clearTimeout t w)
    | None => w
    end.

(** ** ReconnectWebSocket.tsx *)

Module Legacy.

Section WithProps.

Variable p : Props.

(** [connect] returns at once without a [setProps], so its callbacks call
    [setProps] unguarded. *)
Definition setProps (update : gmap string JsObj) : Action := emit (SetProps update).

(** The back-off delay computed in [ws.onclose]. *)
Definition delay (attempts : nat) : Double :=
  Math_min
    (times (Finite (reconnectInterval (settings p)))
       (Math_pow (reconnectDecay (settings p)) attempts))
    (Finite (maxReconnectInterval (settings p))).

(** [connect(isReconnectAttempt)] *)
Definition connect (isReconnectAttempt : bool) : Action :=
  match url_present p with
  | None => skip
  | Some u =>
      if negb (hasSetProps p) then skip
      else
        ifte (λ w, isReconnectAttempt && max_attempts_exceeded p (reconnectAttemptsRef w))
          (debug_log p "Max reconnection attempts reached")
          (do ws <- newWebSocket p u isReconnectAttempt;
           set_wsRef (Some ws) >>>
           (if isReconnectAttempt then skip
            else
              set_reconnectAttemptsRef 0 >>>
              (do t <- date_now; setProps (connecting_update t))) >>>
           debug_log p "attempt-connect" >>>
           (do t <- setTimeout (ConnectionTimeout ws) (Finite (timeoutInterval (settings p)));
            set_connectionTimeoutRef (Some t)))
  end.

(** The handshake timer armed by [connect] for socket [ws]. *)
Definition connectionTimeout (ws : nat) : Action :=
  debug_log p "connection-timeout" >>> ws_close ws.

(** [ws.onopen]; [isReconnectAttempt] is the argument of the [connect] call
    that created the socket. *)
Definition ws_onopen (isReconnectAttempt : bool) (event : JsObj) : Action :=
  clear_connectionTimeout >>>
  debug_log p "onopen" >>>
  set_reconnectAttemptsRef 0 >>>
  (do t <- date_now;
   setProps (state_update OPEN "open" event {["isReconnect" := JBool isReconnectAttempt]} t)).

(** [ws.onmessage] *)
Definition ws_onmessage (event : JsObj) : Action :=
  debug_log p "onmessage" >>>
  (do t <- date_now; setProps (event_update "message" event t)).

(** [ws.onerror] *)
Definition ws_onerror (event : JsObj) : Action :=
  debug_log p "onerror" >>>
  (do t <- date_now; setProps (event_update "error" event t)).

(** [ws.onclose] *)
Definition ws_onclose (event : JsObj) : Action :=
  clear_connectionTimeout >>>
  set_wsRef None >>>
  ifte forcedCloseRef
    (do t <- date_now; setProps (state_update CLOSED "close" event ∅ t))
    (debug_log p "onclose" >>>
     (do t <- date_now; setProps (reconnecting_update event t)) >>>
     (do d <- read (λ w, delay (reconnectAttemptsRef w));
      debug_log p "Scheduling reconnection" >>>
      (do t <- setTimeout Reconnect d; set_reconnectTimeoutRef (Some t)))).

(** The callback of the reconnection timer armed in [ws.onclose]. *)
Definition reconnect : Action :=
  (do n <- read reconnectAttemptsRef; set_reconnectAttemptsRef (S n)) >>>
  connect true.

(** [disconnect()] *)
Definition disconnect : Action :=
  clear_connectionTimeout >>>
  clear_reconnectTimeout >>>
  (do current <- read wsRef;
   match current with
   | Some ws => set_forcedCloseRef true >>> ws_close ws >>> set_wsRef None
   | None => skip
   end).

(** [sendMessage(message)], an [async] function with two [await]s on timers.
    Each piece below runs without interruption; the remainder is left in a
    pending timer.  [state.readyState] is the prop the callback closed over,
    so it has the same value in all three pieces. *)
Definition sendMessage_now (message : JsVal) : Action :=
  λ w,
    match bool_decide (state_readyState p = OPEN), wsRef w with
    | true, Some ws =>
        match ws_send ws message w with
        | Some w' => debug_log p "Message sent" w'
        | None => debug_log p "Send failed" w
        end
    | _, _ => debug_log p "Unable to send message - connection not ready" w
    end.

Definition sendMessage_waiting (message : JsVal) : Action :=
  if bool_decide (state_readyState p = CONNECTING) then
    debug_log p "Connection CONNECTING. Waiting..." >>>
    (do _ <- setTimeout (ResumeAfterWaiting message) (Finite (timeout p)); skip)
  else sendMessage_now message.

Definition sendMessage (message : JsVal) : Action :=
  if negb (hasSetProps p) then skip
  else if bool_decide (state_readyState p = CLOSED) then
    debug_log p "Connection CLOSED. Attempting to reconnect..." >>>
    set_forcedCloseRef false >>>
    connect false >>>
    (do _ <- setTimeout (ResumeAfterReconnect message) (Finite 100); skip)
  else sendMessage_waiting message.

(** The effect that opens the connection; its cleanup is [disconnect]. *)
Definition connect_effect : Step Cleanup :=
  λ w,
    (Disconnect,
     (disconnect >>>
      set_forcedCloseRef false >>>
      match url_present p with
      | Some _ => if automaticOpen (settings p) then connect false else skip
      | None => skip
      end) w).

Definition connect_cleanup (c : Cleanup) : Action :=
  match c with
  | NoCleanup => skip
  | Disconnect => disconnect
  | ClearAndDisconnect t => clearTimeout t >>> disconnect
  end.

(** The effect on the [send] prop. *)
Definition send_effect (send : JsVal) : Action :=
  ifte (λ w, strict_eq (prevSendRef w) send) skip
    (set_prevSendRef send >>>
     (if not_nullish send then sendMessage send else skip)).

(** What a timer runs when it fires. *)
Definition run_timer (cb : TimerCallback) : Action :=
  match cb with
  | ConnectionTimeout ws => connectionTimeout ws
  | Reconnect => reconnect
  | InitialOpen => skip
  | ResumeAfterReconnect message => sendMessage_waiting message
  | ResumeAfterWaiting message => sendMessage_now message
  end.

(** One step of the component. *)
Definition step (i : Input) : Action :=
  match i with
  | TimerFires t => fire_timer t run_timer
  | TransportOpen ws event => deliver_open ws (λ r, ws_onopen r event)
  | TransportMessage ws event => deliver_message ws (ws_onmessage event)
  | TransportError ws event => deliver_while_alive ws (ws_onerror event)
  | TransportClose ws event => deliver_close ws (ws_onclose event)
  | SendProp send => send_effect send
  | ConnectEffect => λ w, (connect_effect w).2
  | ConnectCleanup c => connect_cleanup c
  | Unmount => disconnect
  | Tick ms => λ w, set_clock (clock w + ms)%Z w
  end.

Definition run (inputs : list Input) (w : World) : World :=
  foldl (λ w i, step i w) w inputs.

End WithProps.

End Legacy.

(** ** First revision of ReconnectingWebSocket.tsx (lines 1-441) *)

Module Rev1.

Section WithProps.

Variable p : Props.

(** The back-off delay computed in [ws.onclose]. *)
Definition delay (attempts : nat) : Double :=
  Math_min
    (times (Finite (reconnectInterval (settings p)))
       (Math_pow (reconnectDecay (settings p)) attempts))
    (Finite (maxReconnectInterval (settings p))).

(** [openConnection(reconnectAttempt)] *)
Definition openConnection (reconnectAttempt : bool) : Action :=
  match url_present p with
  | None => skip
  | Some u =>
      ifte (λ w, reconnectAttempt && max_attempts_exceeded p (reconnectAttemptsRef w))
        (debug_log p "Max reconnection attempts reached")
        ((if reconnectAttempt then skip
          else
            (do t <- date_now; safeSetProps p (connecting_update t)) >>>
            set_reconnectAttemptsRef 0) >>>
         set_isReconnectAttemptRef reconnectAttempt >>>
         set_currentReadyStateRef CONNECTING >>>
         debug_log p "attempt-connect" >>>
         (do ws <- newWebSocket p u reconnectAttempt;
          set_wsRef (Some ws) >>>
          (do t <- setTimeout (ConnectionTimeout ws) (Finite (timeoutInterval (settings p)));
           set_connectionTimeoutRef (Some t))))
  end.

(** The handshake timer armed by [openConnection] for socket [ws]. *)
Definition connectionTimeout (ws : nat) : Action :=
  debug_log p "connection-timeout" >>>
  set_timedOutRef true >>>
  ws_close ws >>>
  set_timedOutRef false.

(** [ws.onopen] *)
Definition ws_onopen (event : JsObj) : Action :=
  clear_connectionTimeout >>>
  debug_log p "onopen" >>>
  set_currentReadyStateRef OPEN >>>
  set_reconnectAttemptsRef 0 >>>
  (do t <- date_now;
   do r <- read isReconnectAttemptRef;
   safeSetProps p (state_update OPEN "open" event {["isReconnect" := JBool r]} t)) >>>
  set_isReconnectAttemptRef false.

(** [ws.onmessage] *)
Definition ws_onmessage (event : JsObj) : Action :=
  debug_log p "onmessage" >>>
  (do t <- date_now; safeSetProps p (event_update "message" event t)).

(** [ws.onerror] *)
Definition ws_onerror (event : JsObj) : Action :=
  debug_log p "onerror" >>>
  (do t <- date_now; safeSetProps p (event_update "error" event t)).

(** [ws.onclose] *)
Definition ws_onclose (event : JsObj) : Action :=
  clear_connectionTimeout >>>
  set_wsRef None >>>
  debug_log p "onclose" >>>
  ifte forcedCloseRef
    (set_currentReadyStateRef CLOSED >>>
     (do t <- date_now; safeSetProps p (state_update CLOSED "close" event ∅ t)))
    (set_currentReadyStateRef CONNECTING >>>
     (do t <- date_now; safeSetProps p (reconnecting_update event t)) >>>
     when_ (λ w, negb (isReconnectAttemptRef w) && negb (timedOutRef w))
       (debug_log p "dispatching close event for initial connection loss" >>>
        (do t <- date_now; safeSetProps p (state_update CONNECTING "close" event ∅ t))) >>>
     (do d <- read (λ w, delay (reconnectAttemptsRef w));
      debug_log p "Scheduling reconnection attempt" >>>
      (do t <- setTimeout Reconnect d; set_reconnectTimeoutRef (Some t)))).

(** The callback of the reconnection timer armed in [ws.onclose]. *)
Definition reconnect : Action :=
  (do n <- read reconnectAttemptsRef; set_reconnectAttemptsRef (S n)) >>>
  openConnection true.

(** [disconnect()] *)
Definition disconnect : Action :=
  set_forcedCloseRef true >>>
  clear_connectionTimeout >>>
  clear_reconnectTimeout >>>
  close_current.

(** The [try] block of [sendMessage]: [inl] when the message was handed to
    the socket and the function returned, [inr] when it goes on. *)
Definition try_send (message : JsVal) (w : World) : World + World :=
  match currentReadyStateRef w, wsRef w with
  | OPEN, Some ws =>
      match ws_send ws message w with
      | Some w' => inl (debug_log p "Message sent successfully" w')
      | None => inr (debug_log p "Send failed" w)
      end
  | _, _ => inr w
  end.

(** [sendMessage(message)].  The function is declared [async] but holds no
    [await]: its body runs to completion inside the call. *)
Definition sendMessage (message : JsVal) : Action :=
  if negb (hasSetProps p) then skip
  else
    λ w,
      match try_send message w with
      | inl w => w
      | inr w =>
          (debug_log p "Cannot send message - connection state" >>>
           when_ (λ w, bool_decide (currentReadyStateRef w = CLOSED))
             (debug_log p "Attempting to reconnect for message send" >>>
              set_forcedCloseRef false >>>
              openConnection false)) w
      end.

(** [wsRef.current && wsRef.current.readyState === WebSocket.OPEN
    && wsRef.current.url === url]: the url prop is compared with the
    serialised url of the socket. *)
Definition connection_already_good (w : World) : bool :=
  match wsRef w ≫= (λ ws, sockets w !! ws) with
  | Some k =>
      bool_decide (readyState k = OPEN)
      && bool_decide (url p = Some (serialise_url (sock_url k)))
  | None => false
  end.

(** The effect that opens the connection, and its cleanup. *)
Definition connect_effect : Step Cleanup :=
  λ w,
    if connection_already_good w then (NoCleanup, w)
    else
      let w := (disconnect >>> set_forcedCloseRef false) w in
      match url_present p with
      | Some _ =>
          if automaticOpen (settings p) then
            let r := setTimeout InitialOpen (Finite 50) w in (ClearAndDisconnect r.1, r.2)
          else (Disconnect, w)
      | None => (Disconnect, w)
      end.

Definition connect_cleanup (c : Cleanup) : Action :=
  match c with
  | NoCleanup => skip
  | Disconnect => disconnect
  | ClearAndDisconnect t => clearTimeout t >>> disconnect
  end.

(** The effect on the [send] prop. *)
Definition send_effect (send : JsVal) : Action :=
  ifte (λ w, strict_eq (prevSendRef w) send) skip
    (set_prevSendRef send >>>
     (if not_nullish send then sendMessage send else skip)).

(** What a timer runs when it fires. *)
Definition run_timer (cb : TimerCallback) : Action :=
  match cb with
  | ConnectionTimeout ws => connectionTimeout ws
  | Reconnect => reconnect
  | InitialOpen => openConnection false
  | ResumeAfterReconnect _ | ResumeAfterWaiting _ => skip
  end.

(** One step of the component. *)
Definition step (i : Input) : Action :=
  match i with
  | TimerFires t => fire_timer t run_timer
  | TransportOpen ws event => deliver_open ws (λ _, ws_onopen event)
  | TransportMessage ws event => deliver_message ws (ws_onmessage event)
  | TransportError ws event => deliver_while_alive ws (ws_onerror event)
  | TransportClose ws event => deliver_close ws (ws_onclose event)
  | SendProp send => send_effect send
  | ConnectEffect => λ w, (connect_effect w).2
  | ConnectCleanup c => connect_cleanup c
  | Unmount => disconnect
  | Tick ms => λ w, set_clock (clock w + ms)%Z w
  end.

Definition run (inputs : list Input) (w : World) : World :=
  foldl (λ w i, step i w) w inputs.

End WithProps.

End Rev1.

(** ** Second revision of ReconnectingWebSocket.tsx (lines 441-925) *)

Module Rev2.

Section WithProps.

Variable p : Props.

(** [shouldAttemptReconnection(event)], with the debug output it produces. *)
Definition serverUnavailableCodes : list Z := [1006; 1002; 1011]%Z.

Definition code_unavailable (event : JsObj) : bool :=
  match event !! "code" with
  | Some (JNum c) => bool_decide (c ∈ serverUnavailableCodes)
  | _ => false
  end.

Definition shouldAttemptReconnection (event : JsObj) : Step bool :=
  λ w,
    if forcedCloseRef w then (false, w)
    else if max_attempts_reached p (reconnectAttemptsRef w) then
      (false, debug_log p "Max reconnection attempts reached" w)
    else if negb (everConnectedRef w) && code_unavailable event then
      if (3 <=? reconnectAttemptsRef w)%nat then
        (false,
         debug_log p "Server appears unavailable, stopping reconnection attempts" w)
      else (true, w)
    else (true, w).

(** The back-off delay computed in [ws.onclose]. *)
Definition baseInterval (everConnected : bool) : Double :=
  if everConnected then Finite (reconnectInterval (settings p))
  else times (Finite (reconnectInterval (settings p))) (Finite 3).

Definition delay (everConnected : bool) (attempts : nat) : Double :=
  Math_min
    (times (baseInterval everConnected) (Math_pow (reconnectDecay (settings p)) attempts))
    (Finite (maxReconnectInterval (settings p))).

(** [openConnection(reconnectAttempt)] *)
Definition openConnection (reconnectAttempt : bool) : Action :=
  match url_present p with
  | None => skip
  | Some u =>
      set_isReconnectAttemptRef reconnectAttempt >>>
      set_currentReadyStateRef CONNECTING >>>
      (if reconnectAttempt then skip
       else
         (do t <- date_now; safeSetProps p (connecting_update t)) >>>
         set_reconnectAttemptsRef 0) >>>
      debug_log p "attempt-connect" >>>
      (do ws <- newWebSocket p u reconnectAttempt;
       set_wsRef (Some ws) >>>
       (do t <- setTimeout (ConnectionTimeout ws) (Finite (timeoutInterval (settings p)));
        set_connectionTimeoutRef (Some t)))
  end.

(** The handshake timer armed by [openConnection] for socket [ws]. *)
Definition connectionTimeout (ws : nat) : Action :=
  debug_log p "connection-timeout" >>>
  set_timedOutRef true >>>
  ws_close ws >>>
  set_timedOutRef false.

(** [ws.onopen] *)
Definition ws_onopen (event : JsObj) : Action :=
  clear_connectionTimeout >>>
  debug_log p "onopen" >>>
  set_everConnectedRef true >>>
  set_currentReadyStateRef OPEN >>>
  set_reconnectAttemptsRef 0 >>>
  (do t <- date_now;
   do r <- read isReconnectAttemptRef;
   safeSetProps p (state_update OPEN "open" event {["isReconnect" := JBool r]} t)) >>>
  set_isReconnectAttemptRef false.

(** [ws.onmessage] *)
Definition ws_onmessage (event : JsObj) : Action :=
  debug_log p "onmessage" >>>
  (do t <- date_now; safeSetProps p (event_update "message" event t)).

(** [ws.onerror] *)
Definition ws_onerror (event : JsObj) : Action :=
  debug_log p "onerror" >>>
  (do t <- date_now; safeSetProps p (event_update "error" event t)).

(** The annotation of the close event that ends the retries. *)
Definition reconnectionStopped : JsObj :=
  {["reconnectionStopped" := JBool true;
    "reason" := JStr "Max attempts reached or server unavailable"]}.

(** [ws.onclose] *)
Definition ws_onclose (event : JsObj) : Action :=
  clear_connectionTimeout >>>
  set_wsRef None >>>
  debug_log p "onclose" >>>
  ifte forcedCloseRef
    (set_currentReadyStateRef CLOSED >>>
     (do t <- date_now; safeSetProps p (state_update CLOSED "close" event ∅ t)))
    (do again <- shouldAttemptReconnection event;
     if negb again then
       set_currentReadyStateRef CLOSED >>>
       (do t <- date_now;
        safeSetProps p (state_update CLOSED "close" event reconnectionStopped t))
     else
       set_currentReadyStateRef CONNECTING >>>
       (do t <- date_now; safeSetProps p (reconnecting_update event t)) >>>
       when_ (λ w, negb (isReconnectAttemptRef w) && negb (timedOutRef w))
         (debug_log p "dispatching close event for connection loss" >>>
          (do t <- date_now; safeSetProps p (state_update CONNECTING "close" event ∅ t))) >>>
       (do d <- read (λ w, delay (everConnectedRef w) (reconnectAttemptsRef w));
        debug_log p "Scheduling reconnection attempt" >>>
        (do t <- setTimeout Reconnect d; set_reconnectTimeoutRef (Some t)))).

(** The callback of the reconnection timer armed in [ws.onclose]. *)
Definition reconnect : Action :=
  (do n <- read reconnectAttemptsRef; set_reconnectAttemptsRef (S n)) >>>
  openConnection true.

(** [disconnect()] *)
Definition disconnect : Action :=
  set_forcedCloseRef true >>>
  clear_connectionTimeout >>>
  clear_reconnectTimeout >>>
  close_current.

(** The [try] block of [sendMessage]: [inl] when the message was handed to
    the socket and the function returned, [inr] when it goes on. *)
Definition try_send (message : JsVal) (w : World) : World + World :=
  match currentReadyStateRef w, wsRef w with
  | OPEN, Some ws =>
      match ws_send ws message w with
      | Some w' => inl (debug_log p "Message sent successfully" w')
      | None => inr (debug_log p "Send failed" w)
      end
  | _, _ => inr w
  end.

(** [sendMessage(message)].  The function is declared [async] but holds no
    [await]: its body runs to completion inside the call. *)
Definition sendMessage (message : JsVal) : Action :=
  if negb (hasSetProps p) then skip
  else
    λ w,
      match try_send message w with
      | inl w => w
      | inr w =>
          (debug_log p "Cannot send message - connection state" >>>
           when_ (λ w, bool_decide (currentReadyStateRef w = CLOSED) && everConnectedRef w)
             (debug_log p "Attempting to reconnect for message send" >>>
              set_forcedCloseRef false >>>
              openConnection false)) w
      end.

(** The effect that opens the connection, and its cleanup. *)
Definition connect_effect : Step Cleanup :=
  λ w,
    let w := set_forcedCloseRef false w in
    match url_present p with
    | Some _ =>
        if automaticOpen (settings p) then
          let r := setTimeout InitialOpen (Finite 50) w in (ClearAndDisconnect r.1, r.2)
        else (Disconnect, w)
    | None => (Disconnect, w)
    end.

Definition connect_cleanup (c : Cleanup) : Action :=
  match c with
  | NoCleanup => skip
  | Disconnect => disconnect
  | ClearAndDisconnect t => clearTimeout t >>> disconnect
  end.

(** The effect on the [send] prop. *)
Definition send_effect (send : JsVal) : Action :=
  ifte (λ w, strict_eq (prevSendRef w) send) skip
    (set_prevSendRef send >>>
     (if not_nullish send then sendMessage send else skip)).

(** What a timer runs when it fires. *)
Definition run_timer (cb : TimerCallback) : Action :=
  match cb with
  | ConnectionTimeout ws => connectionTimeout ws
  | Reconnect => reconnect
  | InitialOpen => openConnection false
  | ResumeAfterReconnect _ | ResumeAfterWaiting _ => skip
  end.

(** One step of the component. *)
Definition step (i : Input) : Action :=
  match i with
  | TimerFires t => fire_timer t run_timer
  | TransportOpen ws event => deliver_open ws (λ _, ws_onopen event)
  | TransportMessage ws event => deliver_message ws (ws_onmessage event)
  | TransportError ws event => deliver_while_alive ws (ws_onerror event)
  | TransportClose ws event => deliver_close ws (ws_onclose event)
  | SendProp send => send_effect send
  | ConnectEffect => λ w, (connect_effect w).2
  | ConnectCleanup c => connect_cleanup c
  | Unmount => disconnect
  | Tick ms => λ w, set_clock (clock w + ms)%Z w
  end.

Definition run (inputs : list Input) (w : World) : World :=
  foldl (λ w i, step i w) w inputs.

End WithProps.

End Rev2.

(** ** Reading a trace *)

(** The updates handed to the Observer, the sockets created, and the
    messages passed on to a socket, each in order. *)
Definition observer (tr : list Effect) : list (gmap string JsObj) :=
  omap (λ e, match e with SetProps u => Some u | _ => None end) tr.

Definition opened (tr : list Effect) : list nat :=
  omap (λ e, match e with NewWebSocket ws _ _ _ => Some ws | _ => None end) tr.

Definition sent (tr : list Effect) : list (nat * JsVal) :=
  omap (λ e, match e with WsSend ws m => Some (ws, m) | _ => None end) tr.

(** The field [k] of the [state] object of an update. *)
Definition state_field (u : gmap string JsObj) (k : string) : option JsVal :=
  u !! "state" ≫= (λ o : JsObj, o !! k).

(** An update whose [state] is a [close] event with the given [readyState]. *)
Definition is_close_event (s : ReadyState) (u : gmap string JsObj) : bool :=
  match u !! "state" with
  | Some o =>
      bool_decide (o !! "type" = Some (JStr "close")) &&
      bool_decide (o !! "readyState" = Some (JNum (readyState_code s)))
  | None => false
  end.

(** The terminal close events of a trace, and the interim ones that report a
    loss while the component goes on retrying. *)
Definition terminal_closes (tr : list Effect) : list (gmap string JsObj) :=
  List.filter (is_close_event CLOSED) (observer tr).

Definition interim_closes (tr : list Effect) : list (gmap string JsObj) :=
  List.filter (is_close_event CONNECTING) (observer tr).

(** Two worlds that differ at most in what has been emitted. *)
Definition same_state (w w' : World) : Prop := set_trace [] w = set_trace [] w'.

(** What every [ws.onclose] starts with: the handshake timer is cleared,
    [wsRef] is emptied, and the debug line is written.  ([Legacy] has no
    debug line at this point.) *)
Definition onclose_prelude (p : Props) (message : string) : Action :=
  clear_connectionTimeout >>> set_wsRef None >>> debug_log p message.

(** ** Invariants of actions *)

(** [keeps P a]: the action [a] preserves the property [P] of the state. *)
Definition keeps (P : World → Prop) (a : Action) : Prop := ∀ w, P w → P (a w).

Definition keeps_step {A : Type} (P : World → Prop) (m : Step A) : Prop :=
  ∀ w, P w → P (m w).2.


Definition settled (w : World) : Prop := timedOutRef w = false.

(** ** Sample inputs *)

Definition demo_props : Props :=
  {| url := Some "wss://echo.websocket.org"; protocols := []; timeout := 1000;
     hasSetProps := true; settings := default_settings; state_readyState := CLOSED |}.

Definition with_maxReconnectAttempts (n : option nat) (p : Props) : Props :=
  {| url := url p; protocols := protocols p; timeout := timeout p;
     hasSetProps := hasSetProps p;
     settings :=
       {| debug := debug (settings p); automaticOpen := automaticOpen (settings p);
          reconnectInterval := reconnectInterval (settings p);
          maxReconnectInterval := maxReconnectInterval (settings p);
          reconnectDecay := reconnectDecay (settings p);
          timeoutInterval := timeoutInterval (settings p);
          maxReconnectAttempts := n; binaryType := binaryType (settings p) |};
     state_readyState := state_readyState p |}.

Definition without_url (p : Props) : Props :=
  {| url := None; protocols := protocols p; timeout := timeout p;
     hasSetProps := hasSetProps p; settings := settings p;
     state_readyState := state_readyState p |}.

(** A [CloseEvent] with the given code, an [Event] without fields. *)
Definition closeEvent (code : Z) : JsObj :=
  {["code" := JNum code; "reason" := JStr ""; "wasClean" := JBool false;
    "isTrusted" := JBool true]}.

Definition plainEvent : JsObj := {["isTrusted" := JBool true]}.

(** One reconnection allowed. *)
Definition one_retry_allowed : Props := with_maxReconnectAttempts (Some 1) demo_props.

(** The run that leaves the second revision Closed after a successful open:
    one reconnection is allowed, the socket opens, is lost, and the retry
    fails. *)
Definition closed_after_open : World :=
  Rev2.run one_retry_allowed
    [ConnectEffect; TimerFires 1; TransportOpen 2 plainEvent;
     TransportClose 2 (closeEvent 1006); TimerFires 4; TransportClose 5 (closeEvent 1006)]
    (initial_world 0).

(** The socket opened, was lost, and the retry has just created its socket:
    the attempt count is 1. *)
Definition retrying_once : World :=
  Rev2.run one_retry_allowed
    [ConnectEffect; TimerFires 1; TransportOpen 2 plainEvent;
     TransportClose 2 (closeEvent 1006); TimerFires 4]
    (initial_world 0).

(** The same in the first revision, where the endpoint never answered. *)
Definition rev1_retrying_once : World :=
  Rev1.run one_retry_allowed
    [ConnectEffect; TimerFires 1; TransportClose 2 (closeEvent 1006); TimerFires 4]
    (initial_world 0).


(** The second revision in the middle of its first handshake: socket 2 is
    connecting and its handshake timer 3 is pending. *)
Definition mid_handshake : World :=
  Rev2.run demo_props [ConnectEffect; TimerFires 1] (initial_world 0).

Definition connecting_socket : Socket :=
  {| readyState := CONNECTING; sock_url := "wss://echo.websocket.org";
     sock_reconnectAttempt := false |}.







(** The second revision with socket 2 open. *)
Definition socket_open : World :=
  Rev2.step demo_props (TransportOpen 2 plainEvent) mid_handshake.


(** ** Further vocabulary *)

(** The fields [createEventData] copies from the signal it is given, and
    the ones it sets itself. *)
Definition copied_fields : list string := ["origin"; "data"; "code"; "reason"; "wasClean"].

Definition own_fields : list string := ["type"; "timeStamp"; "isTrusted"].

(** The field [k] of the object an update holds under [key]. *)
Definition update_field (u : gmap string JsObj) (key k : string) : option JsVal :=
  u !! key ≫= (λ o : JsObj, o !! k).

(** The timers left once the handshake timer in [connectionTimeoutRef] has
    been cleared. *)
Definition without_handshake_timer (w : World) : gmap nat (TimerCallback * Double) :=
  match connectionTimeoutRef w with
  | Some t => delete t (timers w)
  | None => timers w
  end.

(** The test of [shouldAttemptReconnection] for ending the retries. *)
Definition retries_stopped (p : Props) (event : JsObj) (w : World) : bool :=
  forcedCloseRef w
  || max_attempts_reached p (reconnectAttemptsRef w)
  || (negb (everConnectedRef w) && Rev2.code_unavailable event
      && (3 <=? reconnectAttemptsRef w)).

(** The socket a call of [openConnection] or [connect] creates. *)
Definition fresh_socket (u : string) (reconnectAttempt : bool) : Socket :=
  {| readyState := CONNECTING; sock_url := u; sock_reconnectAttempt := reconnectAttempt |}.

(** What a retry leaves when it goes ahead: the count is one higher, socket
    [nextId w] has been created for [u] as a reconnection attempt and is the
    current one, its handshake timer has taken the place of timer [t], and
    the Observer has been told nothing. *)
Definition retried (p : Props) (u : string) (t : nat) (w w' : World) : Prop :=
  reconnectAttemptsRef w' = S (reconnectAttemptsRef w)
  ∧ opened (trace w') = opened (trace w) ++ [nextId w]
  ∧ sockets w' = <[nextId w := fresh_socket u true]> (sockets w)
  ∧ wsRef w' = Some (nextId w)
  ∧ timers w' =
      <[S (nextId w) :=
          (ConnectionTimeout (nextId w), Finite (timeoutInterval (settings p)))]>
        (delete t (timers w))
  ∧ connectionTimeoutRef w' = Some (S (nextId w))
  ∧ observer (trace w') = observer (trace w).

(** What it leaves when it gives up: only the count and the timer are gone. *)
Definition gave_up (t : nat) (w w' : World) : Prop :=
  same_state w' (set_reconnectAttemptsRef (S (reconnectAttemptsRef w))
                   (set_timers (delete t (timers w)) w))
  ∧ opened (trace w') = opened (trace w)
  ∧ observer (trace w') = observer (trace w).

(** ** What an action emits *)

(** [emits Q a]: the action [a] only adds to the trace, and every effect it
    adds satisfies [Q]. *)
Definition emits (Q : Effect → Prop) (a : Action) : Prop :=
  ∀ w, ∃ es, trace (a w) = trace w ++ es ∧ Forall Q es.

Definition emits_step {A : Type} (Q : Effect → Prop) (m : Step A) : Prop :=
  ∀ w, ∃ es, trace (m w).2 = trace w ++ es ∧ Forall Q es.

(** The updates the two revisions of ReconnectingWebSocket.tsx pass to
    [safeSetProps], one constructor for each call in the source. *)
Inductive Update : gmap string JsObj → Prop :=
| U_connecting (t : Z) : Update (connecting_update t)
| U_reconnecting (event : JsObj) (t : Z) : Update (reconnecting_update event t)
| U_open (event : JsObj) (r : bool) (t : Z) :
    Update (state_update OPEN "open" event {["isReconnect" := JBool r]} t)
| U_closed (event : JsObj) (t : Z) : Update (state_update CLOSED "close" event ∅ t)
| U_stopped (event : JsObj) (t : Z) :
    Update (state_update CLOSED "close" event Rev2.reconnectionStopped t)
| U_lost (event : JsObj) (t : Z) : Update (state_update CONNECTING "close" event ∅ t)
| U_message (event : JsObj) (t : Z) : Update (event_update "message" event t)
| U_error (event : JsObj) (t : Z) : Update (event_update "error" event t).

(** The effects the input [i] may cause under the props [p]. *)
Definition emitted_by (p : Props) (i : Input) (e : Effect) : Prop :=
  match e with
  | Console _ => debug (settings p) = true
  | SetProps u => hasSetProps p = true ∧ Update u
  | NewWebSocket _ u protos bt =>
      url_present p = Some u ∧ protos = protocols p ∧ bt = binaryType (settings p)
  | WsSend _ message => i = SendProp message
  | WsClose _ => True
  end.

(** The keys an update may have, and what it may say about the state: a
    [state] object always carries one of the three states of the component
    as [readyState], and a [connecting] event always comes with the bare
    Connecting state. *)
Definition update_keys : list string := ["state"; "message"; "error"; "connecting"].

Definition well_formed (u : gmap string JsObj) : Prop :=
  (∀ k, is_Some (u !! k) → k ∈ update_keys)
  ∧ (∀ o : JsObj, u !! "state" = Some o →
       o !! "readyState" ∈ [Some (JNum 0); Some (JNum 1); Some (JNum 3)])
  ∧ (is_Some (u !! "connecting") → u !! "state" = Some connecting_state).

(** A component that has done nothing and holds nothing. *)
Definition idle (w : World) : Prop :=
  trace w = [] ∧ sockets w = ∅ ∧ timers w = ∅ ∧ wsRef w = None.

(** Effects other than passing a message to a socket. *)
Definition not_a_send (e : Effect) : Prop :=
  match e with WsSend _ _ => False | _ => True end.

(** The attempt count is where it was, or back at 0. *)
Definition count_kept_or_reset (n : nat) (w : World) : Prop :=
  reconnectAttemptsRef w = n ∨ reconnectAttemptsRef w = 0.

(** No successful open has been seen yet. *)
Definition never_connected (w : World) : Prop := everConnectedRef w = false.

(** * Properties *)

(** ** Proof rules for invariants *)

Section Keeps.

Variable P : World → Prop.

Lemma keeps_skip : keeps P skip.
Proof. by intros w. Qed.

Lemma keeps_seq (a b : Action) : keeps P a → keeps P b → keeps P (a >>> b).
Proof. intros Ha Hb w Hw. apply Hb, Ha, Hw. Qed.

Lemma keeps_bind {A : Type} (m : Step A) (k : A → Action) :
  keeps_step P m → (∀ x, keeps P (k x)) → keeps P (bind m k).
Proof. intros Hm Hk w Hw. apply Hk, Hm, Hw. Qed.

Lemma keeps_read {A : Type} (f : World → A) : keeps_step P (read f).
Proof. by intros w. Qed.

Lemma keeps_ifte (c : World → bool) (a b : Action) :
  keeps P a → keeps P b → keeps P (ifte c a b).
Proof. intros Ha Hb w Hw. unfold ifte. destruct (c w); auto. Qed.

Lemma keeps_when (c : World → bool) (a : Action) : keeps P a → keeps P (when_ c a).
Proof. intros Ha. apply keeps_ifte; [done | apply keeps_skip]. Qed.

Lemma keeps_foldl {I : Type} (step : I → Action) (inputs : list I) :
  (∀ i, keeps P (step i)) → keeps P (λ w, foldl (λ w i, step i w) w inputs).
Proof.
  intros Hs. induction inputs as [|i inputs IH]; intros w Hw; cbn; [done|].
  apply IH, Hs, Hw.
Qed.

End Keeps.

(** The primitives of the run-time, opened up far enough for a property of
    single fields to be read off. *)
Ltac keeps_prim :=
  let w := fresh "w" in
  let H := fresh "H" in
  intros w H;
  unfold date_now, read, debug_log, safeSetProps, clear_connectionTimeout,
    clear_reconnectTimeout, close_current, ws_close, seq, setTimeout, newWebSocket,
    clearTimeout, emit, skip;
  repeat case_match; first [exact H | reflexivity].

(** Walks an action built from the combinators; [leaf] closes the calls of
    component functions met on the way. *)
Ltac keeps_with leaf :=
  repeat
    lazymatch goal with
    | |- keeps _ skip => apply keeps_skip
    | |- keeps _ (seq _ _) => apply keeps_seq
    | |- keeps _ (bind _ _) => apply keeps_bind; [| intros ?]
    | |- keeps_step _ (read _) => apply keeps_read
    | |- keeps_step _ date_now => apply keeps_read
    | |- keeps _ (ifte _ _ _) => apply keeps_ifte
    | |- keeps _ (when_ _ _) => apply keeps_when
    | |- keeps _ (if ?b then _ else _) => destruct b
    | |- keeps _ (match ?x with _ => _ end) => destruct x
    | |- _ => first [solve [leaf] | solve [keeps_prim]]
    end.

Ltac keeps_tac := keeps_with fail.

(** Projections of updated records. *)
Ltac fields :=
  cbn [wsRef prevSendRef reconnectAttemptsRef forcedCloseRef timedOutRef
       isReconnectAttemptRef everConnectedRef connectionTimeoutRef reconnectTimeoutRef
       currentReadyStateRef clock timers sockets nextId trace
       set_wsRef set_prevSendRef set_reconnectAttemptsRef set_forcedCloseRef set_timedOutRef
       set_isReconnectAttemptRef set_everConnectedRef set_connectionTimeoutRef
       set_reconnectTimeoutRef set_currentReadyStateRef set_clock set_timers set_sockets
       set_nextId set_trace fst snd].

(** ** Bookkeeping *)

Lemma set_trace_id (w : World) : set_trace (trace w) w = w.
Proof. by destruct w. Qed.

Lemma same_state_refl (w : World) : same_state w w.
Proof. reflexivity. Qed.

Lemma same_state_trans (w1 w2 w3 : World) :
  same_state w1 w2 → same_state w2 w3 → same_state w1 w3.
Proof. unfold same_state. congruence. Qed.

Lemma same_state_emit (e : Effect) (w : World) : same_state w (emit e w).
Proof. reflexivity. Qed.

Lemma same_state_debug_log (p : Props) (s : string) (w : World) :
  same_state w (debug_log p s w).
Proof. unfold debug_log. by destruct (debug (settings p)). Qed.

Lemma same_state_safeSetProps (p : Props) (u : gmap string JsObj) (w : World) :
  same_state w (safeSetProps p u w).
Proof. unfold safeSetProps. by destruct (hasSetProps p). Qed.

Lemma observer_app (a b : list Effect) : observer (a ++ b) = observer a ++ observer b.
Proof. apply omap_app. Qed.

Lemma opened_app (a b : list Effect) : opened (a ++ b) = opened a ++ opened b.
Proof. apply omap_app. Qed.

Lemma sent_app (a b : list Effect) : sent (a ++ b) = sent a ++ sent b.
Proof. apply omap_app. Qed.

Lemma trace_debug_log (p : Props) (s : string) (w : World) :
  trace (debug_log p s w) = trace w ++ (if debug (settings p) then [Console s] else []).
Proof. unfold debug_log. destruct (debug (settings p)); cbn; by rewrite ?app_nil_r. Qed.

Lemma trace_safeSetProps (p : Props) (u : gmap string JsObj) (w : World) :
  trace (safeSetProps p u w) = trace w ++ (if hasSetProps p then [SetProps u] else []).
Proof. unfold safeSetProps. destruct (hasSetProps p); cbn; by rewrite ?app_nil_r. Qed.

(** A debug line leaves every field but the trace as it was. *)
Lemma field_debug_log {A : Type} (f : World → A) (p : Props) (s : string) (w : World) :
  (∀ tr w, f (set_trace tr w) = f w) → f (debug_log p s w) = f w.
Proof. intros H. unfold debug_log, emit, skip. destruct (debug _); [apply H | done]. Qed.

Lemma field_safeSetProps {A : Type} (f : World → A) (p : Props) (u : gmap string JsObj)
    (w : World) :
  (∀ tr w, f (set_trace tr w) = f w) → f (safeSetProps p u w) = f w.
Proof. intros H. unfold safeSetProps, emit, skip. destruct (hasSetProps _); [apply H | done]. Qed.

Lemma observer_debug_log (p : Props) (s : string) (w : World) :
  observer (trace (debug_log p s w)) = observer (trace w).
Proof. rewrite trace_debug_log, observer_app. destruct (debug _); cbn; by rewrite app_nil_r. Qed.

Lemma opened_debug_log (p : Props) (s : string) (w : World) :
  opened (trace (debug_log p s w)) = opened (trace w).
Proof. rewrite trace_debug_log, opened_app. destruct (debug _); cbn; by rewrite app_nil_r. Qed.

Lemma sent_debug_log (p : Props) (s : string) (w : World) :
  sent (trace (debug_log p s w)) = sent (trace w).
Proof. rewrite trace_debug_log, sent_app. destruct (debug _); cbn; by rewrite app_nil_r. Qed.

Lemma strict_eq_true (a b : JsVal) : strict_eq a b = true ↔ a = b ∧ a ≠ JNaN.
Proof.
  unfold strict_eq.
  destruct a;
    try (rewrite bool_decide_eq_true; split; [by intros H; split | tauto]).
  split; [done | by intros [_ H]].
Qed.

Lemma strict_eq_refl (v : JsVal) : v ≠ JNaN → strict_eq v v = true.
Proof. intros H. by apply strict_eq_true. Qed.

Lemma strict_eq_NaN (v : JsVal) : strict_eq v JNaN = false ∧ strict_eq JNaN v = false.
Proof. split; [|done]. destruct v; try done. Qed.

Lemma url_absent (p : Props) : url p = None ∨ url p = Some "" → url_present p = None.
Proof. unfold url_present. by intros [-> | ->]. Qed.

(** ** Facts about [openConnection] *)

(** What a call of [openConnection] with a url adds to the trace: the
    [connecting] update of a fresh attempt, then exactly one new socket. *)
Lemma Rev2_openConnection_trace (p : Props) (u : string) (r : bool) (w : World) :
  url_present p = Some u →
  trace (Rev2.openConnection p r w) =
    trace w
    ++ (if r then [] else if hasSetProps p then [SetProps (connecting_update (clock w))] else [])
    ++ (if debug (settings p) then [Console "attempt-connect"] else [])
    ++ [NewWebSocket (nextId w) u (protocols p) (binaryType (settings p))].
Proof.
  intros Hu. unfold Rev2.openConnection. rewrite Hu.
  unfold seq, bind, date_now, read, newWebSocket, setTimeout, debug_log, safeSetProps,
    emit, skip.
  destruct r, (hasSetProps p), (debug (settings p)); cbn; rewrite <- ?app_assoc; reflexivity.
Qed.

(** The handshake timer it arms, next to the timers already pending. *)
Lemma Rev2_openConnection_timers (p : Props) (u : string) (r : bool) (w : World) :
  url_present p = Some u →
  timers (Rev2.openConnection p r w) =
    <[S (nextId w) := (ConnectionTimeout (nextId w), Finite (timeoutInterval (settings p)))]>
      (timers w).
Proof.
  intros Hu. unfold Rev2.openConnection. rewrite Hu.
  unfold seq, bind, date_now, read, newWebSocket, setTimeout, debug_log, safeSetProps,
    emit, skip.
  destruct r, (hasSetProps p), (debug (settings p)); reflexivity.
Qed.

Lemma Rev2_openConnection_keeps_prevSendRef (p : Props) (r : bool) (v : JsVal) :
  keeps (λ w, prevSendRef w = v) (Rev2.openConnection p r).
Proof. unfold Rev2.openConnection. keeps_tac. Qed.

Lemma Rev1_openConnection_keeps_prevSendRef (p : Props) (r : bool) (v : JsVal) :
  keeps (λ w, prevSendRef w = v) (Rev1.openConnection p r).
Proof. unfold Rev1.openConnection. keeps_tac. Qed.

Lemma Legacy_connect_keeps_prevSendRef (p : Props) (r : bool) (v : JsVal) :
  keeps (λ w, prevSendRef w = v) (Legacy.connect p r).
Proof. unfold Legacy.connect, Legacy.setProps. keeps_tac. Qed.

(** ** C1: [sendMessage] by connection state *)

Lemma Rev2_try_send_not_open (p : Props) (message : JsVal) (w : World) :
  currentReadyStateRef w ≠ OPEN → Rev2.try_send p message w = inr w.
Proof.
  intros Hn. unfold Rev2.try_send.
  destruct (currentReadyStateRef w); try done; by destruct (wsRef w).
Qed.

Lemma Rev2_sendMessage_not_open (p : Props) (message : JsVal) (w : World) :
  hasSetProps p = true →
  currentReadyStateRef w ≠ OPEN →
  Rev2.sendMessage p message w =
    if bool_decide (currentReadyStateRef w = CLOSED) && everConnectedRef w then
      Rev2.openConnection p false
        (set_forcedCloseRef false
           (debug_log p "Attempting to reconnect for message send"
              (debug_log p "Cannot send message - connection state" w)))
    else debug_log p "Cannot send message - connection state" w.
Proof.
  intros Hs Hn. unfold Rev2.sendMessage. rewrite Hs. cbn [negb]. cbv beta.
  rewrite Rev2_try_send_not_open by done.
  unfold seq, when_, ifte, skip.
  by rewrite (field_debug_log currentReadyStateRef), (field_debug_log everConnectedRef).
Qed.

(** C1 (amended).  With an Observer present, [sendMessage] of the second
    revision acts on the state alone.  Open with an open socket: the message
    goes to the socket and nothing else happens.  Closed after an earlier
    successful open: nothing is sent and no send failure is reported; the
    forced-close flag is cleared and [openConnection(false)] runs once, which
    creates one socket and reports [connecting].  Closed without an earlier
    open, or Connecting: nothing is sent, opened, armed or reported; only
    the debug console may get a line. *)
Theorem C1_sendMessage_by_state (p : Props) (message : JsVal) (w : World) :
  hasSetProps p = true →
  (∀ ws k,
     currentReadyStateRef w = OPEN → wsRef w = Some ws →
     sockets w !! ws = Some k → readyState k = OPEN →
     Rev2.sendMessage p message w =
       debug_log p "Message sent successfully" (emit (WsSend ws message) w))
  ∧ (currentReadyStateRef w = CLOSED → everConnectedRef w = true →
     let w' := Rev2.sendMessage p message w in
     w' = Rev2.openConnection p false
            (set_forcedCloseRef false
               (debug_log p "Attempting to reconnect for message send"
                  (debug_log p "Cannot send message - connection state" w)))
     ∧ sent (trace w') = sent (trace w)
     ∧ ∀ u, url_present p = Some u →
         observer (trace w') = observer (trace w) ++ [connecting_update (clock w)]
         ∧ opened (trace w') = opened (trace w) ++ [nextId w]
         ∧ timers w' =
             <[S (nextId w) :=
                 (ConnectionTimeout (nextId w), Finite (timeoutInterval (settings p)))]>
               (timers w))
  ∧ (currentReadyStateRef w = CONNECTING
     ∨ currentReadyStateRef w = CLOSED ∧ everConnectedRef w = false →
     let w' := Rev2.sendMessage p message w in
     w' = debug_log p "Cannot send message - connection state" w
     ∧ same_state w w'
     ∧ observer (trace w') = observer (trace w)
     ∧ opened (trace w') = opened (trace w)
     ∧ sent (trace w') = sent (trace w)).
Proof.
  intros Hs. split; [|split].
  - intros ws k Ho Hw Hk Hr. unfold Rev2.sendMessage, Rev2.try_send, ws_send.
    rewrite Hs. cbn [negb]. cbv beta. rewrite Ho, Hw, Hk. cbn. by rewrite Hr.
  - intros Hc He w'.
    assert (Hw' : w' = Rev2.openConnection p false
                (set_forcedCloseRef false
                   (debug_log p "Attempting to reconnect for message send"
                      (debug_log p "Cannot send message - connection state" w)))).
    { subst w'. rewrite Rev2_sendMessage_not_open by (done || congruence).
      by rewrite Hc, He. }
    split; [exact Hw'|].
    set (w0 := set_forcedCloseRef false _) in Hw'.
    assert (Ht : trace w0 = trace w
                 ++ (if debug (settings p)
                     then [Console "Cannot send message - connection state";
                           Console "Attempting to reconnect for message send"] else [])).
    { subst w0. cbn. rewrite !trace_debug_log. destruct (debug _); cbn;
        by rewrite <- ?app_assoc, ?app_nil_r. }
    assert (Hn : nextId w0 = nextId w ∧ clock w0 = clock w ∧ timers w0 = timers w).
    { subst w0. cbn.
      by rewrite !(field_debug_log nextId), !(field_debug_log clock),
        !(field_debug_log timers). }
    destruct Hn as (Hn & Hk & Htm).
    split.
    + rewrite Hw'. unfold Rev2.openConnection.
      destruct (url_present p) as [u|] eqn:Hu.
      * fold (Rev2.openConnection p false w0).
        assert (H := Rev2_openConnection_trace p u false w0 Hu).
        unfold Rev2.openConnection in H. rewrite Hu in H. rewrite H, Ht, Hs.
        rewrite !sent_app. destruct (debug _); cbn; by rewrite ?app_nil_r.
      * unfold skip. rewrite Ht, sent_app. destruct (debug _); cbn; by rewrite ?app_nil_r.
    + intros u Hu. rewrite Hw', (Rev2_openConnection_trace p u) by done.
      rewrite Hs, Ht, Hn, Hk. rewrite !observer_app, !opened_app.
      split; [|split].
      * destruct (debug _); cbn; by rewrite ?app_nil_r.
      * destruct (debug _); cbn; by rewrite ?app_nil_r.
      * by rewrite (Rev2_openConnection_timers p u), Hn, Htm.
  - intros Hc w'.
    assert (Hw' : w' = debug_log p "Cannot send message - connection state" w).
    { subst w'.
      rewrite Rev2_sendMessage_not_open by (done || (destruct Hc as [->|[-> _]]; done)).
      destruct Hc as [->|[-> ->]]; done. }
    rewrite Hw'. split; [done|].
    split; [apply same_state_debug_log|].
    by rewrite observer_debug_log, opened_debug_log, sent_debug_log.
Qed.

Lemma C1_sendMessage_by_state_witness :
  hasSetProps demo_props = true
  ∧ Rev2.sendMessage demo_props (JStr "ping") (initial_world 0)
    = debug_log demo_props "Cannot send message - connection state" (initial_world 0).
Proof.
  split; [reflexivity|].
  destruct (C1_sendMessage_by_state demo_props (JStr "ping") (initial_world 0) eq_refl)
    as (_ & _ & H).
  apply H. right. split; reflexivity.
Defined.

(** C1 fails as stated.  A send while Closed reports no failure to the
    Observer: before any successful open the call changes nothing at all,
    and after one the Observer receives only the [connecting] update of the
    reopening.  In ReconnectWebSocket.tsx the call while Closed opens a
    connection without any earlier success and leaves a 100 ms timer that
    resumes the function. *)
Lemma C1_send_failure_not_reported :
  (currentReadyStateRef (initial_world 0) = CLOSED
   ∧ everConnectedRef (initial_world 0) = false
   ∧ Rev2.sendMessage demo_props (JStr "ping") (initial_world 0) = initial_world 0)
  ∧ (currentReadyStateRef closed_after_open = CLOSED
     ∧ everConnectedRef closed_after_open = true
     ∧ observer (trace (Rev2.sendMessage one_retry_allowed (JStr "ping") closed_after_open))
       = observer (trace closed_after_open) ++ [connecting_update 0]
     ∧ connecting_update 0 !! "error" = None)
  ∧ (opened (trace (Legacy.sendMessage demo_props (JStr "ping") (initial_world 0))) = [1]
     ∧ timers (Legacy.sendMessage demo_props (JStr "ping") (initial_world 0)) !! 3
       = Some (ResumeAfterReconnect (JStr "ping"), Finite 100)).
Proof. compute_done. Qed.

(** ** The three branches of [ws.onclose] *)

Lemma field_clear_connectionTimeout {A : Type} (f : World → A) (w : World) :
  (∀ v w, f (set_connectionTimeoutRef v w) = f w) →
  (∀ v w, f (set_timers v w) = f w) →
  f (clear_connectionTimeout w) = f w.
Proof.
  intros H1 H2. unfold clear_connectionTimeout, clearTimeout.
  destruct (connectionTimeoutRef w); [by rewrite H1, H2 | done].
Qed.

Lemma field_onclose_prelude {A : Type} (f : World → A) (p : Props) (s : string) (w : World) :
  (∀ tr w, f (set_trace tr w) = f w) →
  (∀ v w, f (set_wsRef v w) = f w) →
  (∀ v w, f (set_connectionTimeoutRef v w) = f w) →
  (∀ v w, f (set_timers v w) = f w) →
  f (onclose_prelude p s w) = f w.
Proof.
  intros H1 H2 H3 H4. unfold onclose_prelude, seq.
  by rewrite field_debug_log, H2, field_clear_connectionTimeout.
Qed.

(** A positive answer of [shouldAttemptReconnection] leaves no debug line. *)
Lemma Rev2_shouldAttemptReconnection_true (p : Props) (event : JsObj) (w : World) :
  (Rev2.shouldAttemptReconnection p event w).1 = true →
  (Rev2.shouldAttemptReconnection p event w).2 = w.
Proof. unfold Rev2.shouldAttemptReconnection. by repeat case_match. Qed.

Lemma Rev2_shouldAttemptReconnection_same_state (p : Props) (event : JsObj) (w : World) :
  same_state w (Rev2.shouldAttemptReconnection p event w).2.
Proof.
  unfold Rev2.shouldAttemptReconnection.
  repeat case_match; cbn; (done || apply same_state_debug_log).
Qed.

(** When the retries stop: the budget is used up, or the endpoint has never
    answered and keeps failing with one of the "server unavailable" codes. *)
Lemma Rev2_shouldAttemptReconnection_false (p : Props) (event : JsObj) (w : World) :
  forcedCloseRef w = false →
  max_attempts_reached p (reconnectAttemptsRef w) = true
  ∨ (everConnectedRef w = false ∧ Rev2.code_unavailable event = true
     ∧ (3 ≤ reconnectAttemptsRef w)%nat) →
  (Rev2.shouldAttemptReconnection p event w).1 = false.
Proof.
  intros Hf H. unfold Rev2.shouldAttemptReconnection. rewrite Hf.
  destruct (max_attempts_reached _ _); [done|].
  destruct H as [H | (-> & -> & H%Nat.leb_le)]; [done|]. cbn [negb andb]. by rewrite H.
Qed.

Lemma Rev2_ws_onclose_forced (p : Props) (event : JsObj) (w : World) :
  forcedCloseRef w = true →
  Rev2.ws_onclose p event w =
    safeSetProps p (state_update CLOSED "close" event ∅ (clock w))
      (set_currentReadyStateRef CLOSED (onclose_prelude p "onclose" w)).
Proof.
  intros Hf. unfold Rev2.ws_onclose, seq, ifte.
  change (debug_log p "onclose" (set_wsRef None (clear_connectionTimeout w)))
    with (onclose_prelude p "onclose" w).
  rewrite (field_onclose_prelude forcedCloseRef) by done. rewrite Hf.
  unfold bind, date_now, read. cbn [fst snd clock set_currentReadyStateRef].
  by rewrite (field_onclose_prelude clock).
Qed.

Lemma Rev2_ws_onclose_stopped (p : Props) (event : JsObj) (w : World) :
  forcedCloseRef w = false →
  (Rev2.shouldAttemptReconnection p event (onclose_prelude p "onclose" w)).1 = false →
  Rev2.ws_onclose p event w =
    safeSetProps p (state_update CLOSED "close" event Rev2.reconnectionStopped (clock w))
      (set_currentReadyStateRef CLOSED
         (Rev2.shouldAttemptReconnection p event (onclose_prelude p "onclose" w)).2).
Proof.
  intros Hf Hs. unfold Rev2.ws_onclose, seq, ifte.
  change (debug_log p "onclose" (set_wsRef None (clear_connectionTimeout w)))
    with (onclose_prelude p "onclose" w).
  rewrite (field_onclose_prelude forcedCloseRef) by done. rewrite Hf.
  unfold bind at 1. rewrite Hs. cbn [negb].
  unfold bind, date_now, read. cbn [fst snd clock set_currentReadyStateRef].
  f_equal. f_equal.
  assert (H := Rev2_shouldAttemptReconnection_same_state p event
                 (onclose_prelude p "onclose" w)).
  apply (f_equal clock) in H. cbn in H. rewrite <- H.
  by rewrite (field_onclose_prelude clock).
Qed.

Lemma Rev2_ws_onclose_retry (p : Props) (event : JsObj) (w : World) :
  forcedCloseRef w = false →
  (Rev2.shouldAttemptReconnection p event (onclose_prelude p "onclose" w)).1 = true →
  Rev2.ws_onclose p event w =
    let w1 :=
      safeSetProps p (reconnecting_update event (clock w))
        (set_currentReadyStateRef CONNECTING (onclose_prelude p "onclose" w)) in
    let w2 :=
      if negb (isReconnectAttemptRef w) && negb (timedOutRef w) then
        safeSetProps p (state_update CONNECTING "close" event ∅ (clock w))
          (debug_log p "dispatching close event for connection loss" w1)
      else w1 in
    let w3 := debug_log p "Scheduling reconnection attempt" w2 in
    set_reconnectTimeoutRef (Some (nextId w))
      (set_nextId (S (nextId w))
         (set_timers
            (<[nextId w :=
                 (Reconnect, Rev2.delay p (everConnectedRef w) (reconnectAttemptsRef w))]>
               (timers w3))
            w3)).
Proof.
  intros Hf Hs. unfold Rev2.ws_onclose, seq, ifte.
  change (debug_log p "onclose" (set_wsRef None (clear_connectionTimeout w)))
    with (onclose_prelude p "onclose" w).
  rewrite (field_onclose_prelude forcedCloseRef) by done. rewrite Hf.
  unfold bind at 1. rewrite Hs, (Rev2_shouldAttemptReconnection_true _ _ _ Hs).
  cbn [negb].
  set (w0 := onclose_prelude p "onclose" w).
  assert (H0 : clock w0 = clock w ∧ isReconnectAttemptRef w0 = isReconnectAttemptRef w
               ∧ timedOutRef w0 = timedOutRef w ∧ nextId w0 = nextId w
               ∧ everConnectedRef w0 = everConnectedRef w
               ∧ reconnectAttemptsRef w0 = reconnectAttemptsRef w).
  { subst w0. by rewrite !field_onclose_prelude. }
  destruct H0 as (Hc & Hi & Ht & Hn & He & Ha). clearbody w0.
  unfold bind, when_, ifte, date_now, read, setTimeout, skip, seq, debug_log,
    safeSetProps, emit, skip.
  destruct (debug (settings p)), (hasSetProps p); fields; rewrite ?Hc, ?Hi, ?Ht;
    destruct (negb (isReconnectAttemptRef w) && negb (timedOutRef w)); fields;
    by rewrite ?Hc, ?Hn, ?He, ?Ha.
Qed.

(** ** Reading event data *)

Lemma copy_field_lookup (k k' : string) (e b : JsObj) :
  copy_field k e b !! k' =
    if decide (k = k') then
      match e !! k with Some v => Some v | None => b !! k' end
    else b !! k'.
Proof.
  unfold copy_field. destruct (decide (k = k')) as [<-|Hne].
  - destruct (e !! k); [by rewrite lookup_insert_eq | done].
  - destruct (e !! k); [by rewrite lookup_insert_ne | done].
Qed.

(** The fields [createEventData] sets itself are not among the copied ones. *)
Lemma createEventData_lookup_own (t : Z) (type k : string) (e : option JsObj)
    (additionalData : JsObj) :
  k ∉ ["wasClean"; "reason"; "code"; "data"; "origin"] →
  createEventData t type e additionalData !! k =
    match additionalData !! k with
    | Some v => Some v
    | None =>
        (<["type" := JStr type]>
           (<["timeStamp" := JNum t]>
              ({["isTrusted" :=
                   match e ≫= (λ e : JsObj, e !! "isTrusted") with
                   | Some v => if truthy v then v else JBool false
                   | None => JBool false
                   end]} : JsObj))) !! k
    end.
Proof.
  intros Hk. unfold createEventData.
  assert (Hu : ∀ (a b : JsObj),
             (a ∪ b) !! k = match a !! k with Some v => Some v | None => b !! k end).
  { intros a b. rewrite lookup_union. by destruct (a !! k), (b !! k). }
  destruct e as [e|]; [|apply Hu].
  rewrite !copy_field_lookup.
  repeat (destruct (decide _) as [<-|_]; [exfalso; apply Hk; compute_done|]).
  apply Hu.
Qed.

(** A copied field takes the value of the signal when the signal has it. *)
Lemma createEventData_lookup_reason (t : Z) (type : string) (e additionalData : JsObj) :
  createEventData t type (Some e) additionalData !! "reason" =
    match e !! "reason" with
    | Some v => Some v
    | None => additionalData !! "reason"
    end.
Proof.
  unfold createEventData. rewrite !copy_field_lookup. cbn.
  destruct (e !! "reason"); [done|].
  rewrite lookup_union. by destruct (additionalData !! "reason").
Qed.

Lemma state_field_with_readyState (s : ReadyState) (k : string) (o : JsObj) :
  state_field {["state" := with_readyState s o]} k =
    match o !! k with
    | Some v => Some v
    | None => if decide (k = "readyState") then Some (JNum (readyState_code s)) else None
    end.
Proof.
  unfold state_field, with_readyState. rewrite lookup_singleton_eq. cbn.
  rewrite lookup_union. destruct (o !! k); cbn.
  - by destruct (_ !! k).
  - destruct (decide _) as [->|Hne].
    + by rewrite lookup_singleton_eq.
    + by rewrite lookup_singleton_ne.
Qed.

(** The [close] updates are recognised as such, whatever the signal holds. *)
Lemma state_update_is_close_event (s : ReadyState) (event additionalData : JsObj) (t : Z) :
  additionalData !! "type" = None → additionalData !! "readyState" = None →
  is_close_event s (state_update s "close" event additionalData t) = true.
Proof.
  intros H1 H2. unfold is_close_event.
  assert (Ht : state_field (state_update s "close" event additionalData t) "type"
               = Some (JStr "close")).
  { unfold state_update. rewrite state_field_with_readyState.
    rewrite createEventData_lookup_own by compute_done. by rewrite H1. }
  assert (Hr : state_field (state_update s "close" event additionalData t) "readyState"
               = Some (JNum (readyState_code s))).
  { unfold state_update. rewrite state_field_with_readyState.
    rewrite createEventData_lookup_own by compute_done. by rewrite H2. }
  unfold state_field in Ht, Hr.
  destruct (state_update s "close" event additionalData t !! "state") as [o|]; [|done].
  cbn in Ht, Hr. by rewrite Ht, Hr, !bool_decide_eq_true_2.
Qed.

Lemma copied_fields_lookup (k : string) (e b : JsObj) :
  copy_field "wasClean" e
    (copy_field "reason" e
       (copy_field "code" e (copy_field "data" e (copy_field "origin" e b)))) !! k =
    match (if decide (k ∈ copied_fields) then e !! k else None) with
    | Some v => Some v
    | None => b !! k
    end.
Proof.
  rewrite !copy_field_lookup. destruct (decide (k ∈ copied_fields)) as [Hin|Hout].
  - assert (Hk : k = "origin" ∨ k = "data" ∨ k = "code" ∨ k = "reason" ∨ k = "wasClean").
    { unfold copied_fields in Hin. rewrite !elem_of_cons in Hin.
      rewrite elem_of_nil in Hin. tauto. }
    destruct Hk as [->|[->|[->|[->| ->]]]]; repeat case_decide; try done;
      by repeat case_match.
  - repeat case_decide; subst; try (exfalso; apply Hout; compute_done); done.
Qed.

Lemma createEventData_lookup (t : Z) (type k : string) (e additionalData : JsObj) :
  createEventData t type (Some e) additionalData !! k =
    match (if decide (k ∈ copied_fields) then e !! k else None) with
    | Some v => Some v
    | None =>
        match additionalData !! k with
        | Some v => Some v
        | None =>
            if decide (k = "type") then Some (JStr type)
            else if decide (k = "timeStamp") then Some (JNum t)
            else if decide (k = "isTrusted") then
              Some (match e !! "isTrusted" with
                    | Some v => if truthy v then v else JBool false
                    | None => JBool false
                    end)
            else None
        end
    end.
Proof.
  unfold createEventData. rewrite copied_fields_lookup.
  destruct (if decide (k ∈ copied_fields) then e !! k else None); [done|].
  rewrite lookup_union. destruct (additionalData !! k) as [v|]; cbn [union_with option_union_with].
  - by destruct (_ !! k).
  - rewrite lookup_insert. case_decide; [by rewrite decide_True|].
    rewrite decide_False by done.
    rewrite lookup_insert. case_decide; [by rewrite decide_True|].
    rewrite decide_False by done.
    rewrite lookup_singleton. case_decide; [by rewrite decide_True|].
    by rewrite decide_False.
Qed.

(** The fields of the object reported for a [message] or an [error]. *)
Lemma event_update_field (type : string) (event : JsObj) (t : Z) (k : string) :
  update_field (event_update type event t) type k =
    match (if decide (k ∈ copied_fields) then event !! k else None) with
    | Some v => Some v
    | None =>
        if decide (k = "type") then Some (JStr type)
        else if decide (k = "timeStamp") then Some (JNum t)
        else if decide (k = "isTrusted") then
          Some (match event !! "isTrusted" with
                | Some v => if truthy v then v else JBool false
                | None => JBool false
                end)
        else None
    end.
Proof.
  unfold update_field, event_update. rewrite lookup_singleton_eq. cbn [mbind option_bind].
  by rewrite createEventData_lookup, lookup_empty.
Qed.

Lemma event_update_keys (type : string) (event : JsObj) (t : Z) (key : string) :
  is_Some (event_update type event t !! key) ↔ key = type.
Proof.
  unfold event_update. split.
  - intros [o Ho]. by apply lookup_singleton_Some in Ho as [<- _].
  - intros ->. by rewrite lookup_singleton_eq.
Qed.

(** ** The start of [ws.onclose] *)

Lemma trace_clear_connectionTimeout (w : World) :
  trace (clear_connectionTimeout w) = trace w.
Proof. by apply field_clear_connectionTimeout. Qed.

Lemma trace_onclose_prelude (p : Props) (s : string) (w : World) :
  trace (onclose_prelude p s w) =
    trace w ++ (if debug (settings p) then [Console s] else []).
Proof.
  unfold onclose_prelude, seq. rewrite trace_debug_log. cbn [trace set_wsRef].
  by rewrite trace_clear_connectionTimeout.
Qed.

Lemma timers_onclose_prelude (p : Props) (s : string) (w : World) :
  timers (onclose_prelude p s w) =
    match connectionTimeoutRef w with
    | Some t => delete t (timers w)
    | None => timers w
    end.
Proof.
  unfold onclose_prelude, seq. rewrite (field_debug_log timers) by done.
  unfold clear_connectionTimeout, clearTimeout. by destruct (connectionTimeoutRef w).
Qed.

Lemma timers_onclose_prelude_subseteq (p : Props) (s : string) (w : World) :
  timers (onclose_prelude p s w) ⊆ timers w.
Proof.
  rewrite timers_onclose_prelude. destruct (connectionTimeoutRef w); [|done].
  apply delete_subseteq.
Qed.

Lemma refs_onclose_prelude (p : Props) (s : string) (w : World) :
  wsRef (onclose_prelude p s w) = None
  ∧ connectionTimeoutRef (onclose_prelude p s w) = None.
Proof.
  unfold onclose_prelude, seq.
  rewrite (field_debug_log wsRef), (field_debug_log connectionTimeoutRef) by done.
  split; [done|]. cbn [connectionTimeoutRef set_wsRef].
  unfold clear_connectionTimeout. by destruct (connectionTimeoutRef w) eqn:H.
Qed.

Lemma Rev2_shouldAttemptReconnection_trace (p : Props) (event : JsObj) (w : World) :
  observer (trace (Rev2.shouldAttemptReconnection p event w).2) = observer (trace w)
  ∧ opened (trace (Rev2.shouldAttemptReconnection p event w).2) = opened (trace w)
  ∧ sent (trace (Rev2.shouldAttemptReconnection p event w).2) = sent (trace w).
Proof.
  unfold Rev2.shouldAttemptReconnection.
  repeat case_match; cbn [snd];
    by rewrite ?observer_debug_log, ?opened_debug_log, ?sent_debug_log.
Qed.

(** ** C2: the retry budget *)

Lemma max_attempts_reached_spec (p : Props) (n m : nat) :
  maxReconnectAttempts (settings p) = Some m → m ≠ 0 → m ≤ n →
  max_attempts_reached p n = true.
Proof.
  intros Hm Hz Hle. unfold max_attempts_reached. rewrite Hm.
  destruct m; [done|]. by apply Nat.leb_le.
Qed.

Lemma Rev2_code_unavailable_spec (event : JsObj) (c : Z) :
  event !! "code" = Some (JNum c) → c ∈ [1006; 1002; 1011]%Z →
  Rev2.code_unavailable event = true.
Proof.
  intros Hc Hin. unfold Rev2.code_unavailable. rewrite Hc.
  by apply bool_decide_eq_true_2.
Qed.

(** C2 (amended).  In the second revision of ReconnectingWebSocket.tsx a
    termination that was not forced, with the retry budget used up
    ([maxReconnectAttempts] a non-zero number and the attempt count at least
    that, or no successful open so far, a close code among 1006, 1002, 1011
    and at least three attempts), ends in Closed: no timer is armed, no
    socket is opened, and the Observer receives one update, a [close] event
    with [readyState] CLOSED and [reconnectionStopped] set.  Its [reason] is
    the one of the close signal when the signal has one, else the fixed text
    of the annotation.  When the first revision runs out of attempts, its retry
    callback only returns. *)
Theorem C2_retry_exhausted_is_terminal (p : Props) (event : JsObj) (w : World) :
  forcedCloseRef w = false →
  (∃ m, maxReconnectAttempts (settings p) = Some m ∧ m ≠ 0 ∧ m ≤ reconnectAttemptsRef w)
  ∨ (everConnectedRef w = false
     ∧ (∃ c, event !! "code" = Some (JNum c) ∧ c ∈ [1006; 1002; 1011]%Z)
     ∧ 3 ≤ reconnectAttemptsRef w) →
  let w' := Rev2.ws_onclose p event w in
  let update := state_update CLOSED "close" event Rev2.reconnectionStopped (clock w) in
  (currentReadyStateRef w' = CLOSED
   ∧ timers w' ⊆ timers w
   ∧ reconnectTimeoutRef w' = reconnectTimeoutRef w
   ∧ opened (trace w') = opened (trace w)
   ∧ observer (trace w') = observer (trace w) ++ (if hasSetProps p then [update] else []))
  ∧ (is_close_event CLOSED update = true
     ∧ state_field update "reconnectionStopped" = Some (JBool true)
     ∧ state_field update "reason" =
         match event !! "reason" with
         | Some r => Some r
         | None => Some (JStr "Max attempts reached or server unavailable")
         end)
  ∧ (∀ u w1, url_present p = Some u →
       max_attempts_exceeded p (S (reconnectAttemptsRef w1)) = true →
       Rev1.reconnect p w1 =
         debug_log p "Max reconnection attempts reached"
           (set_reconnectAttemptsRef (S (reconnectAttemptsRef w1)) w1)).
Proof.
  intros Hf Hx w' update.
  assert (Hs : (Rev2.shouldAttemptReconnection p event
                  (onclose_prelude p "onclose" w)).1 = false).
  { apply Rev2_shouldAttemptReconnection_false.
    - by rewrite field_onclose_prelude.
    - rewrite (field_onclose_prelude reconnectAttemptsRef),
        (field_onclose_prelude everConnectedRef) by done.
      destruct Hx as [(m & Hm & Hz & Hle) | (He & (c & Hc & Hin) & Hle)].
      + left. by apply (max_attempts_reached_spec p _ m).
      + right. split; [done|]. split; [|done].
        by apply (Rev2_code_unavailable_spec event c). }
  assert (Hw' : w' = safeSetProps p update
                  (set_currentReadyStateRef CLOSED
                     (Rev2.shouldAttemptReconnection p event
                        (onclose_prelude p "onclose" w)).2)).
  { by apply Rev2_ws_onclose_stopped. }
  set (w0 := onclose_prelude p "onclose" w) in *.
  assert (Hst := Rev2_shouldAttemptReconnection_same_state p event w0).
  destruct (Rev2_shouldAttemptReconnection_trace p event w0) as (Hob & Hop & _).
  set (w1 := (Rev2.shouldAttemptReconnection p event w0).2) in *.
  split; [|split].
  - rewrite Hw'. repeat split.
    + by rewrite (field_safeSetProps currentReadyStateRef).
    + rewrite (field_safeSetProps timers) by done. cbn [timers set_currentReadyStateRef].
      apply (f_equal timers) in Hst. cbn in Hst. rewrite <- Hst.
      apply timers_onclose_prelude_subseteq.
    + rewrite (field_safeSetProps reconnectTimeoutRef) by done.
      cbn [reconnectTimeoutRef set_currentReadyStateRef].
      apply (f_equal reconnectTimeoutRef) in Hst. cbn in Hst. rewrite <- Hst.
      subst w0. by rewrite field_onclose_prelude.
    + rewrite trace_safeSetProps, opened_app. cbn [trace set_currentReadyStateRef].
      rewrite Hop. subst w0. rewrite trace_onclose_prelude, opened_app.
      destruct (debug _), (hasSetProps _); cbn; by rewrite ?app_nil_r.
    + rewrite trace_safeSetProps, observer_app. cbn [trace set_currentReadyStateRef].
      rewrite Hob. subst w0. rewrite trace_onclose_prelude, observer_app.
      destruct (debug _), (hasSetProps _); cbn; by rewrite ?app_nil_r.
  - repeat split.
    + by apply state_update_is_close_event.
    + unfold update, state_update. rewrite state_field_with_readyState.
      by rewrite createEventData_lookup_own by compute_done.
    + unfold update, state_update. rewrite state_field_with_readyState.
      rewrite createEventData_lookup_reason. by destruct (event !! "reason").
  - intros u w2 Hu Hm. unfold Rev1.reconnect, Rev1.openConnection, seq, bind, read, ifte.
    rewrite Hu. cbn [fst snd reconnectAttemptsRef set_reconnectAttemptsRef andb].
    by rewrite Hm.
Qed.

Lemma C2_retry_exhausted_is_terminal_witness :
  forcedCloseRef retrying_once = false
  ∧ currentReadyStateRef (Rev2.ws_onclose one_retry_allowed (closeEvent 1006) retrying_once)
    = CLOSED.
Proof.
  assert (Hf : forcedCloseRef retrying_once = false) by (by vm_compute).
  split; [exact Hf|].
  refine (proj1 (proj1 (C2_retry_exhausted_is_terminal one_retry_allowed
                          (closeEvent 1006) retrying_once Hf _))).
  left. exists 1. repeat split; [discriminate | by vm_compute].
Defined.

(** C2 fails as stated.  In the first revision, with one reconnection
    allowed and one made, the next loss leaves the component Connecting with
    a retry timer armed; when that timer fires the callback returns, and the
    component stays Connecting for good, with no timer and no terminal close
    event.  In the second revision a budget of zero is treated as no budget:
    the loss arms a retry. *)
Lemma C2_exhausted_budget_without_terminal_close :
  let lost := Rev1.step one_retry_allowed (TransportClose 5 (closeEvent 1006))
                rev1_retrying_once in
  let fired := Rev1.step one_retry_allowed (TimerFires 7) lost in
  let zero := with_maxReconnectAttempts (Some 0) demo_props in
  let lost0 :=
    Rev2.run zero
      [ConnectEffect; TimerFires 1; TransportOpen 2 plainEvent;
       TransportClose 2 (closeEvent 1000)] (initial_world 0) in
  (maxReconnectAttempts (settings one_retry_allowed) = Some 1
   ∧ reconnectAttemptsRef rev1_retrying_once = 1
   ∧ forcedCloseRef rev1_retrying_once = false)
  ∧ (currentReadyStateRef lost = CONNECTING
     ∧ fst <$> timers lost !! 7 = Some Reconnect
     ∧ terminal_closes (trace lost) = [])
  ∧ (currentReadyStateRef fired = CONNECTING
     ∧ timers fired = ∅
     ∧ opened (trace fired) = opened (trace lost)
     ∧ terminal_closes (trace fired) = [])
  ∧ (currentReadyStateRef lost0 = CONNECTING
     ∧ fst <$> timers lost0 !! 4 = Some Reconnect
     ∧ terminal_closes (trace lost0) = []).
Proof. intros lost fired zero lost0. compute_done. Qed.
(** ** C3: the back-off delay *)
















(** ** C4: a successful open *)

Lemma Rev2_ws_onopen_eq (p : Props) (event : JsObj) (w : World) :
  Rev2.ws_onopen p event w =
    set_isReconnectAttemptRef false
      (safeSetProps p
         (state_update OPEN "open" event
            {["isReconnect" := JBool (isReconnectAttemptRef w)]} (clock w))
         (set_reconnectAttemptsRef 0
            (set_currentReadyStateRef OPEN
               (set_everConnectedRef true
                  (debug_log p "onopen" (clear_connectionTimeout w)))))).
Proof.
  unfold Rev2.ws_onopen, seq, bind, date_now, read. fields.
  rewrite (field_debug_log clock), (field_debug_log isReconnectAttemptRef) by done.
  by rewrite (field_clear_connectionTimeout clock),
    (field_clear_connectionTimeout isReconnectAttemptRef).
Qed.

Lemma Rev1_ws_onopen_eq (p : Props) (event : JsObj) (w : World) :
  Rev1.ws_onopen p event w =
    set_isReconnectAttemptRef false
      (safeSetProps p
         (state_update OPEN "open" event
            {["isReconnect" := JBool (isReconnectAttemptRef w)]} (clock w))
         (set_reconnectAttemptsRef 0
            (set_currentReadyStateRef OPEN
               (debug_log p "onopen" (clear_connectionTimeout w))))).
Proof.
  unfold Rev1.ws_onopen, seq, bind, date_now, read. fields.
  rewrite (field_debug_log clock), (field_debug_log isReconnectAttemptRef) by done.
  by rewrite (field_clear_connectionTimeout clock),
    (field_clear_connectionTimeout isReconnectAttemptRef).
Qed.

Lemma clear_connectionTimeout_cancels (w : World) :
  connectionTimeoutRef (clear_connectionTimeout w) = None
  ∧ (∀ t, connectionTimeoutRef w = Some t → timers (clear_connectionTimeout w) !! t = None)
  ∧ timers (clear_connectionTimeout w) ⊆ timers w.
Proof.
  unfold clear_connectionTimeout, clearTimeout.
  destruct (connectionTimeoutRef w) as [t|] eqn:Ht; cbn; repeat split; try done.
  - intros t' [= <-]. apply lookup_delete_eq.
  - apply delete_subseteq.
Qed.

Section EverConnected.

Variable p : Props.











End EverConnected.

Section Rev1EverConnected.

Variable p : Props.
Variable b : bool.










End Rev1EverConnected.


(** *** Which handshake timer belongs to which socket *)








Section Tracked.

Variable p : Props.






















End Tracked.




(** ** C5: [disconnect] *)

Lemma Rev2_disconnect_eq (w : World) :
  Rev2.disconnect w =
    close_current
      (clear_reconnectTimeout (clear_connectionTimeout (set_forcedCloseRef true w))).
Proof. reflexivity. Qed.

Lemma field_clear_reconnectTimeout {A : Type} (f : World → A) (w : World) :
  (∀ v w, f (set_reconnectTimeoutRef v w) = f w) →
  (∀ v w, f (set_timers v w) = f w) →
  f (clear_reconnectTimeout w) = f w.
Proof.
  intros H1 H2. unfold clear_reconnectTimeout, clearTimeout.
  destruct (reconnectTimeoutRef w); [by rewrite H1, H2 | done].
Qed.

Lemma field_close_current {A : Type} (f : World → A) (w : World) :
  (∀ tr w, f (set_trace tr w) = f w) →
  (∀ v w, f (set_sockets v w) = f w) →
  f (close_current w) = f w.
Proof.
  intros H1 H2. unfold close_current, ws_close, seq, emit.
  destruct (wsRef w) as [ws|]; [|done].
  repeat case_match; by rewrite ?H2, ?H1.
Qed.

Lemma timers_disconnect (w : World) :
  timers (Rev2.disconnect w) =
    let m := match connectionTimeoutRef w with
             | Some t => delete t (timers w)
             | None => timers w
             end in
    match reconnectTimeoutRef w with
    | Some t => delete t m
    | None => m
    end.
Proof.
  rewrite Rev2_disconnect_eq, (field_close_current timers) by done.
  unfold clear_reconnectTimeout, clear_connectionTimeout, clearTimeout. fields.
  destruct (connectionTimeoutRef w); fields; by destruct (reconnectTimeoutRef w).
Qed.

Lemma trace_disconnect (w : World) :
  trace (Rev2.disconnect w) =
    trace w ++ match wsRef w with Some ws => [WsClose ws] | None => [] end.
Proof.
  rewrite Rev2_disconnect_eq. unfold close_current, ws_close, seq, emit.
  rewrite (field_clear_reconnectTimeout wsRef), (field_clear_connectionTimeout wsRef)
    by done.
  cbn [wsRef set_forcedCloseRef].
  destruct (wsRef w) as [ws|].
  - fields. repeat case_match; fields;
      by rewrite (field_clear_reconnectTimeout trace),
        (field_clear_connectionTimeout trace).
  - rewrite (field_clear_reconnectTimeout trace), (field_clear_connectionTimeout trace)
      by done. cbn. by rewrite app_nil_r.
Qed.

Lemma refs_disconnect (w : World) :
  forcedCloseRef (Rev2.disconnect w) = true
  ∧ connectionTimeoutRef (Rev2.disconnect w) = None
  ∧ reconnectTimeoutRef (Rev2.disconnect w) = None
  ∧ wsRef (Rev2.disconnect w) = wsRef w
  ∧ currentReadyStateRef (Rev2.disconnect w) = currentReadyStateRef w
  ∧ clock (Rev2.disconnect w) = clock w.
Proof.
  rewrite Rev2_disconnect_eq.
  rewrite !(field_close_current _ _) by done.
  rewrite (field_clear_reconnectTimeout forcedCloseRef),
    (field_clear_reconnectTimeout connectionTimeoutRef),
    (field_clear_reconnectTimeout wsRef),
    (field_clear_reconnectTimeout currentReadyStateRef),
    (field_clear_reconnectTimeout clock) by done.
  rewrite (field_clear_connectionTimeout forcedCloseRef),
    (field_clear_connectionTimeout wsRef),
    (field_clear_connectionTimeout currentReadyStateRef),
    (field_clear_connectionTimeout clock) by done.
  repeat split.
  - unfold clear_connectionTimeout. by case_match.
  - unfold clear_reconnectTimeout. by case_match.
Qed.


Lemma fire_cleared_timer (t : nat) (run : TimerCallback → Action) (w : World) :
  timers w !! t = None → fire_timer t run w = w.
Proof. intros H. unfold fire_timer. by rewrite H. Qed.





(** ** C6: the handshake timer *)

Lemma trace_ws_close (ws : nat) (w : World) :
  trace (ws_close ws w) = trace w ++ [WsClose ws].
Proof. unfold ws_close, emit, seq. fields. by repeat case_match. Qed.

Section TimedOut.

Variable p : Props.

Lemma Rev1_openConnection_settled (r : bool) : keeps settled (Rev1.openConnection p r).
Proof. unfold Rev1.openConnection. keeps_tac. Qed.

Lemma Rev1_connectionTimeout_settled (ws : nat) (w : World) :
  settled (Rev1.connectionTimeout p ws w).
Proof. reflexivity. Qed.

Lemma Rev1_ws_onopen_settled (event : JsObj) : keeps settled (Rev1.ws_onopen p event).
Proof. unfold Rev1.ws_onopen. keeps_tac. Qed.

Lemma Rev1_ws_onmessage_settled (event : JsObj) : keeps settled (Rev1.ws_onmessage p event).
Proof. unfold Rev1.ws_onmessage. keeps_tac. Qed.

Lemma Rev1_ws_onerror_settled (event : JsObj) : keeps settled (Rev1.ws_onerror p event).
Proof. unfold Rev1.ws_onerror. keeps_tac. Qed.

Lemma Rev1_ws_onclose_settled (event : JsObj) : keeps settled (Rev1.ws_onclose p event).
Proof. unfold Rev1.ws_onclose. keeps_tac. Qed.

Lemma Rev1_disconnect_settled : keeps settled Rev1.disconnect.
Proof. unfold Rev1.disconnect. keeps_tac. Qed.

Lemma Rev1_run_timer_settled (cb : TimerCallback) : keeps settled (Rev1.run_timer p cb).
Proof.
  destruct cb; cbn [Rev1.run_timer];
    [ intros w _; apply Rev1_connectionTimeout_settled
    | unfold Rev1.reconnect; keeps_with ltac:(apply Rev1_openConnection_settled)
    | apply Rev1_openConnection_settled
    | apply keeps_skip | apply keeps_skip ].
Qed.

Lemma Rev1_sendMessage_settled (m : JsVal) : keeps settled (Rev1.sendMessage p m).
Proof.
  unfold Rev1.sendMessage. destruct (negb (hasSetProps p)); [apply keeps_skip|].
  intros w Hw. unfold Rev1.try_send, ws_send.
  assert (Hk : keeps settled
            (debug_log p "Cannot send message - connection state" >>>
             when_ (λ w, bool_decide (currentReadyStateRef w = CLOSED))
               (debug_log p "Attempting to reconnect for message send" >>>
                set_forcedCloseRef false >>> Rev1.openConnection p false))).
  { keeps_with ltac:(apply Rev1_openConnection_settled). }
  unfold settled in *.
  repeat case_match; simplify_eq;
    first [ apply Hk; by rewrite ?(field_debug_log timedOutRef)
          | by rewrite ?(field_debug_log timedOutRef) ].
Qed.

Lemma Rev1_step_settled (i : Input) : keeps settled (Rev1.step p i).
Proof.
  destruct i as [t|ws event|ws event|ws event|ws event|send| |c| |ms]; cbn [Rev1.step].
  - intros w Hw. unfold fire_timer. destruct (timers w !! t) as [[cb ms]|]; [|done].
    by apply Rev1_run_timer_settled.
  - intros w Hw. unfold deliver_open. repeat case_match; try done.
    by apply Rev1_ws_onopen_settled.
  - intros w Hw. unfold deliver_message. repeat case_match; try done.
    all: by apply Rev1_ws_onmessage_settled.
  - intros w Hw. unfold deliver_while_alive. repeat case_match; try done.
    all: by apply Rev1_ws_onerror_settled.
  - intros w Hw. unfold deliver_close. repeat case_match; try done.
    all: by apply Rev1_ws_onclose_settled.
  - unfold Rev1.send_effect. keeps_with ltac:(apply Rev1_sendMessage_settled).
  - intros w Hw. unfold Rev1.connect_effect.
    destruct (Rev1.connection_already_good p w); [done|].
    assert (Hd : settled ((Rev1.disconnect >>> set_forcedCloseRef false) w)).
    { revert w Hw. change (keeps settled (Rev1.disconnect >>> set_forcedCloseRef false)).
      keeps_with ltac:(apply Rev1_disconnect_settled). }
    cbv zeta. unfold setTimeout. by repeat case_match.
  - destruct c; cbn [Rev1.connect_cleanup];
      keeps_with ltac:(apply Rev1_disconnect_settled).
  - apply Rev1_disconnect_settled.
  - by intros w Hw.
Qed.

End TimedOut.

(** C6, checked on the code.  The handshake timer of the first revision
    reports nothing, starts the close of its socket, and has put [timedOutRef]
    back to false by the time it returns; the flag is false whenever any
    other callback starts.  So a fresh attempt that times out is reported
    like any other loss: when its socket raises [close], the interim [close]
    event is sent. *)
Theorem C6_timed_out_attempt_reports_interim_close :
  (∀ p ws w,
     let w' := Rev1.connectionTimeout p ws w in
     timedOutRef w' = false
     ∧ observer (trace w') = observer (trace w)
     ∧ ∀ k, sockets w !! ws = Some k → readyState k = CONNECTING →
            readyState <$> sockets w' !! ws = Some CLOSING)
  ∧ (∀ p inputs t, timedOutRef (Rev1.run p inputs (initial_world t)) = false)
  ∧ (let timed_out :=
       Rev1.run demo_props [ConnectEffect; TimerFires 1; TimerFires 3] (initial_world 0) in
     let closed := Rev1.step demo_props (TransportClose 2 (closeEvent 1006)) timed_out in
     isReconnectAttemptRef timed_out = false
     ∧ readyState <$> sockets timed_out !! 2 = Some CLOSING
     ∧ interim_closes (trace timed_out) = []
     ∧ interim_closes (trace closed)
       = [state_update CONNECTING "close" (closeEvent 1006) ∅ 0]).
Proof.
  split; [|split].
  - intros p ws w w'. split; [reflexivity|]. split.
    + subst w'. unfold Rev1.connectionTimeout, seq. fields.
      rewrite trace_ws_close, observer_app. fields. rewrite observer_debug_log. cbn.
      by rewrite app_nil_r.
    + intros k Hk Hr. subst w'. unfold Rev1.connectionTimeout, ws_close, emit, seq. fields.
      rewrite (field_debug_log sockets) by done. rewrite Hk, Hr. fields.
      by rewrite lookup_insert_eq.
  - intros p inputs t.
    apply (keeps_foldl (λ w, timedOutRef w = false) (Rev1.step p)); [|done].
    apply Rev1_step_settled.
  - intros timed_out closed. compute_done.
Qed.
(** ** C7: transport errors *)

Lemma deliver_while_alive_same_state (ws : nat) (handler : Action) (w : World) :
  same_state w (handler w) → same_state w (deliver_while_alive ws handler w).
Proof.
  intros H. unfold deliver_while_alive.
  destruct (readyState <$> sockets w !! ws) as [[]|]; done.
Qed.

Lemma deliver_while_alive_alive (ws : nat) (k : Socket) (handler : Action) (w : World) :
  sockets w !! ws = Some k → readyState k ≠ CLOSED →
  deliver_while_alive ws handler w = handler w.
Proof.
  intros Hk Hr. unfold deliver_while_alive. rewrite Hk. cbn [fmap option_fmap option_map].
  by destruct (readyState k).
Qed.

Lemma deliver_while_alive_gone (ws : nat) (handler : Action) (w : World) :
  (∀ k, sockets w !! ws = Some k → readyState k = CLOSED) →
  deliver_while_alive ws handler w = w.
Proof.
  intros H. unfold deliver_while_alive. destruct (sockets w !! ws) as [k|]; [|done].
  cbn [fmap option_fmap option_map]. by rewrite (H k).
Qed.

Lemma Rev2_ws_onerror_eq (p : Props) (event : JsObj) (w : World) :
  Rev2.ws_onerror p event w =
    safeSetProps p (event_update "error" event (clock w)) (debug_log p "onerror" w).
Proof.
  unfold Rev2.ws_onerror, seq, bind, date_now, read. cbn [fst snd].
  by rewrite (field_debug_log clock).
Qed.

Lemma Rev1_ws_onerror_eq (p : Props) (event : JsObj) (w : World) :
  Rev1.ws_onerror p event w =
    safeSetProps p (event_update "error" event (clock w)) (debug_log p "onerror" w).
Proof.
  unfold Rev1.ws_onerror, seq, bind, date_now, read. cbn [fst snd].
  by rewrite (field_debug_log clock).
Qed.

Lemma Legacy_ws_onerror_eq (p : Props) (event : JsObj) (w : World) :
  Legacy.ws_onerror p event w =
    emit (SetProps (event_update "error" event (clock w))) (debug_log p "onerror" w).
Proof.
  unfold Legacy.ws_onerror, Legacy.setProps, seq, bind, date_now, read. cbn [fst snd].
  by rewrite (field_debug_log clock).
Qed.

(** C7.  An error signal of the transport changes nothing but the trace, in
    every revision: no ref, timer or socket is touched.  When the socket that
    raises it is not yet closed, the step adds the debug line, when enabled,
    and one update for the Observer (in the two revisions of
    ReconnectingWebSocket.tsx only when there is a [setProps]); the update
    has the one key [error], whose object holds the type [error], the time of
    the call, the [isTrusted] of the signal, and those of [origin], [data],
    [code], [reason] and [wasClean] that the signal has, with the signal's
    values.  An error of a closed or unknown socket does nothing. *)
Theorem C7_error_is_informational (p : Props) (ws : nat) (event : JsObj) (w : World) :
  let report := event_update "error" event (clock w) in
  let w2 := Rev2.step p (TransportError ws event) w in
  let w1 := Rev1.step p (TransportError ws event) w in
  let w0 := Legacy.step p (TransportError ws event) w in
  (same_state w w2 ∧ same_state w w1 ∧ same_state w w0)
  ∧ (∀ k, sockets w !! ws = Some k → readyState k ≠ CLOSED →
       trace w2
         = trace w
           ++ (if debug (settings p) then [Console "onerror"] else [])
           ++ (if hasSetProps p then [SetProps report] else [])
       ∧ trace w1 = trace w2
       ∧ trace w0
         = trace w ++ (if debug (settings p) then [Console "onerror"] else [])
           ++ [SetProps report])
  ∧ ((∀ k, sockets w !! ws = Some k → readyState k = CLOSED) →
     w2 = w ∧ w1 = w ∧ w0 = w)
  ∧ (∀ key, is_Some (report !! key) ↔ key = "error")
  ∧ (∀ field,
       update_field report "error" field =
         match (if decide (field ∈ copied_fields) then event !! field else None) with
         | Some v => Some v
         | None =>
             if decide (field = "type") then Some (JStr "error")
             else if decide (field = "timeStamp") then Some (JNum (clock w))
             else if decide (field = "isTrusted") then
               Some (match event !! "isTrusted" with
                     | Some v => if truthy v then v else JBool false
                     | None => JBool false
                     end)
             else None
         end).
Proof.
  intros report w2 w1 w0. subst report w2 w1 w0. cbn [Rev2.step Rev1.step Legacy.step].
  split; [|split; [|split; [|split]]].
  - split; [|split]; apply deliver_while_alive_same_state.
    + rewrite Rev2_ws_onerror_eq.
      eapply same_state_trans; [apply same_state_debug_log | apply same_state_safeSetProps].
    + rewrite Rev1_ws_onerror_eq.
      eapply same_state_trans; [apply same_state_debug_log | apply same_state_safeSetProps].
    + rewrite Legacy_ws_onerror_eq.
      eapply same_state_trans; [apply same_state_debug_log | apply same_state_emit].
  - intros k Hk Hr. rewrite !(deliver_while_alive_alive ws k) by done.
    rewrite Rev2_ws_onerror_eq, Rev1_ws_onerror_eq, Legacy_ws_onerror_eq.
    rewrite trace_safeSetProps, trace_debug_log. cbn [trace emit set_trace].
    by rewrite trace_debug_log, <- !app_assoc.
  - intros Hgone. by rewrite !deliver_while_alive_gone.
  - intros key. apply event_update_keys.
  - intros field. apply event_update_field.
Qed.

(** An error of socket 2 while it connects: the Observer is told, and the
    object it gets says so. *)
Lemma C7_error_is_informational_witness :
  observer (trace (Rev2.step demo_props (TransportError 2 plainEvent) mid_handshake))
    = observer (trace mid_handshake)
      ++ [event_update "error" plainEvent (clock mid_handshake)]
  ∧ update_field (event_update "error" plainEvent (clock mid_handshake)) "error" "type"
    = Some (JStr "error").
Proof.
  destruct (C7_error_is_informational demo_props 2 plainEvent mid_handshake)
    as (_ & Htrace & _ & _ & Hfield).
  split.
  - assert (Hk : sockets mid_handshake !! 2 = Some connecting_socket) by compute_done.
    destruct (Htrace connecting_socket Hk) as (H2 & _); [done|].
    rewrite H2. compute_done.
  - rewrite (Hfield "type"). compute_done.
Defined.

(** ** C8: callbacks and the socket they belong to *)



Lemma Rev2_openConnection_socket (p : Props) (u : string) (r : bool) (w : World) :
  url_present p = Some u →
  wsRef (Rev2.openConnection p r w) = Some (nextId w)
  ∧ sockets (Rev2.openConnection p r w) =
      <[nextId w := {| readyState := CONNECTING; sock_url := u;
                       sock_reconnectAttempt := r |}]> (sockets w)
  ∧ connectionTimeoutRef (Rev2.openConnection p r w) = Some (S (nextId w)).
Proof.
  intros Hu. unfold Rev2.openConnection. rewrite Hu.
  unfold seq, bind, date_now, read, newWebSocket, setTimeout, debug_log, safeSetProps,
    emit, skip.
  destruct r, (hasSetProps p), (debug (settings p)); done.
Qed.




(** ** C9: opening without a url *)

(** C9.  Without a target url the connection-opening function of each
    revision returns its state untouched: no socket, no timer, no report,
    no ref written. *)
Theorem C9_open_without_url_is_noop (p : Props) (reconnectAttempt : bool) (w : World) :
  url p = None ∨ url p = Some "" →
  Rev2.openConnection p reconnectAttempt w = w
  ∧ Rev1.openConnection p reconnectAttempt w = w
  ∧ Legacy.connect p reconnectAttempt w = w.
Proof.
  intros H%url_absent.
  unfold Rev2.openConnection, Rev1.openConnection, Legacy.connect.
  by rewrite H.
Qed.

Lemma C9_open_without_url_is_noop_witness :
  (url (without_url demo_props) = None ∨ url (without_url demo_props) = Some "")
  ∧ Rev2.openConnection (without_url demo_props) false (initial_world 0) = initial_world 0.
Proof.
  split; [by left|].
  apply (C9_open_without_url_is_noop (without_url demo_props) false (initial_world 0)).
  by left.
Defined.

(** ** C10: the effect on the [send] prop *)

Lemma Rev2_try_send_prevSendRef (p : Props) (m : JsVal) (w : World) :
  match Rev2.try_send p m w with
  | inl w' | inr w' => prevSendRef w' = prevSendRef w
  end.
Proof.
  unfold Rev2.try_send, ws_send.
  repeat case_match; simplify_eq; cbn; by rewrite ?(field_debug_log prevSendRef).
Qed.

Lemma Rev2_sendMessage_keeps_prevSendRef (p : Props) (m v : JsVal) :
  keeps (λ w, prevSendRef w = v) (Rev2.sendMessage p m).
Proof.
  unfold Rev2.sendMessage. destruct (negb (hasSetProps p)); [apply keeps_skip|].
  intros w Hw. assert (Ht := Rev2_try_send_prevSendRef p m w).
  destruct (Rev2.try_send p m w) as [w'|w']; [congruence|].
  assert (Hk : keeps (λ w, prevSendRef w = v)
            (debug_log p "Cannot send message - connection state" >>>
             when_ (λ w, bool_decide (currentReadyStateRef w = CLOSED) && everConnectedRef w)
               (debug_log p "Attempting to reconnect for message send" >>>
                set_forcedCloseRef false >>> Rev2.openConnection p false))).
  { keeps_with ltac:(apply Rev2_openConnection_keeps_prevSendRef). }
  apply Hk. congruence.
Qed.

Lemma Rev1_try_send_prevSendRef (p : Props) (m : JsVal) (w : World) :
  match Rev1.try_send p m w with
  | inl w' | inr w' => prevSendRef w' = prevSendRef w
  end.
Proof.
  unfold Rev1.try_send, ws_send.
  repeat case_match; simplify_eq; cbn; by rewrite ?(field_debug_log prevSendRef).
Qed.

Lemma Rev1_sendMessage_keeps_prevSendRef (p : Props) (m v : JsVal) :
  keeps (λ w, prevSendRef w = v) (Rev1.sendMessage p m).
Proof.
  unfold Rev1.sendMessage. destruct (negb (hasSetProps p)); [apply keeps_skip|].
  intros w Hw. assert (Ht := Rev1_try_send_prevSendRef p m w).
  destruct (Rev1.try_send p m w) as [w'|w']; [congruence|].
  assert (Hk : keeps (λ w, prevSendRef w = v)
            (debug_log p "Cannot send message - connection state" >>>
             when_ (λ w, bool_decide (currentReadyStateRef w = CLOSED))
               (debug_log p "Attempting to reconnect for message send" >>>
                set_forcedCloseRef false >>> Rev1.openConnection p false))).
  { keeps_with ltac:(apply Rev1_openConnection_keeps_prevSendRef). }
  apply Hk. congruence.
Qed.

Lemma Legacy_sendMessage_keeps_prevSendRef (p : Props) (m v : JsVal) :
  keeps (λ w, prevSendRef w = v) (Legacy.sendMessage p m).
Proof.
  unfold Legacy.sendMessage, Legacy.sendMessage_waiting.
  keeps_with ltac:(apply Legacy_connect_keeps_prevSendRef).
  all: intros w Hw; rewrite <- Hw; unfold Legacy.sendMessage_now, ws_send.
  all: repeat case_match; simplify_eq; cbn; by rewrite ?(field_debug_log prevSendRef).
Qed.

(** The effect seen from outside: nothing on a value that is [===] to the
    one seen last, only the bookkeeping on a null or undefined one, and
    afterwards the value is the one remembered.  A value other than NaN is
    [===] to itself, so that the effect run again does nothing. *)
Lemma send_effect_shape (sendMessage : JsVal → Action) (send : JsVal) (w : World) :
  (∀ m v, keeps (λ w, prevSendRef w = v) (sendMessage m)) →
  let effect :=
    ifte (λ w, strict_eq (prevSendRef w) send) skip
      (set_prevSendRef send >>> (if not_nullish send then sendMessage send else skip)) in
  (strict_eq (prevSendRef w) send = true → effect w = w)
  ∧ (strict_eq (prevSendRef w) send = false → not_nullish send = false →
     effect w = set_prevSendRef send w)
  ∧ (strict_eq (prevSendRef w) send = false → not_nullish send = true →
     effect w = sendMessage send (set_prevSendRef send w))
  ∧ prevSendRef (effect w) = send
  ∧ (send ≠ JNaN → effect (effect w) = effect w).
Proof.
  intros Hk effect.
  assert (Hp : prevSendRef (effect w) = send).
  { subst effect. unfold ifte, seq, skip. destruct (strict_eq _ _) eqn:He.
    - by apply strict_eq_true in He as [He _].
    - destruct (not_nullish send); [by apply Hk | done]. }
  assert (Hi : send ≠ JNaN → ∀ w', prevSendRef w' = send → effect w' = w').
  { intros Hn w' Hw'. subst effect. unfold ifte, skip. by rewrite Hw', strict_eq_refl. }
  repeat split.
  - intros He. subst effect. unfold ifte, skip. by rewrite He.
  - intros He Hn. subst effect. unfold ifte, seq, skip. by rewrite He, Hn.
  - intros He Hn. subst effect. unfold ifte, seq, skip. by rewrite He, Hn.
  - exact Hp.
  - intros Hn. by apply Hi.
Qed.

Lemma run_repeated_send (step : Input → Action) (effect : Action) (send : JsVal) :
  step (SendProp send) = effect →
  (∀ w, effect (effect w) = effect w) →
  ∀ n w, foldl (λ w i, step i w) w (replicate (S n) (SendProp send)) = effect w.
Proof.
  intros <- Hi n. induction n as [|n IH]; intros w; [done|].
  change (foldl (λ w i, step i w) (step (SendProp send) w)
            (replicate (S n) (SendProp send)) = step (SendProp send) w).
  by rewrite IH, Hi.
Qed.

(** C10 (amended).  In every revision the effect on the [send] prop does
    nothing when the value is [===] to the one seen last, only remembers a
    null or undefined value without calling [sendMessage] (so nothing is
    transmitted and no connection is opened for it), and calls [sendMessage]
    once otherwise.  For every value but NaN, setting the same value again
    any number of times adds nothing to the first time.  NaN is [===] to
    nothing: every update with it calls [sendMessage], whatever was seen
    before. *)
Theorem C10_send_effect_on_change_only (p : Props) (send : JsVal) (w : World) (n : nat) :
  (strict_eq (prevSendRef w) send = true →
     Rev2.send_effect p send w = w
     ∧ Rev1.send_effect p send w = w
     ∧ Legacy.send_effect p send w = w)
  ∧ (strict_eq (prevSendRef w) send = false → not_nullish send = false →
     Rev2.send_effect p send w = set_prevSendRef send w
     ∧ Rev1.send_effect p send w = set_prevSendRef send w
     ∧ Legacy.send_effect p send w = set_prevSendRef send w)
  ∧ (strict_eq (prevSendRef w) send = false → not_nullish send = true →
     Rev2.send_effect p send w = Rev2.sendMessage p send (set_prevSendRef send w)
     ∧ Rev1.send_effect p send w = Rev1.sendMessage p send (set_prevSendRef send w)
     ∧ Legacy.send_effect p send w = Legacy.sendMessage p send (set_prevSendRef send w))
  ∧ (strict_eq (prevSendRef w) send = true ↔ prevSendRef w = send ∧ send ≠ JNaN)
  ∧ (send ≠ JNaN →
     Rev2.run p (replicate (S n) (SendProp send)) w = Rev2.send_effect p send w
     ∧ Rev1.run p (replicate (S n) (SendProp send)) w = Rev1.send_effect p send w
     ∧ Legacy.run p (replicate (S n) (SendProp send)) w = Legacy.send_effect p send w)
  ∧ (Rev2.send_effect p JNaN w = Rev2.sendMessage p JNaN (set_prevSendRef JNaN w)
     ∧ Rev1.send_effect p JNaN w = Rev1.sendMessage p JNaN (set_prevSendRef JNaN w)
     ∧ Legacy.send_effect p JNaN w = Legacy.sendMessage p JNaN (set_prevSendRef JNaN w)).
Proof.
  destruct (send_effect_shape (Rev2.sendMessage p) send w
              (Rev2_sendMessage_keeps_prevSendRef p)) as (A2 & B2 & C2 & _).
  destruct (send_effect_shape (Rev1.sendMessage p) send w
              (Rev1_sendMessage_keeps_prevSendRef p)) as (A1 & B1 & C1 & _).
  destruct (send_effect_shape (Legacy.sendMessage p) send w
              (Legacy_sendMessage_keeps_prevSendRef p)) as (A0 & B0 & C0 & _).
  split; [auto|]. split; [auto|]. split; [auto|]. split; [|split].
  - rewrite strict_eq_true. split; intros [H1 H2]; split; congruence.
  - intros Hn. repeat split.
    + apply (run_repeated_send (Rev2.step p) (Rev2.send_effect p send)); [done|].
      intros w'. by apply (send_effect_shape (Rev2.sendMessage p) send w'
                             (Rev2_sendMessage_keeps_prevSendRef p)).
    + apply (run_repeated_send (Rev1.step p) (Rev1.send_effect p send)); [done|].
      intros w'. by apply (send_effect_shape (Rev1.sendMessage p) send w'
                             (Rev1_sendMessage_keeps_prevSendRef p)).
    + apply (run_repeated_send (Legacy.step p) (Legacy.send_effect p send)); [done|].
      intros w'. by apply (send_effect_shape (Legacy.sendMessage p) send w'
                             (Legacy_sendMessage_keeps_prevSendRef p)).
  - destruct (strict_eq_NaN (prevSendRef w)) as (Hne & _).
    destruct (send_effect_shape (Rev2.sendMessage p) JNaN w
                (Rev2_sendMessage_keeps_prevSendRef p)) as (_ & _ & N2 & _).
    destruct (send_effect_shape (Rev1.sendMessage p) JNaN w
                (Rev1_sendMessage_keeps_prevSendRef p)) as (_ & _ & N1 & _).
    destruct (send_effect_shape (Legacy.sendMessage p) JNaN w
                (Legacy_sendMessage_keeps_prevSendRef p)) as (_ & _ & N0 & _).
    split; [by apply N2 | split; [by apply N1 | by apply N0]].
Qed.

Lemma C10_send_effect_on_change_only_witness :
  strict_eq (prevSendRef (initial_world 0)) JUndefined = true
  ∧ Rev2.send_effect demo_props JUndefined (initial_world 0) = initial_world 0
  ∧ Rev2.run demo_props (replicate 3 (SendProp (JStr "ping"))) (initial_world 0)
    = Rev2.send_effect demo_props (JStr "ping") (initial_world 0).
Proof.
  destruct (C10_send_effect_on_change_only demo_props JUndefined (initial_world 0) 0)
    as (H1 & _).
  destruct (C10_send_effect_on_change_only demo_props (JStr "ping") (initial_world 0) 2)
    as (_ & _ & _ & _ & H2 & _).
  split; [reflexivity|]. split; [apply H1; reflexivity | by apply H2].
Defined.

(** C10 fails as stated.  With socket 2 open, the [send] prop set to NaN
    and the component rendered twice more with the same props, the message
    goes out three times: [prevSendRef.current === send] is false each
    time. *)
Lemma C10_NaN_is_sent_on_every_update :
  currentReadyStateRef socket_open = OPEN
  ∧ sent (trace socket_open) = []
  ∧ sent (trace (Rev2.run demo_props (replicate 3 (SendProp JNaN)) socket_open))
    = [(2, JNaN); (2, JNaN); (2, JNaN)]
  ∧ sent (trace (Rev1.run demo_props
                   ([ConnectEffect; TimerFires 1; TransportOpen 2 plainEvent]
                    ++ replicate 3 (SendProp JNaN)) (initial_world 0)))
    = [(2, JNaN); (2, JNaN); (2, JNaN)].
Proof. compute_done. Qed.

(** * Further properties of the code *)

(** ** [createEventData] *)

(** X1.  The object built by [createEventData] has exactly these fields:
    [type], [timeStamp] and [isTrusted], the fields of [additionalData], and
    those of [origin], [data], [code], [reason], [wasClean] that the signal
    has.  No other field of the signal gets into it, and a call without a
    signal builds what a call with an empty one builds. *)
Theorem X1_createEventData_fields (t : Z) (type : string) (e additionalData : JsObj) :
  (∀ k,
     is_Some (createEventData t type (Some e) additionalData !! k) ↔
       k ∈ own_fields ∨ is_Some (additionalData !! k)
       ∨ (k ∈ copied_fields ∧ is_Some (e !! k)))
  ∧ createEventData t type None additionalData
    = createEventData t type (Some ∅) additionalData.
Proof.
  split.
  - intros k. rewrite createEventData_lookup.
    assert (Hor : ∀ a b : option JsVal,
              is_Some (match a with Some v => Some v | None => b end)
              ↔ is_Some a ∨ is_Some b).
    { intros [v|] b; split; eauto. intros [[? [=]]|H]; done. }
    rewrite !Hor.
    assert (Hc : is_Some (if decide (k ∈ copied_fields) then e !! k else None)
                 ↔ k ∈ copied_fields ∧ is_Some (e !! k)).
    { destruct (decide _); split; try tauto. intros [? [=]]. }
    assert (Ho : is_Some
                   (if decide (k = "type") then Some (JStr type)
                    else if decide (k = "timeStamp") then Some (JNum t)
                    else if decide (k = "isTrusted") then
                      Some (match e !! "isTrusted" with
                            | Some v => if truthy v then v else JBool false
                            | None => JBool false
                            end)
                    else None)
                 ↔ k ∈ own_fields).
    { unfold own_fields. rewrite !elem_of_cons, elem_of_nil.
      destruct (decide (k = "type")) as [->|H1]; [split; eauto|].
      destruct (decide (k = "timeStamp")) as [->|H2]; [split; eauto|].
      destruct (decide (k = "isTrusted")) as [->|H3]; [split; eauto|].
      split; [intros [? [=]] | intros [?|[?|[?|[]]]]; done]. }
    rewrite Hc, Ho. tauto.
  - unfold createEventData, copy_field. cbn [mbind option_bind].
    by rewrite !lookup_empty.
Qed.

(** X2.  Which value a field of the built object has.  A copied field that
    the signal has takes the signal's value, even when [additionalData] sets
    it too; otherwise a field of [additionalData] wins over [type],
    [timeStamp] and [isTrusted]; and when [additionalData] leaves them alone,
    [type] and [timeStamp] are the arguments of the call whatever the signal
    holds under these names, and [isTrusted] is the signal's value if that is
    truthy and [false] if not. *)
Theorem X2_createEventData_values (t : Z) (type : string) (e additionalData : JsObj) :
  let built := createEventData t type (Some e) additionalData in
  (∀ k v, k ∈ copied_fields → e !! k = Some v → built !! k = Some v)
  ∧ (∀ k v, additionalData !! k = Some v → k ∉ copied_fields ∨ e !! k = None →
       built !! k = Some v)
  ∧ (additionalData !! "type" = None → built !! "type" = Some (JStr type))
  ∧ (additionalData !! "timeStamp" = None → built !! "timeStamp" = Some (JNum t))
  ∧ (additionalData !! "isTrusted" = None →
       built !! "isTrusted" =
         Some (match e !! "isTrusted" with
               | Some v => if truthy v then v else JBool false
               | None => JBool false
               end)).
Proof.
  intros built. subst built. repeat split.
  - intros k v Hin He. rewrite createEventData_lookup, decide_True by done. by rewrite He.
  - intros k v Ha Hk. rewrite createEventData_lookup, Ha.
    destruct (decide (k ∈ copied_fields)); [|done].
    destruct Hk as [Hk| ->]; done.
  - intros Ha. rewrite createEventData_lookup, Ha. by rewrite decide_False by compute_done.
  - intros Ha. rewrite createEventData_lookup, Ha. by rewrite decide_False by compute_done.
  - intros Ha. rewrite createEventData_lookup, Ha. by rewrite decide_False by compute_done.
Qed.

(** A [connecting] event built from a close signal that has a [type] and a
    [target] of its own and the annotation of the stopped retries. *)
Lemma X2_createEventData_values_witness :
  let e : JsObj := <["type" := JStr "close"]> (<["target" := JRef 7]> (closeEvent 1006)) in
  (Rev2.reconnectionStopped !! "reason"
     = Some (JStr "Max attempts reached or server unavailable")
   ∧ "reason" ∈ copied_fields ∧ e !! "reason" = Some (JStr ""))
  ∧ createEventData 5 "connecting" (Some e) Rev2.reconnectionStopped !! "reason"
    = Some (JStr "").
Proof.
  intros e.
  assert (Hin : "reason" ∈ copied_fields) by compute_done.
  assert (He : e !! "reason" = Some (JStr "")) by compute_done.
  split; [split; [compute_done | done]|].
  exact (proj1 (X2_createEventData_values 5 "connecting" e Rev2.reconnectionStopped)
           "reason" (JStr "") Hin He).
Defined.

(** ** [ws.onmessage] *)

Lemma deliver_message_same_state (ws : nat) (handler : Action) (w : World) :
  same_state w (handler w) → same_state w (deliver_message ws handler w).
Proof.
  intros H. unfold deliver_message.
  destruct (readyState <$> sockets w !! ws) as [[]|]; done.
Qed.

Lemma deliver_message_cases (ws : nat) (handler : Action) (w : World) :
  deliver_message ws handler w = handler w ∨ deliver_message ws handler w = w.
Proof.
  unfold deliver_message. destruct (readyState <$> sockets w !! ws) as [[]|]; auto.
Qed.

Lemma deliver_message_receiving (ws : nat) (k : Socket) (handler : Action) (w : World) :
  sockets w !! ws = Some k → readyState k = OPEN ∨ readyState k = CLOSING →
  deliver_message ws handler w = handler w.
Proof.
  intros Hk Hr. unfold deliver_message. rewrite Hk. cbn [fmap option_fmap option_map].
  by destruct Hr as [-> | ->].
Qed.

Lemma deliver_message_deaf (ws : nat) (handler : Action) (w : World) :
  (∀ k, sockets w !! ws = Some k → readyState k = CONNECTING ∨ readyState k = CLOSED) →
  deliver_message ws handler w = w.
Proof.
  intros H. unfold deliver_message. destruct (sockets w !! ws) as [k|]; [|done].
  cbn [fmap option_fmap option_map]. by destruct (H k eq_refl) as [-> | ->].
Qed.

Lemma Rev2_ws_onmessage_eq (p : Props) (event : JsObj) (w : World) :
  Rev2.ws_onmessage p event w =
    safeSetProps p (event_update "message" event (clock w)) (debug_log p "onmessage" w)
  ∧ Rev1.ws_onmessage p event w = Rev2.ws_onmessage p event w
  ∧ Legacy.ws_onmessage p event w =
      emit (SetProps (event_update "message" event (clock w)))
        (debug_log p "onmessage" w).
Proof.
  unfold Rev2.ws_onmessage, Rev1.ws_onmessage, Legacy.ws_onmessage, Legacy.setProps,
    seq, bind, date_now, read.
  cbn [fst snd]. by rewrite (field_debug_log clock).
Qed.

Lemma ws_onmessage_trace (p : Props) (event : JsObj) (w : World) :
  trace (Rev2.ws_onmessage p event w)
    = trace w
      ++ (if debug (settings p) then [Console "onmessage"] else [])
      ++ (if hasSetProps p then [SetProps (event_update "message" event (clock w))] else [])
  ∧ trace (Rev1.ws_onmessage p event w) = trace (Rev2.ws_onmessage p event w)
  ∧ trace (Legacy.ws_onmessage p event w)
    = trace w
      ++ (if debug (settings p) then [Console "onmessage"] else [])
      ++ [SetProps (event_update "message" event (clock w))].
Proof.
  destruct (Rev2_ws_onmessage_eq p event w) as (E2 & E1 & E0).
  rewrite E1, E2, E0, trace_safeSetProps. cbn [trace emit set_trace].
  by rewrite trace_debug_log, <- !app_assoc.
Qed.

Lemma ws_onmessage_sends_nothing (p : Props) (event : JsObj) (w : World) :
  (sent (trace (Rev2.ws_onmessage p event w)) = sent (trace w)
   ∧ opened (trace (Rev2.ws_onmessage p event w)) = opened (trace w))
  ∧ (sent (trace (Rev1.ws_onmessage p event w)) = sent (trace w)
     ∧ opened (trace (Rev1.ws_onmessage p event w)) = opened (trace w))
  ∧ (sent (trace (Legacy.ws_onmessage p event w)) = sent (trace w)
     ∧ opened (trace (Legacy.ws_onmessage p event w)) = opened (trace w)).
Proof.
  destruct (ws_onmessage_trace p event w) as (T2 & T1 & T0).
  rewrite T1, T2, T0, !sent_app, !opened_app.
  destruct (debug (settings p)), (hasSetProps p); cbn; by rewrite ?app_nil_r.
Qed.

(** X3.  A message of the transport changes nothing but the trace, in every
    revision: no ref, timer or socket is touched, and nothing is sent back or
    opened.  When the socket that raises it is open or closing, the step adds
    the debug line, when enabled, and one update for the Observer (in the two
    revisions of ReconnectingWebSocket.tsx only when there is a [setProps]);
    the update has the one key [message], whose object holds the type
    [message], the time of the call, the [isTrusted] of the signal, and those
    of [origin], [data], [code], [reason] and [wasClean] that the signal has,
    with the signal's values.  A message of any other socket does nothing. *)
Theorem X3_message_is_only_reported (p : Props) (ws : nat) (event : JsObj) (w : World) :
  let report := event_update "message" event (clock w) in
  let w2 := Rev2.step p (TransportMessage ws event) w in
  let w1 := Rev1.step p (TransportMessage ws event) w in
  let w0 := Legacy.step p (TransportMessage ws event) w in
  (same_state w w2 ∧ same_state w w1 ∧ same_state w w0)
  ∧ (sent (trace w2) = sent (trace w) ∧ opened (trace w2) = opened (trace w))
  ∧ (sent (trace w1) = sent (trace w) ∧ opened (trace w1) = opened (trace w))
  ∧ (sent (trace w0) = sent (trace w) ∧ opened (trace w0) = opened (trace w))
  ∧ (∀ k, sockets w !! ws = Some k → readyState k = OPEN ∨ readyState k = CLOSING →
       trace w2
         = trace w
           ++ (if debug (settings p) then [Console "onmessage"] else [])
           ++ (if hasSetProps p then [SetProps report] else [])
       ∧ trace w1 = trace w2
       ∧ trace w0
         = trace w ++ (if debug (settings p) then [Console "onmessage"] else [])
           ++ [SetProps report])
  ∧ ((∀ k, sockets w !! ws = Some k → readyState k = CONNECTING ∨ readyState k = CLOSED) →
     w2 = w ∧ w1 = w ∧ w0 = w)
  ∧ (∀ key, is_Some (report !! key) ↔ key = "message")
  ∧ (∀ field,
       update_field report "message" field =
         match (if decide (field ∈ copied_fields) then event !! field else None) with
         | Some v => Some v
         | None =>
             if decide (field = "type") then Some (JStr "message")
             else if decide (field = "timeStamp") then Some (JNum (clock w))
             else if decide (field = "isTrusted") then
               Some (match event !! "isTrusted" with
                     | Some v => if truthy v then v else JBool false
                     | None => JBool false
                     end)
             else None
         end).
Proof.
  intros report w2 w1 w0. subst report w2 w1 w0. cbn [Rev2.step Rev1.step Legacy.step].
  destruct (Rev2_ws_onmessage_eq p event w) as (E2 & E1 & E0).
  destruct (ws_onmessage_sends_nothing p event w) as (S2 & S1 & S0).
  destruct (ws_onmessage_trace p event w) as (T2 & T1 & T0).
  split; [|split; [|split; [|split; [|split; [|split; [|split]]]]]].
  - split; [|split]; apply deliver_message_same_state.
    + rewrite E2.
      eapply same_state_trans; [apply same_state_debug_log | apply same_state_safeSetProps].
    + rewrite E1, E2.
      eapply same_state_trans; [apply same_state_debug_log | apply same_state_safeSetProps].
    + rewrite E0.
      eapply same_state_trans; [apply same_state_debug_log | apply same_state_emit].
  - by destruct (deliver_message_cases ws (Rev2.ws_onmessage p event) w) as [-> | ->].
  - by destruct (deliver_message_cases ws (Rev1.ws_onmessage p event) w) as [-> | ->].
  - by destruct (deliver_message_cases ws (Legacy.ws_onmessage p event) w) as [-> | ->].
  - intros k Hk Hr. by rewrite !(deliver_message_receiving ws k).
  - intros Hdeaf. by rewrite !deliver_message_deaf.
  - intros key. apply event_update_keys.
  - intros field. apply event_update_field.
Qed.

(** ** [shouldAttemptReconnection] and the outcome of [ws.onclose] *)

Lemma Rev2_shouldAttemptReconnection_decision (p : Props) (event : JsObj) (w : World) :
  (Rev2.shouldAttemptReconnection p event w).1 = negb (retries_stopped p event w).
Proof.
  unfold Rev2.shouldAttemptReconnection, retries_stopped.
  destruct (forcedCloseRef w); [done|].
  destruct (max_attempts_reached _ _); [done|].
  destruct (everConnectedRef w); [done|]. cbn [negb orb andb].
  destruct (Rev2.code_unavailable event); [|done]. cbn [andb].
  by destruct (3 <=? reconnectAttemptsRef w).
Qed.

Lemma retries_stopped_onclose_prelude (p : Props) (event : JsObj) (w : World) :
  retries_stopped p event (onclose_prelude p "onclose" w) = retries_stopped p event w.
Proof. unfold retries_stopped. by rewrite !field_onclose_prelude. Qed.

Lemma timers_onclose_prelude_eq (p : Props) (s : string) (w : World) :
  timers (onclose_prelude p s w) = without_handshake_timer w.
Proof. apply timers_onclose_prelude. Qed.

(** X4.  What [ws.onclose] of the second revision leaves behind.  It never
    changes the attempt count, [everConnectedRef] or the forced-close flag,
    and it always empties [wsRef] and clears the handshake timer.  When the
    close was forced or the retries are stopped, the state is Closed, no timer
    is armed and the Observer gets one update; otherwise the state is
    Connecting, exactly one timer is added, the retry with the back-off delay
    of the current count, its handle is stored in [reconnectTimeoutRef], and
    the Observer gets the [connecting] update, followed by the [close] of the
    loss exactly when neither [isReconnectAttemptRef] nor [timedOutRef] is
    set. *)
Theorem X4_Rev2_onclose_outcome (p : Props) (event : JsObj) (w : World) :
  let w' := Rev2.ws_onclose p event w in
  (reconnectAttemptsRef w' = reconnectAttemptsRef w
   ∧ everConnectedRef w' = everConnectedRef w
   ∧ forcedCloseRef w' = forcedCloseRef w
   ∧ wsRef w' = None
   ∧ connectionTimeoutRef w' = None
   ∧ opened (trace w') = opened (trace w)
   ∧ sent (trace w') = sent (trace w))
  ∧ if retries_stopped p event w then
      currentReadyStateRef w' = CLOSED
      ∧ timers w' = without_handshake_timer w
      ∧ reconnectTimeoutRef w' = reconnectTimeoutRef w
      ∧ observer (trace w') =
          observer (trace w)
          ++ (if hasSetProps p
              then [state_update CLOSED "close" event
                      (if forcedCloseRef w then ∅ else Rev2.reconnectionStopped) (clock w)]
              else [])
    else
      currentReadyStateRef w' = CONNECTING
      ∧ timers w' =
          <[nextId w :=
              (Reconnect, Rev2.delay p (everConnectedRef w) (reconnectAttemptsRef w))]>
            (without_handshake_timer w)
      ∧ reconnectTimeoutRef w' = Some (nextId w)
      ∧ observer (trace w') =
          observer (trace w)
          ++ (if hasSetProps p then
                reconnecting_update event (clock w)
                :: (if negb (isReconnectAttemptRef w) && negb (timedOutRef w)
                    then [state_update CONNECTING "close" event ∅ (clock w)] else [])
              else []).
Proof.
  intros w'.
  destruct (refs_onclose_prelude p "onclose" w) as (Hws & Hct).
  assert (Htr := trace_onclose_prelude p "onclose" w).
  assert (Htm := timers_onclose_prelude_eq p "onclose" w).
  assert (Hfields :
    reconnectAttemptsRef (onclose_prelude p "onclose" w) = reconnectAttemptsRef w
    ∧ everConnectedRef (onclose_prelude p "onclose" w) = everConnectedRef w
    ∧ forcedCloseRef (onclose_prelude p "onclose" w) = forcedCloseRef w
    ∧ reconnectTimeoutRef (onclose_prelude p "onclose" w) = reconnectTimeoutRef w).
  { by rewrite !field_onclose_prelude. }
  destruct Hfields as (Ha & He & Hf & Hr).
  assert (Hd := Rev2_shouldAttemptReconnection_decision p event
                  (onclose_prelude p "onclose" w)).
  rewrite retries_stopped_onclose_prelude in Hd.
  destruct (forcedCloseRef w) eqn:Hforced.
  - (* forced *)
    assert (Hstop : retries_stopped p event w = true)
      by (unfold retries_stopped; by rewrite Hforced).
    rewrite Hstop.
    assert (Hw' : w' = _) by (by apply Rev2_ws_onclose_forced).
    set (w0 := onclose_prelude p "onclose" w) in *. clearbody w0.
    rewrite Hw'. unfold safeSetProps, emit, skip.
    destruct (hasSetProps p); fields; rewrite ?Ha, ?He, ?Hf, ?Hws, ?Hct, ?Htm, ?Hr, ?Htr,
      ?observer_app, ?opened_app, ?sent_app;
      destruct (debug (settings p)); cbn; by rewrite ?app_nil_r.
  - destruct (retries_stopped p event w) eqn:Hstop; cbn [negb] in Hd.
    + (* stopped *)
      assert (Hw' : w' = _) by (by apply Rev2_ws_onclose_stopped).
      assert (Hst := Rev2_shouldAttemptReconnection_same_state p event
                       (onclose_prelude p "onclose" w)).
      destruct (Rev2_shouldAttemptReconnection_trace p event
                  (onclose_prelude p "onclose" w)) as (Hob & Hop & Hse).
      set (w0 := onclose_prelude p "onclose" w) in *.
      set (w1 := (Rev2.shouldAttemptReconnection p event w0).2) in *.
      assert (Hsame : reconnectAttemptsRef w1 = reconnectAttemptsRef w0
                      ∧ everConnectedRef w1 = everConnectedRef w0
                      ∧ forcedCloseRef w1 = forcedCloseRef w0
                      ∧ wsRef w1 = wsRef w0
                      ∧ connectionTimeoutRef w1 = connectionTimeoutRef w0
                      ∧ timers w1 = timers w0
                      ∧ reconnectTimeoutRef w1 = reconnectTimeoutRef w0).
      { unfold same_state in Hst.
        repeat split;
          [ apply (f_equal reconnectAttemptsRef) in Hst
          | apply (f_equal everConnectedRef) in Hst
          | apply (f_equal forcedCloseRef) in Hst
          | apply (f_equal wsRef) in Hst
          | apply (f_equal connectionTimeoutRef) in Hst
          | apply (f_equal timers) in Hst
          | apply (f_equal reconnectTimeoutRef) in Hst ]; by cbn in Hst. }
      destruct Hsame as (S1 & S2 & S3 & S4 & S5 & S6 & S7).
      clearbody w1 w0.
      rewrite Hw'. unfold safeSetProps, emit, skip.
      destruct (hasSetProps p); fields;
        rewrite ?S1, ?S2, ?S3, ?S4, ?S5, ?S6, ?S7, ?Ha, ?He, ?Hf, ?Hws, ?Hct, ?Htm, ?Hr,
          ?observer_app, ?opened_app, ?sent_app, ?Hob, ?Hop, ?Hse, ?Htr,
          ?observer_app, ?opened_app, ?sent_app;
        destruct (debug (settings p)); cbn; by rewrite ?app_nil_r.
    + (* retry *)
      assert (Hw' : w' = _) by (by apply Rev2_ws_onclose_retry).
      cbv zeta in Hw'.
      set (w0 := onclose_prelude p "onclose" w) in *. clearbody w0.
      rewrite Hw'. unfold safeSetProps, debug_log, emit, skip.
      destruct (hasSetProps p), (debug (settings p)),
        (negb (isReconnectAttemptRef w) && negb (timedOutRef w)); fields;
        rewrite ?Ha, ?He, ?Hf, ?Hws, ?Hct, ?Htm, ?Hr, ?Htr,
          ?observer_app, ?opened_app, ?sent_app; cbn;
        rewrite ?observer_app, ?opened_app, ?sent_app, ?Htr,
          ?observer_app, ?opened_app, ?sent_app; cbn;
        by rewrite ?app_nil_r, <- ?app_assoc.
Qed.

(** ** [ws.onclose] before the retry budget was moved into it *)

(** X5.  In the first revision and in ReconnectWebSocket.tsx the close of a
    connection that was not closed on purpose always arms the retry timer,
    with the back-off delay of the current attempt count, whatever
    [maxReconnectAttempts] says: the budget is looked at only when that timer
    fires.  The attempt count is left as it was and the first revision stays
    Connecting; the Observer is told of the retry, never of a final close. *)
Theorem X5_early_onclose_always_retries (p : Props) (event : JsObj) (w : World) :
  forcedCloseRef w = false →
  let w1 := Rev1.ws_onclose p event w in
  let w0 := Legacy.ws_onclose p event w in
  (timers w1 =
     <[nextId w := (Reconnect, Rev1.delay p (reconnectAttemptsRef w))]>
       (without_handshake_timer w)
   ∧ reconnectTimeoutRef w1 = Some (nextId w)
   ∧ reconnectAttemptsRef w1 = reconnectAttemptsRef w
   ∧ currentReadyStateRef w1 = CONNECTING
   ∧ observer (trace w1) =
       observer (trace w)
       ++ (if hasSetProps p then
             reconnecting_update event (clock w)
             :: (if negb (isReconnectAttemptRef w) && negb (timedOutRef w)
                 then [state_update CONNECTING "close" event ∅ (clock w)] else [])
           else []))
  ∧ (timers w0 =
       <[nextId w := (Reconnect, Legacy.delay p (reconnectAttemptsRef w))]>
         (without_handshake_timer w)
     ∧ reconnectTimeoutRef w0 = Some (nextId w)
     ∧ reconnectAttemptsRef w0 = reconnectAttemptsRef w
     ∧ observer (trace w0) = observer (trace w) ++ [reconnecting_update event (clock w)]).
Proof.
  intros Hf w1 w0. split.
  - subst w1. unfold Rev1.ws_onclose, seq, ifte.
    change (debug_log p "onclose" (set_wsRef None (clear_connectionTimeout w)))
      with (onclose_prelude p "onclose" w).
    rewrite (field_onclose_prelude forcedCloseRef) by done. rewrite Hf.
    assert (Htr := trace_onclose_prelude p "onclose" w).
    assert (Htm := timers_onclose_prelude_eq p "onclose" w).
    assert (H0 : clock (onclose_prelude p "onclose" w) = clock w
                 ∧ nextId (onclose_prelude p "onclose" w) = nextId w
                 ∧ reconnectAttemptsRef (onclose_prelude p "onclose" w)
                   = reconnectAttemptsRef w
                 ∧ isReconnectAttemptRef (onclose_prelude p "onclose" w)
                   = isReconnectAttemptRef w
                 ∧ timedOutRef (onclose_prelude p "onclose" w) = timedOutRef w).
    { by rewrite !field_onclose_prelude. }
    destruct H0 as (Hc & Hn & Ha & Hi & Ht).
    set (wp := onclose_prelude p "onclose" w) in *. clearbody wp.
    unfold bind, when_, ifte, date_now, read, setTimeout, skip, seq, debug_log,
      safeSetProps, emit, skip.
    destruct (debug (settings p)), (hasSetProps p); fields; rewrite ?Hi, ?Ht;
      destruct (negb (isReconnectAttemptRef w) && negb (timedOutRef w)); fields;
      rewrite ?Hc, ?Hn, ?Ha, ?Htm, ?Htr, ?observer_app; cbn;
      rewrite ?observer_app, ?Htr, ?observer_app; cbn;
      by rewrite ?app_nil_r, <- ?app_assoc.
  - subst w0. unfold Legacy.ws_onclose, seq, ifte.
    cbn [forcedCloseRef set_wsRef].
    rewrite (field_clear_connectionTimeout forcedCloseRef) by done. rewrite Hf.
    assert (H0 : clock (clear_connectionTimeout w) = clock w
                 ∧ nextId (clear_connectionTimeout w) = nextId w
                 ∧ reconnectAttemptsRef (clear_connectionTimeout w)
                   = reconnectAttemptsRef w
                 ∧ trace (clear_connectionTimeout w) = trace w).
    { by rewrite !field_clear_connectionTimeout. }
    destruct H0 as (Hc & Hn & Ha & Htr).
    assert (Htm : timers (clear_connectionTimeout w) = without_handshake_timer w).
    { unfold clear_connectionTimeout, clearTimeout, without_handshake_timer.
      by destruct (connectionTimeoutRef w). }
    set (wp := clear_connectionTimeout w) in *. clearbody wp.
    unfold Legacy.setProps, bind, date_now, read, setTimeout, skip, seq, debug_log, emit,
      skip.
    destruct (debug (settings p)); fields;
      rewrite ?Hc, ?Hn, ?Ha, ?Htm, ?Htr, ?observer_app; cbn;
      rewrite ?observer_app, ?Htr; cbn; by rewrite ?app_nil_r.
Qed.

(** The budget is used up and the connection is lost all the same: the
    first revision arms timer 6 for one more retry. *)
Lemma X5_early_onclose_always_retries_witness :
  max_attempts_exceeded one_retry_allowed
    (S (reconnectAttemptsRef rev1_retrying_once)) = true
  ∧ reconnectTimeoutRef (Rev1.ws_onclose one_retry_allowed (closeEvent 1006)
                           rev1_retrying_once) = Some (nextId rev1_retrying_once).
Proof.
  split; [compute_done|].
  refine (proj1 (proj2 (proj1
    (X5_early_onclose_always_retries one_retry_allowed (closeEvent 1006)
       rev1_retrying_once _)))).
  compute_done.
Defined.

(** ** The retry timer *)

(** X6.  When the retry timer fires, the attempt count goes up by one.  The
    second revision then always opens a socket, marked as a reconnection
    attempt, without a word to the Observer; the retry budget plays no part
    here.  The first revision and ReconnectWebSocket.tsx open it only while
    the new count does not exceed [maxReconnectAttempts]; beyond it they
    return having changed nothing else: the state they are in stays and the
    Observer is not told. *)
Theorem X6_retry_timer (p : Props) (u : string) (t : nat) (d : Double) (w : World) :
  url_present p = Some u →
  timers w !! t = Some (Reconnect, d) →
  let n := S (reconnectAttemptsRef w) in
  (retried p u t w (Rev2.step p (TimerFires t) w)
   ∧ isReconnectAttemptRef (Rev2.step p (TimerFires t) w) = true
   ∧ currentReadyStateRef (Rev2.step p (TimerFires t) w) = CONNECTING)
  ∧ (if max_attempts_exceeded p n
     then gave_up t w (Rev1.step p (TimerFires t) w)
     else retried p u t w (Rev1.step p (TimerFires t) w)
          ∧ isReconnectAttemptRef (Rev1.step p (TimerFires t) w) = true
          ∧ currentReadyStateRef (Rev1.step p (TimerFires t) w) = CONNECTING)
  ∧ (hasSetProps p = true →
     if max_attempts_exceeded p n
     then gave_up t w (Legacy.step p (TimerFires t) w)
     else retried p u t w (Legacy.step p (TimerFires t) w)).
Proof.
  intros Hu Ht n. subst n. unfold retried, gave_up, same_state.
  cbn [Rev2.step Rev1.step Legacy.step]. unfold fire_timer. rewrite Ht.
  cbn [Rev2.run_timer Rev1.run_timer Legacy.run_timer].
  unfold Rev2.reconnect, Rev1.reconnect, Legacy.reconnect,
    Rev2.openConnection, Rev1.openConnection, Legacy.connect. rewrite Hu.
  split; [|split].
  - unfold seq, bind, ifte, read, date_now, newWebSocket, setTimeout, clearTimeout,
      debug_log, emit, skip.
    destruct (debug (settings p)); fields;
      rewrite ?observer_app, ?opened_app; cbn; by rewrite ?app_nil_r.
  - unfold seq, bind, ifte, read, date_now, newWebSocket, setTimeout, clearTimeout,
      debug_log, emit, skip. fields. cbn [andb].
    destruct (max_attempts_exceeded p (S (reconnectAttemptsRef w)));
      destruct (debug (settings p)); fields;
      rewrite ?observer_app, ?opened_app; cbn; by rewrite ?app_nil_r.
  - intros ->. cbn [negb].
    unfold seq, bind, ifte, read, date_now, newWebSocket, setTimeout, clearTimeout,
      debug_log, emit, skip. fields. cbn [andb].
    destruct (max_attempts_exceeded p (S (reconnectAttemptsRef w)));
      destruct (debug (settings p)); fields;
      rewrite ?observer_app, ?opened_app; cbn; by rewrite ?app_nil_r.
Qed.

(** The retry timer 4 of the sample run, after an open and a loss: the
    second revision opens socket 5. *)
Lemma X6_retry_timer_witness :
  opened (trace (Rev2.step one_retry_allowed (TimerFires 4)
                   (Rev2.run one_retry_allowed
                      [ConnectEffect; TimerFires 1; TransportOpen 2 plainEvent;
                       TransportClose 2 (closeEvent 1006)] (initial_world 0)))) = [2; 5].
Proof.
  set (w := Rev2.run _ _ _).
  assert (Hu : url_present one_retry_allowed = Some "wss://echo.websocket.org")
    by compute_done.
  assert (Ht : timers w !! 4 = Some (Reconnect, Finite 1000)) by (subst w; compute_done).
  destruct (X6_retry_timer one_retry_allowed _ 4 _ w Hu Ht) as ((H & _) & _).
  destruct H as (_ & -> & _). subst w. compute_done.
Defined.

(** ** What the [open] update says *)

Lemma Legacy_ws_onopen_eq (p : Props) (r : bool) (event : JsObj) (w : World) :
  Legacy.ws_onopen p r event w =
    emit (SetProps (state_update OPEN "open" event {["isReconnect" := JBool r]} (clock w)))
      (set_reconnectAttemptsRef 0 (debug_log p "onopen" (clear_connectionTimeout w))).
Proof.
  unfold Legacy.ws_onopen, Legacy.setProps, seq, bind, date_now, read. fields.
  rewrite (field_debug_log clock) by done.
  by rewrite (field_clear_connectionTimeout clock).
Qed.

Lemma open_update_fields (event : JsObj) (r : bool) (t : Z) :
  let u := state_update OPEN "open" event {["isReconnect" := JBool r]} t in
  state_field u "isReconnect" = Some (JBool r)
  ∧ state_field u "readyState" = Some (JNum 1)
  ∧ state_field u "type" = Some (JStr "open")
  ∧ state_field u "timeStamp" = Some (JNum t).
Proof.
  intros u. subst u. unfold state_update.
  rewrite !state_field_with_readyState, !createEventData_lookup.
  rewrite !(decide_False (P := _ ∈ copied_fields)) by compute_done.
  rewrite lookup_singleton_eq, !lookup_singleton_ne by done.
  rewrite !(decide_False (P := "readyState" = _)) by done.
  rewrite (decide_True (P := "readyState" = _)) by done.
  rewrite (decide_True (P := "type" = "type")) by done.
  rewrite (decide_False (P := "timeStamp" = "type")) by done.
  by rewrite (decide_True (P := "timeStamp" = "timeStamp")) by done.
Qed.

Lemma observer_snoc_SetProps (tr : list Effect) (u : gmap string JsObj) :
  observer (tr ++ [SetProps u]) = observer tr ++ [u].
Proof. by rewrite observer_app. Qed.

Lemma observer_onopen_prelude (p : Props) (w0 w : World) :
  trace w0 = trace w →
  observer (trace (debug_log p "onopen" (clear_connectionTimeout w0))) = observer (trace w).
Proof.
  intros H. by rewrite observer_debug_log, trace_clear_connectionTimeout, H.
Qed.

(** X7.  The [open] update of a socket that completes its handshake.  The
    two revisions of ReconnectingWebSocket.tsx report as [isReconnect] the
    shared flag [isReconnectAttemptRef], set by whichever call of
    [openConnection] came last, and clear the flag afterwards;
    ReconnectWebSocket.tsx reports the argument of the [connect] call that
    created this very socket.  In all three the update is the only one made,
    carries [readyState] 1, type [open] and the time of the call, and the
    attempt count is 0 afterwards. *)
Theorem X7_open_update (p : Props) (ws : nat) (k : Socket) (event : JsObj) (w : World) :
  hasSetProps p = true →
  sockets w !! ws = Some k →
  readyState k = CONNECTING →
  let shared := state_update OPEN "open" event
                  {["isReconnect" := JBool (isReconnectAttemptRef w)]} (clock w) in
  let own := state_update OPEN "open" event
               {["isReconnect" := JBool (sock_reconnectAttempt k)]} (clock w) in
  (observer (trace (Rev2.step p (TransportOpen ws event) w)) = observer (trace w) ++ [shared]
   ∧ isReconnectAttemptRef (Rev2.step p (TransportOpen ws event) w) = false
   ∧ reconnectAttemptsRef (Rev2.step p (TransportOpen ws event) w) = 0)
  ∧ (observer (trace (Rev1.step p (TransportOpen ws event) w)) = observer (trace w) ++ [shared]
     ∧ isReconnectAttemptRef (Rev1.step p (TransportOpen ws event) w) = false
     ∧ reconnectAttemptsRef (Rev1.step p (TransportOpen ws event) w) = 0)
  ∧ (observer (trace (Legacy.step p (TransportOpen ws event) w)) = observer (trace w) ++ [own]
     ∧ reconnectAttemptsRef (Legacy.step p (TransportOpen ws event) w) = 0)
  ∧ (state_field shared "isReconnect" = Some (JBool (isReconnectAttemptRef w))
     ∧ state_field own "isReconnect" = Some (JBool (sock_reconnectAttempt k))
     ∧ ∀ u, u = shared ∨ u = own →
         state_field u "readyState" = Some (JNum 1)
         ∧ state_field u "type" = Some (JStr "open")
         ∧ state_field u "timeStamp" = Some (JNum (clock w))).
Proof.
  intros Hp Hs Hr shared own.
  cbn [Rev2.step Rev1.step Legacy.step]. unfold deliver_open. rewrite Hs, Hr.
  rewrite Rev2_ws_onopen_eq, Rev1_ws_onopen_eq, Legacy_ws_onopen_eq.
  set (w0 := set_sockets _ w).
  assert (Hob := observer_onopen_prelude p w0 w eq_refl).
  unfold safeSetProps, emit. rewrite Hp. fields.
  rewrite !observer_snoc_SetProps, Hob.
  destruct (open_update_fields event (isReconnectAttemptRef w) (clock w))
    as (S1 & S2 & S3 & S4).
  destruct (open_update_fields event (sock_reconnectAttempt k) (clock w))
    as (O1 & O2 & O3 & O4).
  split; [|split; [|split; [|split; [|split]]]].
  - split; [reflexivity | split; reflexivity].
  - split; [reflexivity | split; reflexivity].
  - split; reflexivity.
  - exact S1.
  - exact O1.
  - intros u [-> | ->]; [exact (conj S2 (conj S3 S4)) | exact (conj O2 (conj O3 O4))].
Qed.

(** Socket 2 of the first handshake opens: the update says that this was no
    reconnection. *)
Lemma X7_open_update_witness :
  observer (trace (Rev2.step demo_props (TransportOpen 2 plainEvent) mid_handshake)) =
    observer (trace mid_handshake)
    ++ [state_update OPEN "open" plainEvent {["isReconnect" := JBool false]} 0].
Proof.
  assert (Hs : sockets mid_handshake !! 2 = Some connecting_socket) by compute_done.
  exact (proj1 (proj1
    (X7_open_update demo_props 2 connecting_socket plainEvent mid_handshake
       eq_refl Hs eq_refl))).
Defined.

(** ** The effects of a step *)

Section Emits.

Variable Q : Effect → Prop.

Lemma emits_silent (a : Action) : (∀ w, trace (a w) = trace w) → emits Q a.
Proof. intros H w. exists []. by rewrite H, app_nil_r. Qed.

Lemma emits_skip : emits Q skip.
Proof. by apply emits_silent. Qed.

Lemma emits_emit (e : Effect) : Q e → emits Q (emit e).
Proof. intros H w. exists [e]. split; [done | by constructor]. Qed.

Lemma emits_seq (a b : Action) : emits Q a → emits Q b → emits Q (a >>> b).
Proof.
  intros Ha Hb w. unfold seq.
  destruct (Ha w) as (es1 & H1 & Q1), (Hb (a w)) as (es2 & H2 & Q2).
  exists (es1 ++ es2). split; [by rewrite H2, H1, app_assoc | by apply Forall_app].
Qed.

Lemma emits_bind {A : Type} (m : Step A) (k : A → Action) :
  emits_step Q m → (∀ x, emits Q (k x)) → emits Q (bind m k).
Proof.
  intros Hm Hk w. unfold bind.
  destruct (Hm w) as (es1 & H1 & Q1), (Hk (m w).1 (m w).2) as (es2 & H2 & Q2).
  exists (es1 ++ es2). split; [by rewrite H2, H1, app_assoc | by apply Forall_app].
Qed.

Lemma emits_step_silent {A : Type} (m : Step A) :
  (∀ w, trace (m w).2 = trace w) → emits_step Q m.
Proof. intros H w. exists []. by rewrite H, app_nil_r. Qed.

Lemma emits_ifte (c : World → bool) (a b : Action) :
  emits Q a → emits Q b → emits Q (ifte c a b).
Proof. intros Ha Hb w. unfold ifte. destruct (c w); auto. Qed.

Lemma emits_when (c : World → bool) (a : Action) : emits Q a → emits Q (when_ c a).
Proof. intros Ha. apply emits_ifte; [done | apply emits_skip]. Qed.

Lemma emits_debug_log (p : Props) (s : string) :
  (debug (settings p) = true → Q (Console s)) → emits Q (debug_log p s).
Proof.
  intros H. unfold debug_log. destruct (debug (settings p)); [|apply emits_skip].
  by apply emits_emit, H.
Qed.

Lemma emits_safeSetProps (p : Props) (u : gmap string JsObj) :
  (hasSetProps p = true → Q (SetProps u)) → emits Q (safeSetProps p u).
Proof.
  intros H. unfold safeSetProps. destruct (hasSetProps p); [|apply emits_skip].
  by apply emits_emit, H.
Qed.

Lemma emits_newWebSocket (p : Props) (u : string) (r : bool) :
  (∀ ws, Q (NewWebSocket ws u (protocols p) (binaryType (settings p)))) →
  emits_step Q (newWebSocket p u r).
Proof. intros H w. eexists [_]. split; [done | by constructor]. Qed.

Lemma emits_ws_close (ws : nat) : Q (WsClose ws) → emits Q (ws_close ws).
Proof.
  intros H w. exists [WsClose ws]. split; [|by constructor].
  unfold ws_close, seq, emit. by repeat case_match.
Qed.

Lemma emits_close_current : (∀ ws, Q (WsClose ws)) → emits Q close_current.
Proof.
  intros H w. unfold close_current. destruct (wsRef w) as [ws|].
  - by apply emits_ws_close.
  - by apply emits_skip.
Qed.

Lemma emits_clear_connectionTimeout : emits Q clear_connectionTimeout.
Proof. apply emits_silent, trace_clear_connectionTimeout. Qed.

Lemma emits_clear_reconnectTimeout : emits Q clear_reconnectTimeout.
Proof. apply emits_silent. intros w. by apply field_clear_reconnectTimeout. Qed.

(** The browser's side adds nothing of its own. *)
Lemma emits_fire_timer (t : nat) (run : TimerCallback → Action) :
  (∀ cb, emits Q (run cb)) → emits Q (fire_timer t run).
Proof.
  intros H w. unfold fire_timer. destruct (timers w !! t) as [[cb ms]|].
  - apply (H cb (clearTimeout t w)).
  - by apply emits_skip.
Qed.

Lemma emits_deliver_open (ws : nat) (handler : bool → Action) :
  (∀ r, emits Q (handler r)) → emits Q (deliver_open ws handler).
Proof.
  intros H w. unfold deliver_open.
  destruct (sockets w !! ws) as [k|]; [|by apply emits_skip].
  destruct (readyState k); first [by apply emits_skip | apply (H _ (set_sockets _ w))].
Qed.

Lemma emits_deliver_close (ws : nat) (handler : Action) :
  emits Q handler → emits Q (deliver_close ws handler).
Proof.
  intros H w. unfold deliver_close.
  destruct (sockets w !! ws) as [k|]; [|by apply emits_skip].
  destruct (readyState k); first [by apply emits_skip | apply (H (set_sockets _ w))].
Qed.

Lemma emits_deliver_while_alive (ws : nat) (handler : Action) :
  emits Q handler → emits Q (deliver_while_alive ws handler).
Proof.
  intros H w. unfold deliver_while_alive.
  destruct (readyState <$> sockets w !! ws) as [[]|]; first [by apply emits_skip | apply H].
Qed.

Lemma emits_deliver_message (ws : nat) (handler : Action) :
  emits Q handler → emits Q (deliver_message ws handler).
Proof.
  intros H w. unfold deliver_message.
  destruct (readyState <$> sockets w !! ws) as [[]|]; first [by apply emits_skip | apply H].
Qed.

End Emits.

Lemma emits_impl (Q Q' : Effect → Prop) (a : Action) :
  (∀ e, Q e → Q' e) → emits Q a → emits Q' a.
Proof.
  intros HQ Ha w. destruct (Ha w) as (es & H & HF). exists es. split; [done|].
  eapply Forall_impl; eauto.
Qed.

(** Walks an action built from the combinators; [leaf] proves that an
    effect is allowed, [call] closes the calls of component functions. *)
Ltac emits_with leaf call :=
  repeat
    lazymatch goal with
    | |- emits _ skip => apply emits_skip
    | |- emits _ (seq _ _) => apply emits_seq
    | |- emits _ (bind _ _) => apply emits_bind; [| intros ?]
    | |- emits_step _ (read _) => by apply emits_step_silent
    | |- emits_step _ date_now => by apply emits_step_silent
    | |- emits_step _ (setTimeout _ _) => by apply emits_step_silent
    | |- emits_step _ (newWebSocket _ _ _) => apply emits_newWebSocket; intros; leaf
    | |- emits _ (ifte _ _ _) => apply emits_ifte
    | |- emits _ (when_ _ _) => apply emits_when
    | |- emits _ (debug_log _ _) => apply emits_debug_log; intros; leaf
    | |- emits _ (safeSetProps _ _) => apply emits_safeSetProps; intros; leaf
    | |- emits _ (emit _) => apply emits_emit; leaf
    | |- emits _ (ws_close _) => apply emits_ws_close; leaf
    | |- emits _ close_current => apply emits_close_current; intros; leaf
    | |- emits _ clear_connectionTimeout => apply emits_clear_connectionTimeout
    | |- emits _ clear_reconnectTimeout => apply emits_clear_reconnectTimeout
    | |- emits _ (if ?b then _ else _) => destruct b eqn:?
    | |- emits _ (match ?x with _ => _ end) => destruct x eqn:?
    | |- _ => first [solve [call] | by apply emits_silent]
    end.

(** Which call of [safeSetProps] an update comes from. *)
Ltac update_shape :=
  lazymatch goal with
  | |- Update (connecting_update _) => apply U_connecting
  | |- Update (reconnecting_update _ _) => apply U_reconnecting
  | |- Update (state_update OPEN _ _ _ _) => apply U_open
  | |- Update (state_update CLOSED _ _ ∅ _) => apply U_closed
  | |- Update (state_update CLOSED _ _ Rev2.reconnectionStopped _) => apply U_stopped
  | |- Update (state_update CONNECTING _ _ _ _) => apply U_lost
  | |- Update (event_update "message" _ _) => apply U_message
  | |- Update (event_update "error" _ _) => apply U_error
  end.

Ltac allowed :=
  cbn [emitted_by];
  first [ assumption | exact I | reflexivity
        | split; [assumption | first [update_shape | done]] ].

Section StepEffects.

Variable p : Props.
Variable i : Input.

Lemma Rev2_openConnection_emits (r : bool) :
  emits (emitted_by p i) (Rev2.openConnection p r).
Proof. unfold Rev2.openConnection. emits_with allowed fail. Qed.

Lemma Rev1_openConnection_emits (r : bool) :
  emits (emitted_by p i) (Rev1.openConnection p r).
Proof. unfold Rev1.openConnection. emits_with allowed fail. Qed.

Lemma Rev2_shouldAttemptReconnection_emits (event : JsObj) :
  emits_step (emitted_by p i) (Rev2.shouldAttemptReconnection p event).
Proof.
  intros w. unfold Rev2.shouldAttemptReconnection.
  repeat case_match; cbn [snd];
    first [ by apply emits_skip | apply emits_debug_log; intros; allowed ].
Qed.

Lemma Rev2_ws_onclose_emits (event : JsObj) :
  emits (emitted_by p i) (Rev2.ws_onclose p event).
Proof.
  unfold Rev2.ws_onclose.
  emits_with allowed ltac:(apply Rev2_shouldAttemptReconnection_emits).
Qed.

Lemma Rev1_ws_onclose_emits (event : JsObj) :
  emits (emitted_by p i) (Rev1.ws_onclose p event).
Proof. unfold Rev1.ws_onclose. emits_with allowed fail. Qed.

Lemma Rev2_disconnect_emits : emits (emitted_by p i) Rev2.disconnect.
Proof. unfold Rev2.disconnect. emits_with allowed fail. Qed.

Lemma Rev1_disconnect_emits : emits (emitted_by p i) Rev1.disconnect.
Proof. unfold Rev1.disconnect. emits_with allowed fail. Qed.

Lemma Rev2_run_timer_emits (cb : TimerCallback) :
  emits (emitted_by p i) (Rev2.run_timer p cb).
Proof.
  destruct cb; cbn [Rev2.run_timer];
    unfold Rev2.connectionTimeout, Rev2.reconnect;
    emits_with allowed ltac:(apply Rev2_openConnection_emits).
Qed.

Lemma Rev1_run_timer_emits (cb : TimerCallback) :
  emits (emitted_by p i) (Rev1.run_timer p cb).
Proof.
  destruct cb; cbn [Rev1.run_timer];
    unfold Rev1.connectionTimeout, Rev1.reconnect;
    emits_with allowed ltac:(apply Rev1_openConnection_emits).
Qed.

End StepEffects.

Section SendEffects.

Variable p : Props.

Lemma Rev2_sendMessage_emits (m : JsVal) :
  emits (emitted_by p (SendProp m)) (Rev2.sendMessage p m).
Proof.
  unfold Rev2.sendMessage. destruct (negb (hasSetProps p)); [apply emits_skip|].
  set (tail := debug_log p _ >>> when_ _ _).
  assert (Ht : emits (emitted_by p (SendProp m)) tail).
  { subst tail. emits_with allowed ltac:(apply Rev2_openConnection_emits). }
  intros w. unfold Rev2.try_send, ws_send.
  destruct (currentReadyStateRef w); try apply Ht.
  destruct (wsRef w) as [ws|]; [|apply Ht].
  destruct (readyState <$> sockets w !! ws) as [[]|].
  - apply (emits_seq _ (debug_log p "Send failed") tail); [|done].
    emits_with allowed fail.
  - apply (emits_seq _ (emit (WsSend ws m)) (debug_log p "Message sent successfully"));
      emits_with allowed fail.
  - apply emits_debug_log. intros. allowed.
  - apply emits_debug_log. intros. allowed.
  - apply emits_debug_log. intros. allowed.
Qed.

Lemma Rev1_sendMessage_emits (m : JsVal) :
  emits (emitted_by p (SendProp m)) (Rev1.sendMessage p m).
Proof.
  unfold Rev1.sendMessage. destruct (negb (hasSetProps p)); [apply emits_skip|].
  set (tail := debug_log p _ >>> when_ _ _).
  assert (Ht : emits (emitted_by p (SendProp m)) tail).
  { subst tail. emits_with allowed ltac:(apply Rev1_openConnection_emits). }
  intros w. unfold Rev1.try_send, ws_send.
  destruct (currentReadyStateRef w); try apply Ht.
  destruct (wsRef w) as [ws|]; [|apply Ht].
  destruct (readyState <$> sockets w !! ws) as [[]|].
  - apply (emits_seq _ (debug_log p "Send failed") tail); [|done].
    emits_with allowed fail.
  - apply (emits_seq _ (emit (WsSend ws m)) (debug_log p "Message sent successfully"));
      emits_with allowed fail.
  - apply emits_debug_log. intros. allowed.
  - apply emits_debug_log. intros. allowed.
  - apply emits_debug_log. intros. allowed.
Qed.

Lemma Rev2_step_emits (i : Input) : emits (emitted_by p i) (Rev2.step p i).
Proof.
  destruct i as [t|ws event|ws event|ws event|ws event|send| |c| |ms]; cbn [Rev2.step].
  - apply emits_fire_timer, Rev2_run_timer_emits.
  - apply emits_deliver_open. intros _. unfold Rev2.ws_onopen. emits_with allowed fail.
  - apply emits_deliver_message. unfold Rev2.ws_onmessage. emits_with allowed fail.
  - apply emits_deliver_while_alive. unfold Rev2.ws_onerror. emits_with allowed fail.
  - apply emits_deliver_close, Rev2_ws_onclose_emits.
  - unfold Rev2.send_effect. emits_with allowed ltac:(apply Rev2_sendMessage_emits).
  - apply emits_silent. intros w. unfold Rev2.connect_effect, setTimeout.
    by repeat case_match.
  - destruct c; cbn [Rev2.connect_cleanup];
      emits_with allowed ltac:(apply Rev2_disconnect_emits).
  - apply Rev2_disconnect_emits.
  - by apply emits_silent.
Qed.

Lemma Rev1_step_emits (i : Input) : emits (emitted_by p i) (Rev1.step p i).
Proof.
  destruct i as [t|ws event|ws event|ws event|ws event|send| |c| |ms]; cbn [Rev1.step].
  - apply emits_fire_timer, Rev1_run_timer_emits.
  - apply emits_deliver_open. intros _. unfold Rev1.ws_onopen. emits_with allowed fail.
  - apply emits_deliver_message. unfold Rev1.ws_onmessage. emits_with allowed fail.
  - apply emits_deliver_while_alive. unfold Rev1.ws_onerror. emits_with allowed fail.
  - apply emits_deliver_close, Rev1_ws_onclose_emits.
  - unfold Rev1.send_effect. emits_with allowed ltac:(apply Rev1_sendMessage_emits).
  - intros w. unfold Rev1.connect_effect.
    destruct (Rev1.connection_already_good p w); [by apply emits_skip|].
    assert (Hd : emits (emitted_by p ConnectEffect)
                   (Rev1.disconnect >>> set_forcedCloseRef false)).
    { emits_with allowed ltac:(apply Rev1_disconnect_emits). }
    destruct (Hd w) as (es & He & HQ). exists es. split; [|done].
    unfold setTimeout. by repeat case_match.
  - destruct c; cbn [Rev1.connect_cleanup];
      emits_with allowed ltac:(apply Rev1_disconnect_emits).
  - apply Rev1_disconnect_emits.
  - by apply emits_silent.
Qed.

End SendEffects.

(** The effects of a run are those of its steps. *)
Lemma run_emits (step : Input → Action) (Q : Input → Effect → Prop) (inputs : list Input)
    (w : World) :
  (∀ i, emits (Q i) (step i)) →
  ∃ es, trace (foldl (λ w i, step i w) w inputs) = trace w ++ es
        ∧ Forall (λ e, ∃ i, i ∈ inputs ∧ Q i e) es.
Proof.
  intros Hs. revert w. induction inputs as [|i inputs IH]; intros w; cbn [foldl].
  - exists []. by rewrite app_nil_r.
  - destruct (Hs i w) as (es1 & H1 & Q1), (IH (step i w)) as (es2 & H2 & Q2).
    exists (es1 ++ es2). split; [by rewrite H2, H1, app_assoc|].
    apply Forall_app. split.
    + eapply Forall_impl; [exact Q1|]. intros e He. exists i. split; [left | done].
    + eapply Forall_impl; [exact Q2|]. intros e (j & Hj & He). exists j.
      split; [by right | done].
Qed.

(** X8.  What a run of either revision of ReconnectingWebSocket.tsx can do
    to the outside while the component is rendered with the same props
    throughout, so that every callback, whichever render created it, closes
    over the same url, protocols, options and [setProps].  The run only adds
    to what it has done before, and each call it adds is caused by one of its
    inputs and is of one of these kinds: a console line, only with
    [settings.debug]; an update of the Observer, only when there is a
    [setProps], and only of the eight forms listed in [Update]; a new socket,
    only for the url, the protocols and the binary type of these props; a
    message passed to a socket, only a value that came in as the [send] prop;
    a [close()] on a socket.  Nothing is said here of a run in which the
    props change. *)
Theorem X8_effects_of_a_run (p : Props) (inputs : list Input) (w : World) :
  (∃ es, trace (Rev2.run p inputs w) = trace w ++ es
         ∧ Forall (λ e, ∃ i, i ∈ inputs ∧ emitted_by p i e) es)
  ∧ (∃ es, trace (Rev1.run p inputs w) = trace w ++ es
           ∧ Forall (λ e, ∃ i, i ∈ inputs ∧ emitted_by p i e) es).
Proof.
  split.
  - apply (run_emits (Rev2.step p) (emitted_by p)), Rev2_step_emits.
  - apply (run_emits (Rev1.step p) (emitted_by p)), Rev1_step_emits.
Qed.

(** ** The form of the updates *)

Lemma state_update_well_formed (s : ReadyState) (type : string) (event add : JsObj) (t : Z) :
  s ≠ CLOSING → add !! "readyState" = None →
  well_formed (state_update s type event add t).
Proof.
  intros Hs Hadd. unfold well_formed, state_update. split; [|split].
  - intros k [o Hk]. apply lookup_singleton_Some in Hk as [<- _]. compute_done.
  - intros o Ho. rewrite lookup_singleton_eq in Ho.
    assert (Ho' : with_readyState s (createEventData t type (Some event) add) = o)
      by congruence.
    rewrite <- Ho'. unfold with_readyState. rewrite lookup_union, createEventData_lookup.
    rewrite (decide_False (P := _ ∈ copied_fields)) by compute_done.
    rewrite Hadd.
    rewrite !(decide_False (P := "readyState" = _)) by done.
    rewrite lookup_singleton_eq. cbn [union_with option_union_with].
    destruct s; [compute_done | compute_done | done | compute_done].
  - intros [o Ho]. by rewrite lookup_singleton_ne in Ho.
Qed.

Lemma connecting_well_formed (o : JsObj) :
  well_formed {["connecting" := o; "state" := connecting_state]}.
Proof.
  unfold well_formed. split; [|split].
  - intros k [o' Hk]. apply lookup_insert_Some in Hk as [[<- _]|[_ Hk]]; [compute_done|].
    apply lookup_singleton_Some in Hk as [<- _]. compute_done.
  - intros o' Ho. rewrite lookup_insert_ne, lookup_singleton_eq in Ho by done.
    assert (Ho' : connecting_state = o') by congruence.
    rewrite <- Ho'. compute_done.
  - intros _. by rewrite lookup_insert_ne, lookup_singleton_eq.
Qed.

Lemma event_update_well_formed (type : string) (event : JsObj) (t : Z) :
  type ∈ ["message"; "error"] → well_formed (event_update type event t).
Proof.
  intros Ht. unfold well_formed, event_update.
  assert (Hk : type = "message" ∨ type = "error").
  { rewrite !elem_of_cons, elem_of_nil in Ht. tauto. }
  split; [|split].
  - intros k [o Ho]. apply lookup_singleton_Some in Ho as [<- _].
    destruct Hk as [-> | ->]; compute_done.
  - intros o Ho. apply lookup_singleton_Some in Ho as [Heq _].
    destruct Hk as [-> | ->]; discriminate.
  - intros [o Ho]. apply lookup_singleton_Some in Ho as [Heq _].
    destruct Hk as [-> | ->]; discriminate.
Qed.

Lemma Update_well_formed (u : gmap string JsObj) : Update u → well_formed u.
Proof.
  destruct 1.
  - apply connecting_well_formed.
  - apply connecting_well_formed.
  - apply state_update_well_formed; [done | by rewrite lookup_singleton_ne].
  - by apply state_update_well_formed.
  - apply state_update_well_formed; [done|]. unfold Rev2.reconnectionStopped.
    by rewrite lookup_insert_ne, lookup_singleton_ne.
  - by apply state_update_well_formed.
  - apply event_update_well_formed. compute_done.
  - apply event_update_well_formed. compute_done.
Qed.

Lemma observer_emitted (Q : Effect → Prop) (es : list Effect) :
  Forall Q es → (∀ u, Q (SetProps u) → Update u) → Forall well_formed (observer es).
Proof.
  intros HF HQ. induction HF as [|e es He _ IH]; [constructor|].
  destruct e; cbn; try exact IH.
  constructor; [|exact IH]. by apply Update_well_formed, HQ.
Qed.

(** X9.  Every update a component started afresh ever passes to the
    Observer, in either revision of ReconnectingWebSocket.tsx, has no other
    keys than [state], [message], [error] and [connecting]; a [state] object
    in it carries [readyState] 0, 1 or 3, which no field of the transport's
    signal can replace, and never 2; and a [connecting] event always comes
    together with the bare state [{readyState: 0}]. *)
Theorem X9_updates_are_well_formed (p : Props) (inputs : list Input) (t : Z) :
  Forall well_formed (observer (trace (Rev2.run p inputs (initial_world t))))
  ∧ Forall well_formed (observer (trace (Rev1.run p inputs (initial_world t)))).
Proof.
  split.
  - destruct (run_emits (Rev2.step p) (emitted_by p) inputs (initial_world t)
                (Rev2_step_emits p)) as (es & He & HF).
    unfold Rev2.run. rewrite He.
    apply (observer_emitted _ es HF). by intros u (i & _ & _ & Hu).
  - destruct (run_emits (Rev1.step p) (emitted_by p) inputs (initial_world t)
                (Rev1_step_emits p)) as (es & He & HF).
    unfold Rev1.run. rewrite He.
    apply (observer_emitted _ es HF). by intros u (i & _ & _ & Hu).
Qed.

(** ** ReconnectWebSocket.tsx without a [setProps] *)

Lemma Legacy_disconnect_idle : keeps idle Legacy.disconnect.
Proof.
  intros w (Htr & Hs & Ht & Hws). unfold idle.
  unfold Legacy.disconnect, seq, bind, read.
  rewrite (field_clear_reconnectTimeout wsRef), (field_clear_connectionTimeout wsRef), Hws
    by done.
  unfold skip. cbn [fst snd].
  rewrite (field_clear_reconnectTimeout trace), (field_clear_connectionTimeout trace),
    (field_clear_reconnectTimeout sockets), (field_clear_connectionTimeout sockets),
    (field_clear_reconnectTimeout wsRef), (field_clear_connectionTimeout wsRef) by done.
  repeat split; try done.
  unfold clear_reconnectTimeout, clear_connectionTimeout, clearTimeout.
  repeat case_match; fields; by rewrite ?Ht, ?delete_empty.
Qed.

(** X10.  Without a [setProps] the component of ReconnectWebSocket.tsx does
    nothing at all, whatever the url and the options: [connect] and
    [sendMessage] return at their first line, so that from a fresh start no
    socket is ever created, no timer armed and nothing emitted.  In
    particular none of the socket callbacks, which call [setProps] without
    a test, can ever run. *)
Theorem X10_Legacy_without_setProps_is_inert (p : Props) (inputs : list Input) (t : Z) :
  hasSetProps p = false →
  idle (Legacy.run p inputs (initial_world t)).
Proof.
  intros Hp.
  apply (keeps_foldl idle (Legacy.step p) inputs); [|by unfold idle].
  intros i w Hw. assert (Hw' := Hw). destruct Hw' as (Htr & Hs & Ht & Hws).
  destruct i as [t'|ws event|ws event|ws event|ws event|send| |c| |ms];
    cbn [Legacy.step].
  - unfold fire_timer. by rewrite Ht, lookup_empty.
  - unfold deliver_open. by rewrite Hs, lookup_empty.
  - unfold deliver_message. by rewrite Hs, lookup_empty.
  - unfold deliver_while_alive. by rewrite Hs, lookup_empty.
  - unfold deliver_close. by rewrite Hs, lookup_empty.
  - unfold Legacy.send_effect, Legacy.sendMessage, ifte, seq, skip. rewrite Hp.
    cbn [negb]. by repeat case_match.
  - unfold Legacy.connect_effect. cbn [snd]. unfold seq at 1 2.
    assert (Hd := Legacy_disconnect_idle w Hw).
    unfold Legacy.connect. rewrite Hp. cbn [negb].
    by repeat case_match.
  - destruct c; cbn [Legacy.connect_cleanup]; [done | by apply Legacy_disconnect_idle |].
    apply Legacy_disconnect_idle. unfold idle, clearTimeout. fields.
    by rewrite Ht, delete_empty.
  - by apply Legacy_disconnect_idle.
  - done.
Qed.

(** With the url and the options of the sample props but no [setProps], the
    effect, a change of the [send] prop and the unmount leave no trace. *)
Lemma X10_Legacy_without_setProps_is_inert_witness :
  trace (Legacy.run
           {| url := Some "wss://echo.websocket.org"; protocols := []; timeout := 1000;
              hasSetProps := false; settings := default_settings;
              state_readyState := CLOSED |}
           [ConnectEffect; SendProp (JStr "hello"); Unmount] (initial_world 0)) = [].
Proof.
  refine (proj1 (X10_Legacy_without_setProps_is_inert _ _ 0 _)). reflexivity.
Defined.

(** ** Sending in ReconnectWebSocket.tsx *)

Lemma sent_not_a_send (es : list Effect) : Forall not_a_send es → sent es = [].
Proof.
  induction 1 as [|e es He _ IH]; [done|]. by destruct e.
Qed.

Lemma observer_snoc (tr : list Effect) (e : Effect) :
  observer (tr ++ [e]) = observer tr ++ match e with SetProps u => [u] | _ => [] end.
Proof. rewrite observer_app. by destruct e. Qed.

Lemma opened_snoc (tr : list Effect) (e : Effect) :
  opened (tr ++ [e]) = opened tr ++ match e with NewWebSocket ws _ _ _ => [ws] | _ => [] end.
Proof. rewrite opened_app. by destruct e. Qed.

Lemma sent_snoc (tr : list Effect) (e : Effect) :
  sent (tr ++ [e]) = sent tr ++ match e with WsSend ws m => [(ws, m)] | _ => [] end.
Proof. rewrite sent_app. by destruct e. Qed.

(** The steps that hand back a value, run inside a [do]. *)
Lemma bind_read {A : Type} (f : World → A) (k : A → Action) (w : World) :
  bind (read f) k w = k (f w) w.
Proof. reflexivity. Qed.

Lemma bind_date_now (k : Z → Action) (w : World) : bind date_now k w = k (clock w) w.
Proof. reflexivity. Qed.

Lemma bind_setTimeout (cb : TimerCallback) (ms : Double) (k : nat → Action) (w : World) :
  bind (setTimeout cb ms) k w =
    k (nextId w)
      (set_nextId (S (nextId w)) (set_timers (<[nextId w := (cb, ms)]> (timers w)) w)).
Proof. reflexivity. Qed.

Lemma bind_newWebSocket (p : Props) (u : string) (r : bool) (k : nat → Action) (w : World) :
  bind (newWebSocket p u r) k w =
    k (nextId w)
      (emit (NewWebSocket (nextId w) u (protocols p) (binaryType (settings p)))
         (set_nextId (S (nextId w))
            (set_sockets (<[nextId w := fresh_socket u r]> (sockets w)) w))).
Proof. reflexivity. Qed.

Ltac run_binds :=
  repeat (first [ rewrite bind_newWebSocket | rewrite bind_date_now
                | rewrite bind_setTimeout | rewrite bind_read ]; cbv beta).

Section LegacySend.

Variable p : Props.
Hypothesis not_open : state_readyState p ≠ OPEN.

Lemma Legacy_connect_silent (r : bool) : emits not_a_send (Legacy.connect p r).
Proof. unfold Legacy.connect, Legacy.setProps. emits_with ltac:(exact I) fail. Qed.

Lemma Legacy_disconnect_silent : emits not_a_send Legacy.disconnect.
Proof. unfold Legacy.disconnect. emits_with ltac:(exact I) fail. Qed.

Lemma Legacy_sendMessage_now_silent (m : JsVal) :
  emits not_a_send (Legacy.sendMessage_now p m).
Proof.
  intros w. unfold Legacy.sendMessage_now.
  rewrite bool_decide_eq_false_2 by done.
  apply emits_debug_log. by intros _.
Qed.

Lemma Legacy_sendMessage_waiting_silent (m : JsVal) :
  emits not_a_send (Legacy.sendMessage_waiting p m).
Proof.
  unfold Legacy.sendMessage_waiting.
  emits_with ltac:(exact I) ltac:(apply Legacy_sendMessage_now_silent).
Qed.

Lemma Legacy_sendMessage_silent (m : JsVal) : emits not_a_send (Legacy.sendMessage p m).
Proof.
  unfold Legacy.sendMessage.
  emits_with ltac:(exact I)
    ltac:(first [apply Legacy_connect_silent | apply Legacy_sendMessage_waiting_silent]).
Qed.

Lemma Legacy_step_silent (i : Input) : emits not_a_send (Legacy.step p i).
Proof.
  destruct i as [t|ws event|ws event|ws event|ws event|send| |c| |ms]; cbn [Legacy.step].
  - apply emits_fire_timer. intros cb.
    destruct cb; cbn [Legacy.run_timer];
      unfold Legacy.connectionTimeout, Legacy.reconnect;
      emits_with ltac:(exact I)
        ltac:(first [ apply Legacy_connect_silent
                    | apply Legacy_sendMessage_waiting_silent
                    | apply Legacy_sendMessage_now_silent ]).
  - apply emits_deliver_open. intros r. unfold Legacy.ws_onopen, Legacy.setProps.
    emits_with ltac:(exact I) fail.
  - apply emits_deliver_message. unfold Legacy.ws_onmessage, Legacy.setProps.
    emits_with ltac:(exact I) fail.
  - apply emits_deliver_while_alive. unfold Legacy.ws_onerror, Legacy.setProps.
    emits_with ltac:(exact I) fail.
  - apply emits_deliver_close. unfold Legacy.ws_onclose, Legacy.setProps.
    emits_with ltac:(exact I) fail.
  - unfold Legacy.send_effect.
    emits_with ltac:(exact I) ltac:(apply Legacy_sendMessage_silent).
  - assert (H : emits not_a_send
                 (Legacy.disconnect >>> set_forcedCloseRef false >>>
                  match url_present p with
                  | Some _ => if automaticOpen (settings p) then Legacy.connect p false
                              else skip
                  | None => skip
                  end)).
    { emits_with ltac:(exact I)
        ltac:(first [apply Legacy_connect_silent | apply Legacy_disconnect_silent]). }
    exact H.
  - destruct c; cbn [Legacy.connect_cleanup];
      emits_with ltac:(exact I) ltac:(apply Legacy_disconnect_silent).
  - apply Legacy_disconnect_silent.
  - by apply emits_silent.
Qed.

End LegacySend.

(** X11.  ReconnectWebSocket.tsx decides whether to transmit by the
    [readyState] of the [state] prop it was rendered with, not by the socket
    it holds, and the two timers on which [sendMessage] waits read the same
    prop again: as long as that prop is not OPEN, no input whatever gets a
    message to a socket. *)
Theorem X11_Legacy_sends_only_when_state_prop_is_open (p : Props) (inputs : list Input)
    (w : World) :
  state_readyState p ≠ OPEN →
  sent (trace (Legacy.run p inputs w)) = sent (trace w).
Proof.
  intros Hp.
  destruct (run_emits (Legacy.step p) (λ _, not_a_send) inputs w
              (Legacy_step_silent p Hp)) as (es & He & HF).
  unfold Legacy.run. rewrite He, sent_app.
  rewrite (sent_not_a_send es), app_nil_r; [done|].
  eapply Forall_impl; [exact HF|]. by intros e (_ & _ & H).
Qed.

(** The socket opens, the [send] prop changes, and the timer on which
    [sendMessage] waits fires: with the [state] prop still at its default
    nothing is transmitted. *)
Lemma X11_Legacy_sends_only_when_state_prop_is_open_witness :
  sent (trace (Legacy.run demo_props
                 [ConnectEffect; TransportOpen 1 plainEvent; SendProp (JStr "hello");
                  TimerFires 5]
                 (initial_world 0))) = [].
Proof.
  refine (X11_Legacy_sends_only_when_state_prop_is_open demo_props _ (initial_world 0) _).
  discriminate.
Defined.

(** X12.  [sendMessage] of ReconnectWebSocket.tsx with the [state] prop at
    CLOSED starts a connection of its own each time it is called: it clears
    the forced-close flag and calls [connect(false)], which creates a socket
    and puts it into [wsRef] in place of whatever was there.  A socket held
    before is not closed and its entry is left as it is, the handshake timer
    of the old attempt stays pending, and the rest of the call is left to a
    timer of 100 ms. *)
Theorem X12_Legacy_sendMessage_reconnects (p : Props) (u : string) (m : JsVal) (w : World) :
  hasSetProps p = true →
  state_readyState p = CLOSED →
  url_present p = Some u →
  let w' := Legacy.sendMessage p m w in
  let ws := nextId w in
  opened (trace w') = opened (trace w) ++ [ws]
  ∧ wsRef w' = Some ws
  ∧ sockets w' = <[ws := fresh_socket u false]> (sockets w)
  ∧ timers w' =
      <[S (S ws) := (ResumeAfterReconnect m, Finite 100)]>
        (<[S ws := (ConnectionTimeout ws, Finite (timeoutInterval (settings p)))]> (timers w))
  ∧ forcedCloseRef w' = false
  ∧ reconnectAttemptsRef w' = 0
  ∧ observer (trace w') = observer (trace w) ++ [connecting_update (clock w)]
  ∧ sent (trace w') = sent (trace w)
  ∧ ∀ old, WsClose old ∈ trace w' → WsClose old ∈ trace w.
Proof.
  intros Hp Hs Hu w' ws. subst w' ws.
  unfold Legacy.sendMessage, Legacy.connect, Legacy.setProps.
  rewrite Hp, Hs, Hu. cbn [negb andb].
  rewrite bool_decide_eq_true_2 by done.
  unfold debug_log. destruct (debug (settings p));
    unfold seq, ifte, skip; run_binds; unfold emit; fields;
    rewrite ?observer_snoc, ?opened_snoc, ?sent_snoc; cbv beta iota;
    rewrite ?app_nil_r;
    (split; [reflexivity|]); (split; [reflexivity|]); (split; [reflexivity|]);
    (split; [reflexivity|]); (split; [reflexivity|]); (split; [reflexivity|]);
    (split; [reflexivity|]); (split; [reflexivity|]);
    intros old Hin; rewrite ?elem_of_app, ?elem_of_cons, ?elem_of_nil in Hin;
    repeat match goal with
           | H : _ ∨ _ |- _ => destruct H
           | H : WsClose _ = _ |- _ => discriminate H
           | H : False |- _ => destruct H
           end; assumption.
Qed.

(** Socket 1 is open and held when the [send] prop changes: socket 3 is
    created and takes its place. *)
Lemma X12_Legacy_sendMessage_reconnects_witness :
  let w := Legacy.run demo_props [ConnectEffect; TransportOpen 1 plainEvent]
             (initial_world 0) in
  wsRef w = Some 1
  ∧ (readyState <$> sockets w !! 1) = Some OPEN
  ∧ wsRef (Legacy.sendMessage demo_props (JStr "hello") w) = Some 3.
Proof.
  intros w. split; [compute_done|]. split; [compute_done|].
  refine (proj1 (proj2
    (X12_Legacy_sendMessage_reconnects demo_props "wss://echo.websocket.org"
       (JStr "hello") w _ _ _))); compute_done.
Defined.

(** ** [disconnect] called again *)

Lemma field_ws_close {A : Type} (f : World → A) (ws : nat) (w : World) :
  (∀ tr w, f (set_trace tr w) = f w) →
  (∀ v w, f (set_sockets v w) = f w) →
  f (ws_close ws w) = f w.
Proof.
  intros H1 H2. unfold ws_close, seq, emit. repeat case_match; by rewrite ?H2, ?H1.
Qed.

Lemma ws_close_again (ws : nat) (w : World) :
  ws_close ws (ws_close ws w) = emit (WsClose ws) (ws_close ws w).
Proof.
  unfold ws_close, seq, emit. fields.
  destruct (sockets w !! ws) as [k|] eqn:Hk; [destruct (readyState k) eqn:Hr|];
    fields; rewrite ?lookup_insert_eq, ?Hk; fields; by rewrite ?Hr.
Qed.

Lemma close_current_again (w : World) :
  close_current (close_current w) =
    match wsRef w with
    | Some ws => emit (WsClose ws) (close_current w)
    | None => w
    end.
Proof.
  unfold close_current at 1. rewrite (field_close_current wsRef) by done.
  unfold close_current. destruct (wsRef w) as [ws|]; [apply ws_close_again | done].
Qed.

Lemma clear_timeouts_cleared (w : World) :
  forcedCloseRef w = true → connectionTimeoutRef w = None → reconnectTimeoutRef w = None →
  clear_reconnectTimeout (clear_connectionTimeout (set_forcedCloseRef true w)) = w.
Proof.
  intros Hf Hc Hr. unfold clear_connectionTimeout.
  cbn [connectionTimeoutRef set_forcedCloseRef]. rewrite Hc.
  unfold clear_reconnectTimeout.
  cbn [reconnectTimeoutRef set_forcedCloseRef]. rewrite Hr.
  destruct w. cbn in Hf. by rewrite Hf.
Qed.

(** X13.  A second [disconnect()] in a row, as when the cleanup of the
    connect effect is followed by the unmount.  In both revisions of
    ReconnectingWebSocket.tsx, which leave the socket in [wsRef], it calls
    [close()] on that socket once more and changes nothing in the state of
    the component or of the browser; in ReconnectWebSocket.tsx, which
    empties [wsRef], it does nothing at all. *)
Theorem X13_disconnect_again (w : World) :
  Rev2.disconnect (Rev2.disconnect w) =
    match wsRef w with
    | Some ws => emit (WsClose ws) (Rev2.disconnect w)
    | None => Rev2.disconnect w
    end
  ∧ Rev1.disconnect (Rev1.disconnect w) =
      match wsRef w with
      | Some ws => emit (WsClose ws) (Rev1.disconnect w)
      | None => Rev1.disconnect w
      end
  ∧ same_state (Rev2.disconnect (Rev2.disconnect w)) (Rev2.disconnect w)
  ∧ Legacy.disconnect (Legacy.disconnect w) = Legacy.disconnect w.
Proof.
  assert (H2 : Rev2.disconnect (Rev2.disconnect w) =
                 match wsRef w with
                 | Some ws => emit (WsClose ws) (Rev2.disconnect w)
                 | None => Rev2.disconnect w
                 end).
  { destruct (refs_disconnect w) as (Hf & Hc & Hr & Hws & _).
    rewrite (Rev2_disconnect_eq (Rev2.disconnect w)).
    rewrite clear_timeouts_cleared by done.
    rewrite (Rev2_disconnect_eq w), close_current_again.
    rewrite (field_clear_reconnectTimeout wsRef), (field_clear_connectionTimeout wsRef)
      by done.
    cbn [wsRef set_forcedCloseRef]. destruct (wsRef w) eqn:Hw; [done|].
    unfold close_current.
    rewrite (field_clear_reconnectTimeout wsRef), (field_clear_connectionTimeout wsRef)
      by done.
    cbn [wsRef set_forcedCloseRef]. by rewrite Hw. }
  split; [exact H2|]. split; [exact H2|]. split.
  - rewrite H2. destruct (wsRef w); [|done].
    apply same_state_trans with (Rev2.disconnect w); [|done].
    unfold same_state. by symmetry.
  - unfold Legacy.disconnect, seq, bind, read. cbn [fst snd].
    set (w0 := clear_reconnectTimeout (clear_connectionTimeout w)).
    assert (H0 : connectionTimeoutRef w0 = None ∧ reconnectTimeoutRef w0 = None).
    { subst w0. split.
      - rewrite (field_clear_reconnectTimeout connectionTimeoutRef) by done.
        apply clear_connectionTimeout_cancels.
      - unfold clear_reconnectTimeout.
        destruct (reconnectTimeoutRef (clear_connectionTimeout w)) eqn:E; [done | exact E]. }
    destruct H0 as (Hc & Hr). clearbody w0.
    assert (Hclear : ∀ x, connectionTimeoutRef x = None → reconnectTimeoutRef x = None →
                          clear_reconnectTimeout (clear_connectionTimeout x) = x).
    { intros x Hxc Hxr. unfold clear_connectionTimeout. rewrite Hxc.
      unfold clear_reconnectTimeout. by rewrite Hxr. }
    destruct (wsRef w0) as [ws|] eqn:Hw.
    + unfold seq, skip. cbn [fst snd].
      set (w1 := set_wsRef None (ws_close ws (set_forcedCloseRef true w0))).
      assert (H1 : connectionTimeoutRef w1 = None ∧ reconnectTimeoutRef w1 = None).
      { subst w1. cbn [connectionTimeoutRef reconnectTimeoutRef set_wsRef].
        by rewrite (field_ws_close connectionTimeoutRef),
          (field_ws_close reconnectTimeoutRef). }
      destruct H1 as (H1c & H1r). by rewrite Hclear.
    + unfold skip. by rewrite Hclear, Hw.
Qed.

(** ** The flag [timedOutRef] in the second revision *)

Section Rev2TimedOut.

Variable p : Props.

Lemma Rev2_openConnection_settled (r : bool) : keeps settled (Rev2.openConnection p r).
Proof. unfold Rev2.openConnection. keeps_tac. Qed.

Lemma Rev2_connectionTimeout_settled (ws : nat) (w : World) :
  settled (Rev2.connectionTimeout p ws w).
Proof. reflexivity. Qed.

Lemma Rev2_shouldAttemptReconnection_settled (event : JsObj) :
  keeps_step settled (Rev2.shouldAttemptReconnection p event).
Proof.
  intros w Hw. unfold settled.
  assert (H := Rev2_shouldAttemptReconnection_same_state p event w).
  apply (f_equal timedOutRef) in H. cbn in H. by rewrite <- H.
Qed.

Lemma Rev2_ws_onclose_settled (event : JsObj) : keeps settled (Rev2.ws_onclose p event).
Proof.
  unfold Rev2.ws_onclose. keeps_with ltac:(apply Rev2_shouldAttemptReconnection_settled).
Qed.

Lemma Rev2_ws_onopen_settled (event : JsObj) : keeps settled (Rev2.ws_onopen p event).
Proof. unfold Rev2.ws_onopen. keeps_tac. Qed.

Lemma Rev2_ws_onmessage_settled (event : JsObj) : keeps settled (Rev2.ws_onmessage p event).
Proof. unfold Rev2.ws_onmessage. keeps_tac. Qed.

Lemma Rev2_ws_onerror_settled (event : JsObj) : keeps settled (Rev2.ws_onerror p event).
Proof. unfold Rev2.ws_onerror. keeps_tac. Qed.

Lemma Rev2_disconnect_settled : keeps settled Rev2.disconnect.
Proof. unfold Rev2.disconnect. keeps_tac. Qed.

Lemma Rev2_run_timer_settled (cb : TimerCallback) : keeps settled (Rev2.run_timer p cb).
Proof.
  destruct cb; cbn [Rev2.run_timer];
    [ intros w _; apply Rev2_connectionTimeout_settled
    | unfold Rev2.reconnect; keeps_with ltac:(apply Rev2_openConnection_settled)
    | apply Rev2_openConnection_settled
    | apply keeps_skip | apply keeps_skip ].
Qed.

Lemma Rev2_sendMessage_settled (m : JsVal) : keeps settled (Rev2.sendMessage p m).
Proof.
  unfold Rev2.sendMessage. destruct (negb (hasSetProps p)); [apply keeps_skip|].
  intros w Hw. unfold Rev2.try_send, ws_send.
  assert (Hk : keeps settled
            (debug_log p "Cannot send message - connection state" >>>
             when_ (λ w, bool_decide (currentReadyStateRef w = CLOSED) && everConnectedRef w)
               (debug_log p "Attempting to reconnect for message send" >>>
                set_forcedCloseRef false >>> Rev2.openConnection p false))).
  { keeps_with ltac:(apply Rev2_openConnection_settled). }
  unfold settled in *.
  repeat case_match; simplify_eq;
    first [ apply Hk; by rewrite ?(field_debug_log timedOutRef)
          | by rewrite ?(field_debug_log timedOutRef) ].
Qed.

Lemma Rev2_step_settled (i : Input) : keeps settled (Rev2.step p i).
Proof.
  destruct i as [t|ws event|ws event|ws event|ws event|send| |c| |ms]; cbn [Rev2.step].
  - intros w Hw. unfold fire_timer. destruct (timers w !! t) as [[cb ms]|]; [|done].
    by apply Rev2_run_timer_settled.
  - intros w Hw. unfold deliver_open. repeat case_match; try done.
    by apply Rev2_ws_onopen_settled.
  - intros w Hw. unfold deliver_message. repeat case_match; try done.
    all: by apply Rev2_ws_onmessage_settled.
  - intros w Hw. unfold deliver_while_alive. repeat case_match; try done.
    all: by apply Rev2_ws_onerror_settled.
  - intros w Hw. unfold deliver_close. repeat case_match; try done.
    all: by apply Rev2_ws_onclose_settled.
  - unfold Rev2.send_effect. keeps_with ltac:(apply Rev2_sendMessage_settled).
  - intros w Hw. unfold Rev2.connect_effect, setTimeout. by repeat case_match.
  - destruct c; cbn [Rev2.connect_cleanup];
      keeps_with ltac:(apply Rev2_disconnect_settled).
  - apply Rev2_disconnect_settled.
  - by intros w Hw.
Qed.

End Rev2TimedOut.

(** X14.  In the second revision [timedOutRef] is false whenever a callback
    starts: the handshake timer, the only code that sets it, puts it back
    before it returns, and the [close] it asks for is delivered later.  So
    the test [!timedOutRef.current] in [ws.onclose] always holds, and a
    handshake that timed out is handled like any other loss. *)
Theorem X14_Rev2_timedOut_is_never_seen (p : Props) (inputs : list Input) (t : Z) :
  timedOutRef (Rev2.run p inputs (initial_world t)) = false
  ∧ ∀ ws w, timedOutRef (Rev2.connectionTimeout p ws w) = false.
Proof.
  split; [|reflexivity].
  apply (keeps_foldl settled (Rev2.step p) inputs); [|reflexivity].
  apply Rev2_step_settled.
Qed.

(** ** The attempt count *)

Section AttemptCount.

Variable p : Props.
Variable n : nat.

Ltac reset_count := intros ? ?; by right.

Lemma Rev2_openConnection_count (r : bool) :
  keeps (count_kept_or_reset n) (Rev2.openConnection p r).
Proof. unfold Rev2.openConnection. keeps_with reset_count. Qed.

Lemma Rev2_shouldAttemptReconnection_count (event : JsObj) :
  keeps_step (count_kept_or_reset n) (Rev2.shouldAttemptReconnection p event).
Proof.
  intros w Hw. unfold count_kept_or_reset.
  assert (H := Rev2_shouldAttemptReconnection_same_state p event w).
  apply (f_equal reconnectAttemptsRef) in H. cbn in H. by rewrite <- H.
Qed.

Lemma Rev2_ws_onclose_count (event : JsObj) :
  keeps (count_kept_or_reset n) (Rev2.ws_onclose p event).
Proof.
  unfold Rev2.ws_onclose. keeps_with ltac:(apply Rev2_shouldAttemptReconnection_count).
Qed.

Lemma Rev2_ws_onopen_count (event : JsObj) :
  keeps (count_kept_or_reset n) (Rev2.ws_onopen p event).
Proof. unfold Rev2.ws_onopen. keeps_with reset_count. Qed.

Lemma Rev2_ws_onmessage_count (event : JsObj) :
  keeps (count_kept_or_reset n) (Rev2.ws_onmessage p event).
Proof. unfold Rev2.ws_onmessage. keeps_tac. Qed.

Lemma Rev2_ws_onerror_count (event : JsObj) :
  keeps (count_kept_or_reset n) (Rev2.ws_onerror p event).
Proof. unfold Rev2.ws_onerror. keeps_tac. Qed.

Lemma Rev2_disconnect_count : keeps (count_kept_or_reset n) Rev2.disconnect.
Proof. unfold Rev2.disconnect. keeps_tac. Qed.

Lemma Rev2_sendMessage_count (m : JsVal) :
  keeps (count_kept_or_reset n) (Rev2.sendMessage p m).
Proof.
  unfold Rev2.sendMessage. destruct (negb (hasSetProps p)); [apply keeps_skip|].
  intros w Hw. unfold Rev2.try_send, ws_send.
  assert (Hk : keeps (count_kept_or_reset n)
            (debug_log p "Cannot send message - connection state" >>>
             when_ (λ w, bool_decide (currentReadyStateRef w = CLOSED) && everConnectedRef w)
               (debug_log p "Attempting to reconnect for message send" >>>
                set_forcedCloseRef false >>> Rev2.openConnection p false))).
  { keeps_with ltac:(apply Rev2_openConnection_count). }
  unfold count_kept_or_reset in *.
  repeat case_match; simplify_eq;
    first [ apply Hk; by rewrite ?(field_debug_log reconnectAttemptsRef)
          | by rewrite ?(field_debug_log reconnectAttemptsRef) ].
Qed.

End AttemptCount.

Lemma Rev2_reconnect_count (p : Props) (w : World) :
  reconnectAttemptsRef (Rev2.reconnect p w) = S (reconnectAttemptsRef w).
Proof.
  unfold Rev2.reconnect, Rev2.openConnection, seq. rewrite bind_read.
  destruct (url_present p); [|done].
  unfold seq, skip. run_binds. unfold debug_log, emit, skip.
  by destruct (debug (settings p)).
Qed.

(** X15.  One step of the second revision leaves the attempt count as it
    was, puts it back to 0, or raises it by one; and it raises it only when
    the step is the firing of a pending retry timer.  Nothing counts down
    and nothing skips a number. *)
Theorem X15_attempt_count_step (p : Props) (i : Input) (w : World) :
  let n := reconnectAttemptsRef w in
  let n' := reconnectAttemptsRef (Rev2.step p i w) in
  n' = n ∨ n' = 0
  ∨ (n' = S n ∧ ∃ t d, i = TimerFires t ∧ timers w !! t = Some (Reconnect, d)).
Proof.
  intros n n'. subst n'.
  assert (Hw : count_kept_or_reset n w) by (by left).
  assert (Hn : reconnectAttemptsRef w = n) by reflexivity.
  clearbody n.
  assert (Hor : ∀ w', count_kept_or_reset n w' →
            reconnectAttemptsRef w' = n ∨ reconnectAttemptsRef w' = 0
            ∨ (reconnectAttemptsRef w' = S n
               ∧ ∃ t d, i = TimerFires t ∧ timers w !! t = Some (Reconnect, d))).
  { intros w' [H|H]; tauto. }
  destruct i as [t|ws event|ws event|ws event|ws event|send| |c| |ms]; cbn [Rev2.step].
  - unfold fire_timer. destruct (timers w !! t) as [[cb ms]|] eqn:Ht; [|by left].
    destruct cb; cbn [Rev2.run_timer].
    + apply Hor. revert Hw.
      change (count_kept_or_reset n w) with (count_kept_or_reset n (clearTimeout t w)).
      generalize (clearTimeout t w).
      change (keeps (count_kept_or_reset n) (Rev2.connectionTimeout p ws)).
      unfold Rev2.connectionTimeout. keeps_tac.
    + right. right. split; [|by exists t, ms].
      by rewrite Rev2_reconnect_count, <- Hn.
    + apply Hor. by apply Rev2_openConnection_count.
    + by left.
    + by left.
  - apply Hor. unfold deliver_open. repeat case_match; try done.
    by apply Rev2_ws_onopen_count.
  - apply Hor. unfold deliver_message. repeat case_match; try done.
    all: by apply Rev2_ws_onmessage_count.
  - apply Hor. unfold deliver_while_alive. repeat case_match; try done.
    all: by apply Rev2_ws_onerror_count.
  - apply Hor. unfold deliver_close. repeat case_match; try done.
    all: by apply Rev2_ws_onclose_count.
  - apply Hor. clear Hor Hn. revert w Hw.
    change (keeps (count_kept_or_reset n) (Rev2.send_effect p send)).
    unfold Rev2.send_effect. keeps_with ltac:(apply Rev2_sendMessage_count).
  - apply Hor. unfold Rev2.connect_effect, setTimeout. by repeat case_match.
  - apply Hor. clear Hor Hn. revert w Hw.
    change (keeps (count_kept_or_reset n) (Rev2.connect_cleanup c)).
    destruct c; cbn [Rev2.connect_cleanup];
      keeps_with ltac:(apply Rev2_disconnect_count).
  - apply Hor. by apply Rev2_disconnect_count.
  - by left.
Qed.

(** ** [sendMessage] outside the cases of an open socket *)

Lemma Rev1_try_send_not_open (p : Props) (message : JsVal) (w : World) :
  currentReadyStateRef w ≠ OPEN → Rev1.try_send p message w = inr w.
Proof.
  intros Hn. unfold Rev1.try_send.
  destruct (currentReadyStateRef w); try done; by destruct (wsRef w).
Qed.

Lemma Rev1_sendMessage_not_open (p : Props) (message : JsVal) (w : World) :
  hasSetProps p = true →
  currentReadyStateRef w ≠ OPEN →
  Rev1.sendMessage p message w =
    if bool_decide (currentReadyStateRef w = CLOSED) then
      Rev1.openConnection p false
        (set_forcedCloseRef false
           (debug_log p "Attempting to reconnect for message send"
              (debug_log p "Cannot send message - connection state" w)))
    else debug_log p "Cannot send message - connection state" w.
Proof.
  intros Hs Hn. unfold Rev1.sendMessage. rewrite Hs. cbn [negb]. cbv beta.
  rewrite Rev1_try_send_not_open by done.
  unfold seq, when_, ifte, skip.
  by rewrite (field_debug_log currentReadyStateRef).
Qed.

Lemma Rev1_openConnection_fresh (p : Props) (u : string) (w : World) :
  url_present p = Some u →
  let w' := Rev1.openConnection p false w in
  trace w' =
    trace w
    ++ (if hasSetProps p then [SetProps (connecting_update (clock w))] else [])
    ++ (if debug (settings p) then [Console "attempt-connect"] else [])
    ++ [NewWebSocket (nextId w) u (protocols p) (binaryType (settings p))]
  ∧ timers w' =
      <[S (nextId w) := (ConnectionTimeout (nextId w), Finite (timeoutInterval (settings p)))]>
        (timers w)
  ∧ wsRef w' = Some (nextId w)
  ∧ reconnectAttemptsRef w' = 0
  ∧ currentReadyStateRef w' = CONNECTING
  ∧ forcedCloseRef w' = forcedCloseRef w.
Proof.
  intros Hu w'. subst w'. unfold Rev1.openConnection. rewrite Hu.
  unfold ifte. cbn [andb]. unfold safeSetProps, debug_log.
  destruct (hasSetProps p), (debug (settings p));
    unfold seq, skip; run_binds; unfold emit; fields;
    by rewrite <- ?app_assoc.
Qed.

(** X16.  [sendMessage] of the first revision while the state is Closed
    reopens the connection whether or not the endpoint was ever reached: it
    clears the forced-close flag and runs [openConnection(false)], which
    reports [connecting], creates one socket and arms its handshake timer;
    the message itself is not kept.  While the state is Connecting the call
    does nothing but write its debug line. *)
Theorem X16_Rev1_sendMessage_when_not_open (p : Props) (u : string) (message : JsVal)
    (w : World) :
  hasSetProps p = true →
  url_present p = Some u →
  let w' := Rev1.sendMessage p message w in
  (currentReadyStateRef w = CLOSED →
     observer (trace w') = observer (trace w) ++ [connecting_update (clock w)]
     ∧ opened (trace w') = opened (trace w) ++ [nextId w]
     ∧ sent (trace w') = sent (trace w)
     ∧ timers w' =
         <[S (nextId w) := (ConnectionTimeout (nextId w), Finite (timeoutInterval (settings p)))]>
           (timers w)
     ∧ wsRef w' = Some (nextId w)
     ∧ forcedCloseRef w' = false
     ∧ reconnectAttemptsRef w' = 0
     ∧ currentReadyStateRef w' = CONNECTING)
  ∧ (currentReadyStateRef w = CONNECTING →
     w' = debug_log p "Cannot send message - connection state" w).
Proof.
  intros Hs Hu w'. subst w'. split; intros Hc.
  - rewrite Rev1_sendMessage_not_open by (done || congruence).
    rewrite Hc, bool_decide_eq_true_2 by done.
    set (w0 := set_forcedCloseRef false _).
    assert (Ht : observer (trace w0) = observer (trace w)
                 ∧ opened (trace w0) = opened (trace w)
                 ∧ sent (trace w0) = sent (trace w)).
    { subst w0. cbn [trace set_forcedCloseRef].
      by rewrite !observer_debug_log, !opened_debug_log, !sent_debug_log. }
    assert (Hn : nextId w0 = nextId w ∧ clock w0 = clock w ∧ timers w0 = timers w).
    { subst w0. cbn [nextId clock timers set_forcedCloseRef].
      by rewrite !(field_debug_log nextId), !(field_debug_log clock),
        !(field_debug_log timers). }
    destruct Ht as (Ht1 & Ht2 & Ht3), Hn as (Hn & Hk & Htm).
    destruct (Rev1_openConnection_fresh p u w0 Hu) as (Htr & H2 & H3 & H4 & H5 & H6).
    rewrite Htr, H2, H3, H4, H5, H6, Hs, Hn, Hk, Htm.
    rewrite !observer_app, !opened_app, !sent_app, Ht1, Ht2, Ht3.
    destruct (debug (settings p)); cbn [observer opened sent omap list_omap app];
      rewrite ?app_nil_r; by repeat split.
  - rewrite Rev1_sendMessage_not_open by (done || congruence).
    by rewrite Hc, bool_decide_eq_false_2.
Qed.

(** A component of the first revision that has never had a connection and
    is told to send: socket 1 is created. *)
Lemma X16_Rev1_sendMessage_when_not_open_witness :
  opened (trace (Rev1.sendMessage demo_props (JStr "ping") (initial_world 0))) = [1].
Proof.
  destruct (X16_Rev1_sendMessage_when_not_open demo_props "wss://echo.websocket.org"
              (JStr "ping") (initial_world 0) eq_refl eq_refl) as (H & _).
  destruct (H eq_refl) as (_ & H' & _). exact H'.
Defined.

(** X17.  When the state is still Open but the socket in [wsRef] has begun
    to close or has closed, [ws.send] takes the message and drops it without
    an exception; [sendMessage] of either revision then returns as after a
    successful send.  Nothing is transmitted, nothing is reported to the
    Observer and no reconnection is started. *)
Theorem X17_send_on_closing_socket_is_lost (p : Props) (message : JsVal) (ws : nat)
    (k : Socket) (w : World) :
  hasSetProps p = true →
  currentReadyStateRef w = OPEN →
  wsRef w = Some ws →
  sockets w !! ws = Some k →
  readyState k = CLOSING ∨ readyState k = CLOSED →
  Rev2.sendMessage p message w = debug_log p "Message sent successfully" w
  ∧ Rev1.sendMessage p message w = debug_log p "Message sent successfully" w
  ∧ sent (trace (Rev2.sendMessage p message w)) = sent (trace w)
  ∧ observer (trace (Rev2.sendMessage p message w)) = observer (trace w)
  ∧ opened (trace (Rev2.sendMessage p message w)) = opened (trace w).
Proof.
  intros Hs Ho Hw Hk Hr.
  assert (H2 : Rev2.sendMessage p message w = debug_log p "Message sent successfully" w).
  { unfold Rev2.sendMessage, Rev2.try_send, ws_send. rewrite Hs. cbn [negb]. cbv beta.
    rewrite Ho, Hw, Hk. cbn [fmap option_fmap option_map]. by destruct Hr as [-> | ->]. }
  split; [exact H2|]. split.
  - unfold Rev1.sendMessage, Rev1.try_send, ws_send. rewrite Hs. cbn [negb]. cbv beta.
    rewrite Ho, Hw, Hk. cbn [fmap option_fmap option_map]. by destruct Hr as [-> | ->].
  - by rewrite H2, sent_debug_log, observer_debug_log, opened_debug_log.
Qed.

(** The socket is open when the component is told to disconnect; a message
    that comes before the socket has closed is taken and lost. *)
Lemma X17_send_on_closing_socket_is_lost_witness :
  let w := Rev2.run demo_props
             [ConnectEffect; TimerFires 1; TransportOpen 2 plainEvent; Unmount]
             (initial_world 0) in
  sent (trace (Rev2.sendMessage demo_props (JStr "ping") w)) = [].
Proof.
  intros w.
  assert (Hk : sockets w !! 2 = Some {| readyState := CLOSING;
                                        sock_url := "wss://echo.websocket.org";
                                        sock_reconnectAttempt := false |})
    by compute_done.
  assert (Hc : currentReadyStateRef w = OPEN) by compute_done.
  assert (Hw : wsRef w = Some 2) by compute_done.
  destruct (X17_send_on_closing_socket_is_lost demo_props (JStr "ping") 2 _ w
              eq_refl Hc Hw Hk (or_introl eq_refl)) as (_ & _ & H & _).
  rewrite H. compute_done.
Defined.

(** ** The connect effect run twice *)

Lemma Rev2_connect_effect_eq (p : Props) (u : string) (w : World) :
  url_present p = Some u → automaticOpen (settings p) = true →
  Rev2.connect_effect p w =
    (ClearAndDisconnect (nextId w),
     set_nextId (S (nextId w))
       (set_timers (<[nextId w := (InitialOpen, Finite 50)]> (timers w))
          (set_forcedCloseRef false w))).
Proof. intros Hu Ha. unfold Rev2.connect_effect. by rewrite Hu, Ha. Qed.

Lemma timers_disconnect_None (t : nat) (w : World) :
  timers w !! t = None → timers (Rev2.disconnect w) !! t = None.
Proof.
  intros H. rewrite timers_disconnect. cbv zeta.
  destruct (reconnectTimeoutRef w) as [t1|], (connectionTimeoutRef w) as [t2|];
    rewrite ?lookup_delete_None; tauto.
Qed.

(** X18.  The connect effect run, cleaned up and run again before any timer
    has fired, as React does with a component mounted in strict mode.  In
    the second revision the first run only arms a timer of 50 ms, which the
    cleanup cancels: when the timers fire, the cancelled one does nothing and
    the one of the second run opens the only socket.  The effect of
    ReconnectWebSocket.tsx calls [connect] at once, so the two runs create
    two sockets. *)
Theorem X18_connect_effect_twice (p : Props) (u : string) (w : World) :
  url_present p = Some u →
  automaticOpen (settings p) = true →
  let t := nextId w in
  let w2 := Rev2.run p
              [ConnectEffect; ConnectCleanup (Rev2.connect_effect p w).1; ConnectEffect;
               TimerFires t; TimerFires (S t)] w in
  let w0 := Legacy.run p
              [ConnectEffect; ConnectCleanup (Legacy.connect_effect p w).1; ConnectEffect] w in
  (opened (trace w2) = opened (trace w) ++ [S (S t)]
   ∧ wsRef w2 = Some (S (S t))
   ∧ forcedCloseRef w2 = false
   ∧ timers w2 !! t = None ∧ timers w2 !! S t = None)
  ∧ (hasSetProps p = true → opened (trace w0) = opened (trace w) ++ [t; S (S t)]).
Proof.
  intros Hu Ha t w2 w0. split.
  - assert (Hw2 : ∃ w4, w2 = Rev2.openConnection p false w4
                        ∧ nextId w4 = S (S t)
                        ∧ opened (trace w4) = opened (trace w)
                        ∧ timers w4 !! t = None ∧ timers w4 !! S t = None
                        ∧ forcedCloseRef w4 = false).
    { subst w2. unfold Rev2.run. cbn [foldl Rev2.step].
      rewrite (Rev2_connect_effect_eq p u w Hu Ha). cbn [fst snd Rev2.connect_cleanup].
      unfold seq at 1.
      set (w1 := clearTimeout _ _).
      assert (H1 : timers w1 !! t = None ∧ nextId w1 = S t ∧ trace w1 = trace w).
      { subst w1. unfold clearTimeout. fields. by rewrite lookup_delete_eq. }
      destruct H1 as (H1t & H1n & H1tr). clearbody w1.
      rewrite (Rev2_connect_effect_eq p u _ Hu Ha). cbn [snd].
      assert (Hd : timers (Rev2.disconnect w1) !! t = None
                   ∧ nextId (Rev2.disconnect w1) = S t
                   ∧ opened (trace (Rev2.disconnect w1)) = opened (trace w)).
      { split; [by apply timers_disconnect_None|]. split.
        - rewrite Rev2_disconnect_eq, (field_close_current nextId),
            (field_clear_reconnectTimeout nextId), (field_clear_connectionTimeout nextId)
            by done. exact H1n.
        - rewrite trace_disconnect, opened_app, H1tr.
          destruct (wsRef w1); cbn; by rewrite app_nil_r. }
      destruct Hd as (Hdt & Hdn & Hdtr).
      set (wd := Rev2.disconnect w1) in *. clearbody wd.
      rewrite Hdn.
      set (w3 := set_nextId _ _).
      assert (H3 : timers w3 !! t = None
                   ∧ timers w3 !! S t = Some (InitialOpen, Finite 50)).
      { subst w3. fields. rewrite lookup_insert_ne by lia. split; [done|].
        by rewrite lookup_insert_eq. }
      destruct H3 as (H3a & H3b).
      rewrite (fire_cleared_timer t _ w3 H3a).
      unfold fire_timer. rewrite H3b. cbn [Rev2.run_timer].
      exists (clearTimeout (S t) w3). split; [reflexivity|].
      subst w3. unfold clearTimeout. fields.
      rewrite lookup_delete_eq, lookup_delete_ne, lookup_insert_ne by lia. done. }
    destruct Hw2 as (w4 & Hw2 & H4n & H4tr & H4a & H4b & H4f).
    rewrite Hw2. clear Hw2.
    rewrite (Rev2_openConnection_trace p u false w4 Hu), !opened_app, H4tr.
    destruct (Rev2_openConnection_socket p u false w4 Hu) as (Hws & _).
    rewrite Hws, (Rev2_openConnection_timers p u false w4 Hu), H4n.
    rewrite !lookup_insert_ne by lia.
    split.
    { destruct (hasSetProps p), (debug (settings p)); cbn; by rewrite ?app_nil_r. }
    split; [done|]. split; [|done].
    unfold Rev2.openConnection. rewrite Hu.
    unfold seq, skip. run_binds. unfold safeSetProps, debug_log, emit, skip.
    by destruct (hasSetProps p), (debug (settings p)).
  - intros Hs. subst w0. unfold Legacy.run. cbn [foldl Legacy.step].
    unfold Legacy.connect_effect. cbn [fst snd Legacy.connect_cleanup].
    rewrite Hu, Ha.
    assert (Hc : ∀ x, opened (trace (Legacy.connect p false x))
                      = opened (trace x) ++ [nextId x]
                      ∧ nextId (Legacy.connect p false x) = S (S (nextId x))).
    { intros x. unfold Legacy.connect, Legacy.setProps. rewrite Hu, Hs. cbn [negb andb].
      unfold ifte, seq, skip. run_binds. unfold debug_log, emit, skip.
      destruct (debug (settings p)); fields; rewrite ?opened_snoc; cbv beta iota;
        by rewrite ?app_nil_r. }
    assert (Hd : ∀ x, opened (trace (Legacy.disconnect x)) = opened (trace x)
                      ∧ nextId (Legacy.disconnect x) = nextId x).
    { intros x. unfold Legacy.disconnect, seq. rewrite bind_read.
      set (x0 := clear_reconnectTimeout (clear_connectionTimeout x)).
      assert (H0 : trace x0 = trace x ∧ nextId x0 = nextId x).
      { subst x0.
        by rewrite (field_clear_reconnectTimeout trace),
          (field_clear_connectionTimeout trace), (field_clear_reconnectTimeout nextId),
          (field_clear_connectionTimeout nextId). }
      destruct H0 as (H0a & H0b). clearbody x0.
      destruct (wsRef x0) as [ws|]; [|unfold skip; by rewrite H0a, H0b].
      unfold seq. fields. rewrite trace_ws_close, (field_ws_close nextId) by done.
      fields. rewrite opened_snoc, H0a, H0b. cbv beta iota. by rewrite app_nil_r. }
    unfold seq.
    repeat (first [ rewrite (proj1 (Hc _)) | rewrite (proj2 (Hc _))
                  | rewrite (proj1 (Hd _)) | rewrite (proj2 (Hd _)) ];
            cbn [trace nextId set_forcedCloseRef]).
    by rewrite <- app_assoc.
Qed.

(** The sample props at a fresh start: socket 3 is the only one. *)
Lemma X18_connect_effect_twice_witness :
  opened (trace (Rev2.run demo_props
                   [ConnectEffect; ConnectCleanup (ClearAndDisconnect 1); ConnectEffect;
                    TimerFires 1; TimerFires 2] (initial_world 0))) = [3].
Proof.
  exact (proj1 (proj1
    (X18_connect_effect_twice demo_props "wss://echo.websocket.org" (initial_world 0)
       eq_refl eq_refl))).
Defined.

(** ** Where [everConnectedRef] is set *)

Section NeverConnected.

Variable p : Props.

Lemma Rev2_openConnection_never (r : bool) :
  keeps never_connected (Rev2.openConnection p r).
Proof. unfold Rev2.openConnection. keeps_tac. Qed.

Lemma Rev2_shouldAttemptReconnection_never (event : JsObj) :
  keeps_step never_connected (Rev2.shouldAttemptReconnection p event).
Proof.
  intros w Hw. unfold never_connected.
  assert (H := Rev2_shouldAttemptReconnection_same_state p event w).
  apply (f_equal everConnectedRef) in H. cbn in H. by rewrite <- H.
Qed.

Lemma Rev2_ws_onclose_never (event : JsObj) :
  keeps never_connected (Rev2.ws_onclose p event).
Proof.
  unfold Rev2.ws_onclose. keeps_with ltac:(apply Rev2_shouldAttemptReconnection_never).
Qed.

Lemma Rev2_ws_onmessage_never (event : JsObj) :
  keeps never_connected (Rev2.ws_onmessage p event).
Proof. unfold Rev2.ws_onmessage. keeps_tac. Qed.

Lemma Rev2_ws_onerror_never (event : JsObj) :
  keeps never_connected (Rev2.ws_onerror p event).
Proof. unfold Rev2.ws_onerror. keeps_tac. Qed.

Lemma Rev2_disconnect_never : keeps never_connected Rev2.disconnect.
Proof. unfold Rev2.disconnect. keeps_tac. Qed.

Lemma Rev2_run_timer_never (cb : TimerCallback) :
  keeps never_connected (Rev2.run_timer p cb).
Proof.
  destruct cb; cbn [Rev2.run_timer];
    [ unfold Rev2.connectionTimeout; keeps_tac
    | unfold Rev2.reconnect; keeps_with ltac:(apply Rev2_openConnection_never)
    | apply Rev2_openConnection_never
    | apply keeps_skip | apply keeps_skip ].
Qed.

Lemma Rev2_sendMessage_never (m : JsVal) : keeps never_connected (Rev2.sendMessage p m).
Proof.
  unfold Rev2.sendMessage. destruct (negb (hasSetProps p)); [apply keeps_skip|].
  intros w Hw. unfold Rev2.try_send, ws_send.
  assert (Hk : keeps never_connected
            (debug_log p "Cannot send message - connection state" >>>
             when_ (λ w, bool_decide (currentReadyStateRef w = CLOSED) && everConnectedRef w)
               (debug_log p "Attempting to reconnect for message send" >>>
                set_forcedCloseRef false >>> Rev2.openConnection p false))).
  { keeps_with ltac:(apply Rev2_openConnection_never). }
  unfold never_connected in *.
  repeat case_match; simplify_eq;
    first [ apply Hk; by rewrite ?(field_debug_log everConnectedRef)
          | by rewrite ?(field_debug_log everConnectedRef) ].
Qed.

End NeverConnected.

(** X19.  In the second revision [everConnectedRef] becomes true in no
    other way than by the [open] event of a socket that was connecting:
    until then no timer, close, error, message, send or effect sets it, so
    that a component whose endpoint never answered is still treated as such
    by [shouldAttemptReconnection], by the back-off and by [sendMessage]. *)
Theorem X19_everConnected_only_by_open (p : Props) (i : Input) (w : World) :
  everConnectedRef w = false →
  everConnectedRef (Rev2.step p i w) = true →
  ∃ ws event k,
    i = TransportOpen ws event ∧ sockets w !! ws = Some k ∧ readyState k = CONNECTING.
Proof.
  intros Hw Hstep.
  assert (Hno : never_connected (Rev2.step p i w) → False).
  { unfold never_connected. by rewrite Hstep. }
  destruct i as [t|ws event|ws event|ws event|ws event|send| |c| |ms];
    cbn [Rev2.step] in *.
  - exfalso. apply Hno. unfold fire_timer.
    destruct (timers w !! t) as [[cb ms]|]; [|done].
    by apply Rev2_run_timer_never.
  - unfold deliver_open in Hstep.
    destruct (sockets w !! ws) as [k|] eqn:Hk; [|congruence].
    destruct (readyState k) eqn:Hr; try congruence.
    by exists ws, event, k.
  - exfalso. apply Hno. unfold deliver_message. repeat case_match; try done.
    all: by apply Rev2_ws_onmessage_never.
  - exfalso. apply Hno. unfold deliver_while_alive. repeat case_match; try done.
    all: by apply Rev2_ws_onerror_never.
  - exfalso. apply Hno. unfold deliver_close. repeat case_match; try done.
    all: by apply Rev2_ws_onclose_never.
  - exfalso. apply Hno. clear Hno Hstep. revert w Hw.
    change (keeps never_connected (Rev2.send_effect p send)).
    unfold Rev2.send_effect. keeps_with ltac:(apply Rev2_sendMessage_never).
  - exfalso. apply Hno. unfold Rev2.connect_effect, setTimeout. by repeat case_match.
  - exfalso. apply Hno. clear Hno Hstep. revert w Hw.
    change (keeps never_connected (Rev2.connect_cleanup c)).
    destruct c; cbn [Rev2.connect_cleanup];
      keeps_with ltac:(apply Rev2_disconnect_never).
  - exfalso. apply Hno. by apply Rev2_disconnect_never.
  - exfalso. by apply Hno.
Qed.

(** The first handshake completes. *)
Lemma X19_everConnected_only_by_open_witness :
  ∃ ws event k,
    TransportOpen 2 plainEvent = TransportOpen ws event
    ∧ sockets mid_handshake !! ws = Some k ∧ readyState k = CONNECTING.
Proof.
  apply (X19_everConnected_only_by_open demo_props (TransportOpen 2 plainEvent)
           mid_handshake); compute_done.
Defined.
